(** * OpenVPN-AS patch utility ([ovpn.py]): model and verification

    The script locates a [pyovpn-*.egg] archive, unpacks it in a temporary
    workspace, renames the compiled module [pyovpn/lic/uprop.pyc] to
    [uprop2.pyc], writes and compiles a facade [uprop.py] that re-exports
    [uprop2] and wraps [UsageProperties.figure], repacks the tree, backs the
    live archive up and copies the patched archive over it.

    The development has two layers:
    - the pipeline ([find_source_egg], [patch]) over an explicit file system,
      log and effect trace, threaded through a small state-and-exception
      monad;
    - the generated facade module, interpreted over a store of Python
      module namespaces, class objects and dictionaries. *)

From stdpp Require Import gmap strings list fin_maps sorting.
From Stdlib Require Import ZArith Ascii.

Local Open Scope string_scope.
Local Open Scope list_scope.
Local Open Scope stdpp_scope.

(* ================================================================== *)
(** * Strings and paths *)
(* ================================================================== *)

(** A path is the list of its components below the root; [str_path]
    renders it the way [str(Path)] does. *)
Abbreviation path := (list string).

Definition NL : string := String (Ascii.ascii_of_nat 10) EmptyString.
Definition ESC : string := String (Ascii.ascii_of_nat 27) EmptyString.

Fixpoint join (sep : string) (l : list string) : string :=
  match l with
  | [] => EmptyString
  | [s] => s
  | s :: rest => s +:+ sep +:+ join sep rest
  end.

Definition str_path (p : path) : string := "/" +:+ join "/" p.

(** [repr(Path)] as it appears inside a formatted list. *)
Definition repr_path (p : path) : string := "PosixPath('" +:+ str_path p +:+ "')".

Definition repr_paths (l : list path) : string :=
  "[" +:+ join ", " (map repr_path l) +:+ "]".

(** [Path.name] and [Path.parent]. *)
Definition name (p : path) : string := default EmptyString (last p).
Definition parent (p : path) : path := removelast p.

(** [Path.relative_to]: the components of [p] below [root]. *)
Fixpoint strip_prefix (root p : path) : option path :=
  match root with
  | [] => Some p
  | r :: root' =>
      match p with
      | [] => None
      | c :: p' => if String.eqb r c then strip_prefix root' p' else None
      end
  end.

Definition under (root p : path) : bool :=
  match strip_prefix root p with Some _ => true | None => false end.

(** [PurePath.suffix] and [PurePath.with_suffix]: the suffix starts at the
    last dot of the name, unless that dot is the first or the last
    character. *)
Fixpoint rfind_dot (s : string) (i : nat) (found : option nat) : option nat :=
  match s with
  | EmptyString => found
  | String c rest =>
      rfind_dot rest (S i) (if Ascii.eqb c "."%char then Some i else found)
  end.

Definition stem (n : string) : string :=
  match rfind_dot n 0 None with
  | Some i =>
      if (0 <? i)%nat && (i <? String.length n - 1)%nat
      then String.substring 0 i n else n
  | None => n
  end.

Definition with_suffix (p : path) (suffix : string) : path :=
  parent p ++ [stem (name p) +:+ suffix].

(** [fnmatch] for the pattern language the script uses: [*] matches any
    run of characters, [?] one character, anything else itself. *)
Fixpoint fnmatch (pat s : string) : bool :=
  match pat with
  | EmptyString => match s with EmptyString => true | _ => false end
  | String c pat' =>
      if Ascii.eqb c "*"%char then
        (fix star (s : string) : bool :=
           fnmatch pat' s ||
           match s with EmptyString => false | String _ s' => star s' end) s
      else
        match s with
        | EmptyString => false
        | String d s' =>
            (Ascii.eqb c "?"%char || Ascii.eqb c d) && fnmatch pat' s'
        end
  end.

(** Decimal rendering, zero-padded to [width] digits. *)
Definition digit (n : nat) : string :=
  String (Ascii.ascii_of_nat (48 + n mod 10)) EmptyString.

Fixpoint zpad (width n : nat) : string :=
  match width with
  | 0 => EmptyString
  | S w => zpad w (n / 10) +:+ digit n
  end.

(** [datetime.now(timezone.utc)] as the script reads it. *)
Record datetime := Datetime {
  year : nat; month : nat; day : nat;
  hour : nat; minute : nat; second : nat;
  microsecond : nat
}.

Definition directive (c : Ascii.ascii) (t : datetime) : string :=
  if Ascii.eqb c "Y"%char then zpad 4 (year t)
  else if Ascii.eqb c "m"%char then zpad 2 (month t)
  else if Ascii.eqb c "d"%char then zpad 2 (day t)
  else if Ascii.eqb c "H"%char then zpad 2 (hour t)
  else if Ascii.eqb c "M"%char then zpad 2 (minute t)
  else if Ascii.eqb c "S"%char then zpad 2 (second t)
  else if Ascii.eqb c "%"%char then "%"
  else String "%"%char (String c EmptyString).

Fixpoint strftime (fmt : string) (t : datetime) : string :=
  match fmt with
  | EmptyString => EmptyString
  | String c rest =>
      if Ascii.eqb c "%"%char then
        match rest with
        | EmptyString => "%"
        | String d rest' => directive d t +:+ strftime rest' t
        end
      else String c (strftime rest t)
  end.


(* ================================================================== *)
(** * Exceptions *)
(* ================================================================== *)

(** The exception classes the script can meet, with Python's class
    hierarchy: the [except] clauses of [patch] select by [isinstance]. *)
Inductive exn_class :=
  | BaseException | KeyboardInterrupt | Exception
  | OSError | PermissionError | FileNotFoundError | FileExistsError
  | IsADirectoryError | NotADirectoryError | SameFileError
  | BadZipFile | SubprocessError
  | TypeError | AttributeError | NameError | ImportError
  | RuntimeError | RecursionError | ValueError | SyntaxError.

#[global] Instance exn_class_eq_dec : EqDecision exn_class.
Proof. solve_decision. Defined.

Definition superclass (c : exn_class) : option exn_class :=
  match c with
  | BaseException => None
  | KeyboardInterrupt | Exception => Some BaseException
  | OSError | BadZipFile | SubprocessError
  | TypeError | AttributeError | NameError | ImportError | RuntimeError
  | ValueError | SyntaxError => Some Exception
  | RecursionError => Some RuntimeError
  | PermissionError | FileNotFoundError | FileExistsError
  | IsADirectoryError | NotADirectoryError | SameFileError => Some OSError
  end.

Fixpoint issubclass_upto (depth : nat) (c d : exn_class) : bool :=
  bool_decide (c = d) ||
  match depth with
  | 0 => false
  | S depth' =>
      match superclass c with
      | Some s => issubclass_upto depth' s d
      | None => false
      end
  end.

Definition issubclass : exn_class → exn_class → bool := issubclass_upto 3.

(** An exception object: its class and what [str(e)] renders. *)
Record exn := Exn { exn_class_of : exn_class; exn_str : string }.

Definition isinstance (e : exn) (c : exn_class) : bool :=
  issubclass (exn_class_of e) c.

(* ================================================================== *)
(** * The file system *)
(* ================================================================== *)

(** A file system maps absolute paths to nodes.  The root is the empty
    path; like every directory it is present in the map as [Dir]. *)
Inductive node :=
  | File (data : string)
  | Dir.

Definition is_file (m : gmap path node) (p : path) : bool :=
  match m !! p with Some (File _) => true | _ => false end.

Definition is_dir (m : gmap path node) (p : path) : bool :=
  match m !! p with Some Dir => true | _ => false end.

Definition exists_ (m : gmap path node) (p : path) : bool :=
  match m !! p with Some _ => true | None => false end.

(** A file-system operation returns the resulting file system and the
    exception it raised, if any: what was written before the exception
    stays written. *)
Definition fsop := gmap path node → gmap path node * option exn.

Definition fs_raise (c : exn_class) (p : path) : fsop :=
  λ m, (m, Some (Exn c (str_path p))).

(** Creating an entry needs its parent to be an existing directory. *)
Definition check_parent (m : gmap path node) (p : path) : option exn :=
  match m !! parent p with
  | Some Dir => None
  | Some (File _) => Some (Exn NotADirectoryError (str_path p))
  | None => Some (Exn FileNotFoundError (str_path p))
  end.

(** [os.mkdir]. *)
Definition mkdir (p : path) : fsop := λ m,
  match m !! p with
  | Some _ => fs_raise FileExistsError p m
  | None =>
      match check_parent m p with
      | Some e => (m, Some e)
      | None => (<[p := Dir]> m, None)
      end
  end.

(** [open(p, 'wb').write(d)]: create or truncate, then write. *)
Definition write_bytes (p : path) (d : string) : fsop := λ m,
  if is_dir m p then fs_raise IsADirectoryError p m
  else
    match check_parent m p with
    | Some e => (m, Some e)
    | None => (<[p := File d]> m, None)
    end.

(** [shutil.copy2(src, dst)]: a directory as [dst] receives the file
    under the source's base name. *)
Definition copy2_target (m : gmap path node) (src dst : path) : path :=
  if is_dir m dst then dst ++ [name src] else dst.

Definition copy2 (src dst : path) : fsop := λ m,
  let dst' := copy2_target m src dst in
  match m !! src with
  | None => fs_raise FileNotFoundError src m
  | Some Dir => fs_raise IsADirectoryError src m
  | Some (File d) =>
      if bool_decide (src = dst') then fs_raise SameFileError src m
      else write_bytes dst' d m
  end.

(** The entries strictly below [root], as absolute paths, in the
    enumeration order of the map. *)
Definition strictly_under (root p : path) : bool :=
  match strip_prefix root p with Some (_ :: _) => true | _ => false end.

Definition descendants (m : gmap path node) (root : path) : list (path * node) :=
  filter (λ pn, strictly_under root pn.1 = true) (map_to_list m).

Definition remove_tree (root : path) (m : gmap path node) : gmap path node :=
  filter (λ pn, under root pn.1 = false) m.

(** Re-root the entries [l] (absolute, below [src]) at [dst]. *)
Definition graft (src dst : path) (l : list (path * node))
    (m : gmap path node) : gmap path node :=
  foldr (λ pn acc,
           match strip_prefix src pn.1 with
           | Some rel => <[dst ++ rel := pn.2]> acc
           | None => acc
           end) m l.

(** [os.rename] with POSIX semantics: a file replaces an existing file
    silently; a directory moves with everything below it and may only
    replace an empty directory. *)
Definition rename (src dst : path) : fsop := λ m,
  match m !! src with
  | None => fs_raise FileNotFoundError src m
  | Some (File d) =>
      if is_dir m dst then fs_raise IsADirectoryError dst m
      else
        match check_parent m dst with
        | Some e => (m, Some e)
        | None => (<[dst := File d]> (delete src m), None)
        end
  | Some Dir =>
      if is_file m dst then fs_raise NotADirectoryError dst m
      else if bool_decide (src = dst) then (m, None)
      else if under src dst then fs_raise OSError dst m
      else
        match descendants m dst with
        | _ :: _ => fs_raise OSError dst m
        | [] =>
            match check_parent m dst with
            | Some e => (m, Some e)
            | None =>
                (graft src dst ((src, Dir) :: descendants m src)
                   (remove_tree src m), None)
            end
        end
  end.

(** [Path.unlink(missing_ok=True)]. *)
Definition unlink_missing_ok (p : path) : fsop := λ m,
  match m !! p with
  | None => (m, None)
  | Some (File _) => (delete p m, None)
  | Some Dir => fs_raise IsADirectoryError p m
  end.

(** [shutil.rmtree(p, ignore_errors=True)]: errors are swallowed, so a
    path that is not a directory is left alone. *)
Definition rmtree_ignore_errors (p : path) (m : gmap path node) : gmap path node :=
  if is_dir m p then remove_tree p m else m.

(** [Path.glob(pattern)] with a single-component pattern: the children
    of [dir] whose name matches. *)
Definition listdir (m : gmap path node) (dir : path) : list string :=
  if is_dir m dir then
    omap (λ pn : path * node,
            match strip_prefix dir pn.1 with
            | Some [n] => Some n
            | _ => None
            end) (map_to_list m)
  else [].

Definition glob (m : gmap path node) (dir : path) (pattern : string) : list path :=
  (λ n, dir ++ [n]) <$> List.filter (fnmatch pattern) (listdir m dir).

(** [Path.rglob("*")]: every file and directory below [root]. *)
Definition rglob (m : gmap path node) (root : path) : list path :=
  if is_dir m root then (descendants m root).*1 else [].

(** [tempfile.mkdtemp(prefix=...)]: candidate names are tried in turn
    until one does not exist. *)
Fixpoint mkdtemp_in (dir : path) (prefix : string) (names : list string)
    (m : gmap path node) : gmap path node * (exn + path) :=
  match names with
  | [] => (m, inl (Exn FileExistsError "No usable temporary directory name found"))
  | n :: rest =>
      let p := dir ++ [prefix +:+ n] in
      match m !! p with
      | Some _ => mkdtemp_in dir prefix rest m
      | None =>
          match check_parent m p with
          | Some e => (m, inl e)
          | None => (<[p := Dir]> m, inr p)
          end
      end
  end.

(* ================================================================== *)
(** * Zip archives *)
(* ================================================================== *)

Inductive compression := ZIP_STORED | ZIP_DEFLATED.

(** An archive member: a file with its bytes, or a directory entry. *)
Inductive member :=
  | MFile (arcname : path) (data : string)
  | MDir (arcname : path).

Definition arcname_of (mb : member) : path :=
  match mb with MFile a _ => a | MDir a => a end.

(** The container format is [zipfile]'s: the script only chooses the
    members and the compression method. *)
Class ZipCodec := {
  zip_encode : compression → list member → string;
  zip_decode : string → option (list member)
}.

(** What [zipfile] guarantees: an archive it wrote reads back. *)
Definition zip_roundtrip `{ZipCodec} : Prop :=
  ∀ c l, zip_decode (zip_encode c l) = Some l.

(** [ZipFile._extract_member] drops empty, [.] and [..] components of a
    member name before joining it to the destination. *)
Definition sane_component (c : string) : bool :=
  negb (String.eqb c EmptyString || String.eqb c "." || String.eqb c "..").

Definition sanitize (arcname : path) : path := List.filter sane_component arcname.

(** [os.makedirs] below an existing directory [base]. *)
Fixpoint makedirs_from (base : path) (comps : list string) : fsop := λ m,
  match comps with
  | [] => (m, None)
  | c :: cs =>
      let p := base ++ [c] in
      match m !! p with
      | Some Dir => makedirs_from p cs m
      | Some (File _) => fs_raise NotADirectoryError p m
      | None => makedirs_from p cs (<[p := Dir]> m)
      end
  end.

Definition fs_seq (a b : fsop) : fsop := λ m,
  match a m with
  | (m', None) => b m'
  | r => r
  end.

Definition extract_member (dest : path) (mb : member) : fsop :=
  let rel := sanitize (arcname_of mb) in
  let target := dest ++ rel in
  fs_seq (makedirs_from dest (removelast rel))
    (match mb with
     | MDir _ => λ m, if is_dir m target then (m, None) else mkdir target m
     | MFile _ d => write_bytes target d
     end).

Fixpoint extract_members (dest : path) (l : list member) : fsop :=
  match l with
  | [] => λ m, (m, None)
  | mb :: rest => fs_seq (extract_member dest mb) (extract_members dest rest)
  end.

(** [ZipFile(archive, "r").extractall(dest)]. *)
Definition extractall `{ZipCodec} (archive dest : path) : fsop := λ m,
  match m !! archive with
  | None => fs_raise FileNotFoundError archive m
  | Some Dir => fs_raise IsADirectoryError archive m
  | Some (File d) =>
      match zip_decode d with
      | None => (m, Some (Exn BadZipFile "File is not a zip file"))
      | Some members => extract_members dest members m
      end
  end.

(** [ZipFile.write(f, arcname)]: the member that [f] contributes. *)
Definition zip_member (m : gmap path node) (f arcname : path) : exn + member :=
  match m !! f with
  | Some (File d) => inr (MFile arcname d)
  | Some Dir => inr (MDir arcname)
  | None => inl (Exn FileNotFoundError (str_path f))
  end.

(* ================================================================== *)
(** * The world and its monad *)
(* ================================================================== *)

Inductive level := DEBUG | INFO | WARNING | ERROR.

Definition level_no (l : level) : nat :=
  match l with DEBUG => 10 | INFO => 20 | WARNING => 30 | ERROR => 40 end.

(** The effects the script asks of its environment, in call order.  An
    event is recorded when the call is made, whether or not it succeeds. *)
Inductive event :=
  | EvMkdtemp (dir : path) (prefix : string)
  | EvCopy (src dst : path)
  | EvMkdir (p : path)
  | EvExtractAll (archive dest : path)
  | EvRename (src dst : path)
  | EvWriteText (p : path)
  | EvSpawn (argv : list string) (cwd : path)
  | EvUnlink (p : path)
  | EvZipWrite (archive root : path)
  | EvRmtree (p : path).

#[global] Instance event_eq_dec : EqDecision event.
Proof. solve_decision. Defined.

Record world := World {
  fs : gmap path node;
  log : list (level * string);
  trace : list event
}.

Definition set_fs (m : gmap path node) (w : world) : world :=
  World m (log w) (trace w).

Definition add_event (ev : event) (w : world) : world :=
  World (fs w) (log w) (trace w ++ [ev]).

Definition add_log (r : level * string) (w : world) : world :=
  World (fs w) (log w ++ [r]) (trace w).

(** How a block of statements ends: it falls through with a value, it
    executes [return], or it raises. *)
Inductive outcome (A : Type) :=
  | Normal (a : A)
  | Returned
  | Raised (e : exn).
Arguments Normal {A} a.
Arguments Returned {A}.
Arguments Raised {A} e.

Definition M (A : Type) : Type := world → outcome A * world.

#[global] Instance M_ret : MRet M := λ A a w, (Normal a, w).

#[global] Instance M_bind : MBind M := λ A B k m w,
  match m w with
  | (Normal a, w') => k a w'
  | (Returned, w') => (Returned, w')
  | (Raised e, w') => (Raised e, w')
  end.

Definition raise {A} (e : exn) : M A := λ w, (Raised e, w).

(** The [return] statement (the script only returns [None]). *)
Definition return_ {A} : M A := λ w, (Returned, w).

Definition fs_read {A} (f : gmap path node → A) : M A := λ w, (Normal (f (fs w)), w).

(** Run a file-system operation, recording the call. *)
Definition fs_do (ev : event) (op : fsop) : M unit := λ w,
  let r := op (fs w) in
  (match r.2 with None => Normal tt | Some e => Raised e end,
   set_fs r.1 (add_event ev w)).

(** [try: body / except ...: handler]: the first matching clause handles
    the exception; [None] lets it propagate. *)
Definition try_except {A} (body : M A) (handler : exn → option (M A)) : M A := λ w,
  match body w with
  | (Raised e, w') =>
      match handler e with
      | Some h => h w'
      | None => (Raised e, w')
      end
  | r => r
  end.

(** [try: body / finally: final]: [final] runs however [body] ends; the
    way [body] ended stands unless [final] itself returns or raises. *)
Definition try_finally {A} (body : M A) (final : M unit) : M A := λ w,
  match body w with
  | (o, w') =>
      match final w' with
      | (Normal _, w'') => (o, w'')
      | (Returned, w'') => (Returned, w'')
      | (Raised e, w'') => (Raised e, w'')
      end
  end.

(** A function whose body is [m]: a [return] ends the call normally. *)
Definition def {A} (none : A) (m : M A) : M A := λ w,
  match m w with
  | (Returned, w') => (Normal none, w')
  | r => r
  end.

(** A block of statements run one after the other; a [return] or an
    exception in one of them skips the rest. *)
Fixpoint run_steps (steps : list (M unit)) : M unit :=
  match steps with
  | [] => mret tt
  | s :: rest => s;; run_steps rest
  end.

Definition is_normal {A} (o : outcome A) : bool :=
  match o with Normal _ => true | _ => false end.

(** The paths an effect may write, by the call that was made. *)
Definition touches (ev : event) (q : path) : bool :=
  match ev with
  | EvMkdtemp dir prefix =>
      match strip_prefix dir q with
      | Some [c] => String.prefix prefix c
      | _ => false
      end
  | EvCopy src dst => bool_decide (q = dst) || bool_decide (q = dst ++ [name src])
  | EvMkdir p => under p q
  | EvExtractAll _ dest => under dest q
  | EvRename src dst => under src q || under dst q
  | EvWriteText p => under p q
  | EvSpawn _ cwd => under cwd q
  | EvUnlink p => under p q
  | EvZipWrite archive _ => under archive q
  | EvRmtree p => under p q
  end.

(** [accounts w l w']: going from [w] to [w'] recorded exactly the
    effects [l], and left alone every path that none of them may write. *)
Definition accounts (w : world) (l : list event) (w' : world) : Prop :=
  trace w' = trace w ++ l ∧
  ∀ q, (∀ ev, ev ∈ l → touches ev q = false) → fs w' !! q = fs w !! q.

(** [sound evs m]: [m] performs a prefix of the effects [evs], all of
    them when it falls through, and accounts for its writes. *)
Definition sound {A} (evs : list event) (m : M A) : Prop :=
  ∀ w, ∃ l, accounts w l (m w).2 ∧ l `prefix_of` evs ∧
            (is_normal (m w).1 = true → l = evs).


(* ================================================================== *)
(** * The generated facade source *)
(* ================================================================== *)

Definition is_space (c : Ascii.ascii) : bool :=
  Ascii.eqb c " "%char || Ascii.eqb c (Ascii.ascii_of_nat 9).

Fixpoint is_blank (s : string) : bool :=
  match s with
  | EmptyString => true
  | String c rest => is_space c && is_blank rest
  end.

Fixpoint leading_spaces (s : string) : nat :=
  match s with
  | String c rest => if is_space c then S (leading_spaces rest) else 0
  | EmptyString => 0
  end.

Fixpoint drop_chars (n : nat) (s : string) : string :=
  match n, s with
  | S n', String _ rest => drop_chars n' rest
  | _, _ => s
  end.

Definition margin_of (lines : list string) : nat :=
  match List.filter (λ l, negb (is_blank l)) lines with
  | [] => 0
  | l :: rest => foldr (λ x acc, Nat.min (leading_spaces x) acc) (leading_spaces l) rest
  end.

(** [textwrap.dedent] on the lines of a text indented with spaces:
    whitespace-only lines become empty, the common margin is removed. *)
Definition dedent (lines : list string) : list string :=
  let margin := margin_of lines in
  (λ l, if is_blank l then EmptyString else drop_chars margin l) <$> lines.

(** [str.lstrip] for the whitespace the literal starts with. *)
Fixpoint lstrip (s : string) : string :=
  match s with
  | String c rest =>
      if is_space c || Ascii.eqb c (Ascii.ascii_of_nat 10) then lstrip rest else s
  | EmptyString => s
  end.

(** The triple-quoted literal of [patch], line by line. *)
Definition FACADE_LITERAL : list string := [
  EmptyString;
  "                from pyovpn.lic import uprop2";
  EmptyString;
  "                old_figure = None";
  EmptyString;
  "                def new_figure(self, licdict):";
  "                    ret = old_figure(self, licdict)";
  "                    ret['concurrent_connections'] = 200";
  "                    return ret";
  "                for x in dir(uprop2):";
  "                    if x[:2] == '__':";
  "                        continue";
  "                    if x == 'UsageProperties':";
  "                        exec('old_figure = uprop2.UsageProperties.figure')";
  "                        exec('uprop2.UsageProperties.figure = new_figure')";
  "                    exec('%s = uprop2.%s' % (x, x))";
  "                "
].

Definition FACADE_SOURCE : string := lstrip (join NL (dedent FACADE_LITERAL)).

(* ================================================================== *)
(** * The pipeline *)
(* ================================================================== *)

Definition EGG_DIR : path := ["usr"; "local"; "openvpn_as"; "lib"; "python"].
Definition EGG_PATTERN : string := "pyovpn-*.egg".
Definition BACKUP_DIR : path := ["tmp"].
Definition TIMESTAMP_FORMAT : string := "%Y%m%d-%H%M%S".

Definition Fore_CYAN : string := ESC +:+ "[36m".
Definition Fore_GREEN : string := ESC +:+ "[32m".
Definition Fore_YELLOW : string := ESC +:+ "[33m".
Definition Fore_RESET : string := ESC +:+ "[39m".

(** What [subprocess.run(..., capture_output=True, text=True)] returns. *)
Record CompletedProcess := Completed {
  returncode : Z;
  stdout : string;
  stderr : string
}.

(** One run of the external compiler: it exits, having written the
    compiled file or not, or the call itself raises. *)
Inductive spawned :=
  | Exited (result : CompletedProcess) (artifact : option string)
  | SpawnRaised (e : exn).

(** What a run takes from outside the script. *)
Record env := Env {
  tmproot : path;                (* tempfile.gettempdir() *)
  tmpnames : list string;        (* the random names mkdtemp tries *)
  utcnow : datetime;             (* datetime.now(timezone.utc) *)
  compileall : gmap path node → path → spawned
                                 (* python3 -m compileall -b <file> *)
}.

(** [compileall -b] writes the compiled file next to the source, under
    the source's name followed by [c]. *)
Definition compiled_path (src : path) : path := parent src ++ [name src +:+ "c"].

(** [x or default] on strings. *)
Definition str_or (s default : string) : string :=
  match s with EmptyString => default | _ => s end.

Section Pipeline.
Context `{ZipCodec}.
Variable DEBUG_MODE : bool.
Variable E : env.

(** [logging.basicConfig(level=DEBUG if DEBUG_MODE else INFO)]. *)
Definition logger_level : level := if DEBUG_MODE then DEBUG else INFO.

Definition logged (lvl : level) (msg : string) (w : world) : world :=
  if (level_no logger_level <=? level_no lvl)%nat then add_log (lvl, msg) w else w.

Definition logger_log (lvl : level) (msg : string) : M unit := λ w,
  (Normal tt, logged lvl msg w).

Definition logger_debug := logger_log DEBUG.
Definition logger_info := logger_log INFO.
Definition logger_warning := logger_log WARNING.
Definition logger_error := logger_log ERROR.

Definition tempfile_mkdtemp (prefix : string) : M path := λ w,
  let r := mkdtemp_in (tmproot E) prefix (tmpnames E) (fs w) in
  (match r.2 with inl e => Raised e | inr p => Normal p end,
   set_fs r.1 (add_event (EvMkdtemp (tmproot E) prefix) w)).

Definition setup_temp_dir (prefix : string) : M path :=
  temp_dir ← tempfile_mkdtemp prefix;
  logger_debug ("Created temporary directory: " +:+ str_path temp_dir);;
  mret temp_dir.

Definition find_source_egg : M (option path) :=
  egg_files ← fs_read (λ m, glob m EGG_DIR EGG_PATTERN);
  match egg_files with
  | [] =>
      logger_error ("No egg file matching " +:+ EGG_PATTERN +:+ " found in "
                    +:+ str_path EGG_DIR);;
      mret None
  | first :: _ =>
      (if (1 <? length egg_files)%nat then
         logger_warning ("Multiple egg files found: " +:+ repr_paths egg_files
                         +:+ ". Using the first one: " +:+ str_path first)
       else mret tt);;
      mret (Some first)
  end.

Definition subprocess_run (argv : list string) (cwd src : path) : M CompletedProcess := λ w,
  let w1 := add_event (EvSpawn argv cwd) w in
  match compileall E (fs w) src with
  | SpawnRaised e => (Raised e, w1)
  | Exited result artifact =>
      (Normal result,
       match artifact with
       | Some a =>
           if is_dir (fs w) (compiled_path src) then w1
           else set_fs (<[compiled_path src := File a]> (fs w)) w1
       | None => w1
       end)
  end.

(** The [for f in extract_dir.rglob("*"): zf.write(f, f.relative_to(extract_dir))]
    loop: the members written so far and the exception that stopped
    it, if any. *)
Fixpoint zip_write_all (m : gmap path node) (root : path) (files : list path)
    (zf : list member) : list member * option exn :=
  match files with
  | [] => (zf, None)
  | f :: rest =>
      match strip_prefix root f with
      | None => (zf, Some (Exn ValueError (str_path f)))
      | Some arcname =>
          match zip_member m f arcname with
          | inl e => (zf, Some e)
          | inr mb => zip_write_all m root rest (zf ++ [mb])
          end
      end
  end.

(** [with zipfile.ZipFile(archive, "w", ZIP_DEFLATED) as zf: ...]:
    opening truncates the archive; leaving the block writes what was
    added, also when the loop raised. *)
Definition repack (root archive : path) : fsop := λ m,
  match write_bytes archive EmptyString m with
  | (m1, Some e) => (m1, Some e)
  | (m1, None) =>
      let r := zip_write_all m1 root (rglob m1 root) [] in
      (<[archive := File (zip_encode ZIP_DEFLATED r.1)]> m1, r.2)
  end.

Definition backup_name (egg_name : string) (now : datetime) : string :=
  egg_name +:+ ".bak-" +:+ strftime TIMESTAMP_FORMAT now.

(** The paths the [try] block computes from the source archive and
    the workspace. *)
Definition dest_egg (SOURCE_EGG temp_dir : path) : path := temp_dir ++ [name SOURCE_EGG].
Definition extract_dir (temp_dir : path) : path := temp_dir ++ ["extracted"].
Definition lic_dir (temp_dir : path) : path := extract_dir temp_dir ++ ["pyovpn"; "lic"].
Definition old_pyc (temp_dir : path) : path := lic_dir temp_dir ++ ["uprop.pyc"].
Definition new_pyc (temp_dir : path) : path := lic_dir temp_dir ++ ["uprop2.pyc"].
Definition new_py (temp_dir : path) : path := lic_dir temp_dir ++ ["uprop.py"].
Definition pyc_file (temp_dir : path) : path := with_suffix (new_py temp_dir) ".pyc".
Definition backup_path (SOURCE_EGG : path) : path :=
  BACKUP_DIR ++ [backup_name (name SOURCE_EGG) (utcnow E)].
Definition compile_argv (temp_dir : path) : list string :=
  ["python3"; "-m"; "compileall"; "-b"; str_path (new_py temp_dir)].

(** The statements of the [try] block, grouped under the comments that
    head them in the script. *)

(* Copy egg *)
Definition step_copy (SOURCE_EGG temp_dir : path) : M unit :=
  fs_do (EvCopy SOURCE_EGG (dest_egg SOURCE_EGG temp_dir))
        (copy2 SOURCE_EGG (dest_egg SOURCE_EGG temp_dir));;
  logger_debug ("Copied egg to " +:+ str_path (dest_egg SOURCE_EGG temp_dir)).

(* Extract egg *)
Definition step_extract (SOURCE_EGG temp_dir : path) : M unit :=
  fs_do (EvMkdir (extract_dir temp_dir)) (mkdir (extract_dir temp_dir));;
  fs_do (EvExtractAll (dest_egg SOURCE_EGG temp_dir) (extract_dir temp_dir))
        (extractall (dest_egg SOURCE_EGG temp_dir) (extract_dir temp_dir));;
  logger_debug ("Extracted egg to " +:+ str_path (extract_dir temp_dir)).

(* Rename existing .pyc *)
Definition step_rename (temp_dir : path) : M unit :=
  old_exists ← fs_read (λ m, exists_ m (old_pyc temp_dir));
  if negb old_exists then
    logger_error ("Expected " +:+ str_path (old_pyc temp_dir) +:+ " not found, aborting.");;
    return_
  else
    fs_do (EvRename (old_pyc temp_dir) (new_pyc temp_dir))
          (rename (old_pyc temp_dir) (new_pyc temp_dir));;
    logger_debug ("Renamed " +:+ name (old_pyc temp_dir) +:+ " to "
                  +:+ name (new_pyc temp_dir)).

(* Create new uprop.py *)
Definition step_write_facade (temp_dir : path) : M unit :=
  fs_do (EvWriteText (new_py temp_dir)) (write_bytes (new_py temp_dir) FACADE_SOURCE);;
  logger_debug ("Wrote new " +:+ str_path (new_py temp_dir)).

(* Compile to .pyc *)
Definition step_compile (temp_dir : path) : M unit :=
  result ← subprocess_run (compile_argv temp_dir) (lic_dir temp_dir) (new_py temp_dir);
  if negb (returncode result =? 0)%Z then
    logger_error "Compilation failed:";;
    logger_error ("stdout: " +:+ str_or (stdout result) "(no stdout)");;
    logger_error ("stderr: " +:+ str_or (stderr result) "(no stderr)");;
    return_
  else
    logger_debug "Compiled uprop.py to uprop.pyc".

(* Verify uprop.pyc exists *)
Definition step_verify (temp_dir : path) : M unit :=
  pyc_exists ← fs_read (λ m, exists_ m (pyc_file temp_dir));
  if negb pyc_exists then
    logger_error ("Compiled file " +:+ str_path (pyc_file temp_dir)
                  +:+ " not found, aborting.");;
    return_
  else
    (if negb DEBUG_MODE
     then fs_do (EvUnlink (new_py temp_dir)) (unlink_missing_ok (new_py temp_dir))
     else mret tt);;
    logger_debug ((if DEBUG_MODE then "Left" else "Removed") +:+ " "
                  +:+ str_path (new_py temp_dir)).

(* Re-zip the patched tree *)
Definition step_repack (SOURCE_EGG temp_dir : path) : M unit :=
  fs_do (EvZipWrite (dest_egg SOURCE_EGG temp_dir) (extract_dir temp_dir))
        (repack (extract_dir temp_dir) (dest_egg SOURCE_EGG temp_dir));;
  logger_debug ("Repacked egg to " +:+ str_path (dest_egg SOURCE_EGG temp_dir)).

(* Backup original egg *)
Definition step_backup (SOURCE_EGG : path) : M unit :=
  try_except
    (fs_do (EvCopy SOURCE_EGG (backup_path SOURCE_EGG))
           (copy2 SOURCE_EGG (backup_path SOURCE_EGG));;
     logger_debug ("Backed up original egg to " +:+ str_path (backup_path SOURCE_EGG)))
    (λ e, if isinstance e FileNotFoundError
          then Some (logger_warning
                       "No existing live egg found to back up (first install?)")
          else None).

(* Deploy patched egg *)
Definition step_deploy (SOURCE_EGG temp_dir : path) : M unit :=
  fs_do (EvCopy (dest_egg SOURCE_EGG temp_dir) SOURCE_EGG)
        (copy2 (dest_egg SOURCE_EGG temp_dir) SOURCE_EGG);;
  logger_debug (Fore_GREEN +:+ "Deployed patched egg to " +:+ str_path SOURCE_EGG
                +:+ Fore_RESET).

(** The statements that build the patched archive inside the
    workspace. *)
Definition build_steps (SOURCE_EGG temp_dir : path) : list (M unit) := [
  step_copy SOURCE_EGG temp_dir;
  step_extract SOURCE_EGG temp_dir;
  step_rename temp_dir;
  step_write_facade temp_dir;
  step_compile temp_dir;
  step_verify temp_dir;
  step_repack SOURCE_EGG temp_dir
].

(** The body of the [try] block of [patch]. *)
Definition patch_body (SOURCE_EGG temp_dir : path) : M unit :=
  run_steps (build_steps SOURCE_EGG temp_dir
             ++ [step_backup SOURCE_EGG; step_deploy SOURCE_EGG temp_dir]).

(** The effects of a [try] block that runs to its end, in order. *)
Definition build_trace (SOURCE_EGG temp_dir : path) : list event :=
  [EvCopy SOURCE_EGG (dest_egg SOURCE_EGG temp_dir);
   EvMkdir (extract_dir temp_dir);
   EvExtractAll (dest_egg SOURCE_EGG temp_dir) (extract_dir temp_dir);
   EvRename (old_pyc temp_dir) (new_pyc temp_dir);
   EvWriteText (new_py temp_dir);
   EvSpawn (compile_argv temp_dir) (lic_dir temp_dir)]
  ++ (if DEBUG_MODE then [] else [EvUnlink (new_py temp_dir)])
  ++ [EvZipWrite (dest_egg SOURCE_EGG temp_dir) (extract_dir temp_dir)].

Definition body_trace (SOURCE_EGG temp_dir : path) : list event :=
  build_trace SOURCE_EGG temp_dir
  ++ [EvCopy SOURCE_EGG (backup_path SOURCE_EGG);
      EvCopy (dest_egg SOURCE_EGG temp_dir) SOURCE_EGG].

(** The [except] clauses of [patch], in order. *)
Definition patch_handlers (e : exn) : option (M unit) :=
  if isinstance e PermissionError then
    Some (logger_error ("Permission error: " +:+ exn_str e);;
          logger_error "Run script as root or check file permissions.")
  else if isinstance e BadZipFile then
    Some (logger_error ("Invalid zip file: " +:+ exn_str e))
  else if isinstance e SubprocessError then
    Some (logger_error ("Subprocess error: " +:+ exn_str e))
  else if isinstance e Exception then
    Some (logger_error ("Unexpected error: " +:+ exn_str e))
  else None.

(** The [finally] clause of [patch]. *)
Definition patch_finally (temp_dir : path) : M unit :=
  still_there ← fs_read (λ m, exists_ m temp_dir);
  if negb DEBUG_MODE && still_there then
    (λ w, (Normal tt, set_fs (rmtree_ignore_errors temp_dir (fs w))
                             (add_event (EvRmtree temp_dir) w)));;
    logger_debug ("Cleaned up temporary directory: " +:+ str_path temp_dir)
  else mret tt.

Definition patch : M unit :=
  def tt (
    logger_info (Fore_CYAN +:+ "Starting patch workflow" +:+ Fore_RESET);;
    found ← find_source_egg;
    match found with
    | None => logger_error "Aborting due to missing egg file.";; return_
    | Some SOURCE_EGG =>
        source_is_file ← fs_read (λ m, is_file m SOURCE_EGG);
        if negb source_is_file then
          logger_error ("Source egg not found: " +:+ str_path SOURCE_EGG);;
          logger_error "Ensure script is run as root and path is correct.";;
          return_
        else
        (* Create temporary workspace *)
        temp_dir ← (if DEBUG_MODE then setup_temp_dir "pyovpn_patch_"
                    else tempfile_mkdtemp "pyovpn_patch_");
        try_finally
          (try_except (patch_body SOURCE_EGG temp_dir) patch_handlers)
          (patch_finally temp_dir)
    end).
End Pipeline.

(** ** Names for what a run finds and creates *)

(** The archive [find_source_egg] settles on. *)
Definition located (m : gmap path node) : option path :=
  head (glob m EGG_DIR EGG_PATTERN).

(** The workspace [tempfile.mkdtemp] creates, if it manages to. *)
Definition workspace (E : env) (m : gmap path node) : option path :=
  match (mkdtemp_in (tmproot E) "pyovpn_patch_" (tmpnames E) m).2 with
  | inr p => Some p
  | inl _ => None
  end.

(** The effect of the [finally] clause. *)
Definition cleanup_trace (DEBUG_MODE : bool) (temp_dir : path) : list event :=
  if DEBUG_MODE then [] else [EvRmtree temp_dir].

(** What a call added to the effect trace. *)
Definition new_events (w w' : world) : list event :=
  drop (length (trace w)) (trace w').

(** What a call added to the log. *)
Definition new_log (w w' : world) : list (level * string) :=
  drop (length (log w)) (log w').

Definition start_message : string :=
  Fore_CYAN +:+ "Starting patch workflow" +:+ Fore_RESET.

(** Whether a path lies in a directory that [tempfile.mkdtemp] could
    have created for a run: below a child of the temporary root whose
    name starts with the workspace prefix. *)
Definition in_workspace (E : env) (q : path) : bool :=
  match strip_prefix (tmproot E) q with
  | Some (c :: _) => String.prefix "pyovpn_patch_" c
  | _ => false
  end.

(** The external compiler fails: it exits with a non-zero status, or it
    leaves no compiled file. *)
Definition compile_fails (sp : spawned) : Prop :=
  match sp with
  | Exited result artifact => returncode result ≠ 0%Z ∨ artifact = None
  | SpawnRaised _ => False
  end.

(** [stops_within evs steps w]: from [w], the steps never run to their
    end, and what they do is an initial segment of [evs]. *)
Definition stops_within (evs : list event) (steps : list (M unit)) (w : world) : Prop :=
  ∀ o w', run_steps steps w = (o, w') →
          o ≠ Normal tt ∧ ∃ l, trace w' = trace w ++ l ∧ l `prefix_of` evs.

(** The effects of the [try] block up to the call of the compiler. *)
Definition compile_trace (SOURCE_EGG temp_dir : path) : list event :=
  [EvCopy SOURCE_EGG (dest_egg SOURCE_EGG temp_dir);
   EvMkdir (extract_dir temp_dir);
   EvExtractAll (dest_egg SOURCE_EGG temp_dir) (extract_dir temp_dir);
   EvRename (old_pyc temp_dir) (new_pyc temp_dir);
   EvWriteText (new_py temp_dir);
   EvSpawn (compile_argv temp_dir) (lic_dir temp_dir)].

(** The file-system effect of the first steps of the [try] block: the
    copy into the workspace and the extraction. *)
Definition copy_and_extract `{ZipCodec} (SOURCE_EGG temp_dir : path) : fsop :=
  fs_seq (copy2 SOURCE_EGG (dest_egg SOURCE_EGG temp_dir))
    (fs_seq (mkdir (extract_dir temp_dir))
       (extractall (dest_egg SOURCE_EGG temp_dir) (extract_dir temp_dir))).

Definition missing_module_report (temp_dir : path) : level * string :=
  (ERROR, "Expected " +:+ str_path (old_pyc temp_dir) +:+ " not found, aborting.").

(** A stretch of the log without [ERROR] records. *)
Definition is_error (r : level * string) : bool :=
  match r.1 with ERROR => true | _ => false end.

Definition quiet (l : list (level * string)) : bool :=
  forallb (λ r, negb (is_error r)) l.

Definition is_returned {A} (o : outcome A) : bool :=
  match o with Returned => true | _ => false end.

(** What a run of the compiler leaves in the file system. *)
Definition compile_effect (E : env) (src : path) (m : gmap path node) : gmap path node :=
  match compileall E m src with
  | Exited _ (Some a) =>
      if is_dir m (compiled_path src) then m else <[compiled_path src := File a]> m
  | _ => m
  end.

(** [step_spec s P]: the step [s] logs an [ERROR] record exactly when it
    executes [return], and relates the worlds before and after by [P]
    when it falls through. *)
Definition step_spec (s : M unit) (P : world → world → Prop) : Prop :=
  ∀ w o w', s w = (o, w') →
    ∃ r, log w' = log w ++ r ∧ quiet r = negb (is_returned o) ∧
         (o = Normal tt → P w w').

(** The tree of a patched archive, by relative path: the extracted
    [tree] with the compiled facade [a] as [pyovpn/lic/uprop.pyc], the
    former [uprop.pyc] ([d]) as [pyovpn/lic/uprop2.pyc], and the facade
    source as [pyovpn/lic/uprop.py] in debug mode only. *)
Definition patched_tree_of (DEBUG_MODE : bool) (a d : string)
    (tree : path → option node) (rel : path) : option node :=
  if decide (rel = ["pyovpn"; "lic"; "uprop.pyc"]) then Some (File a)
  else if decide (rel = ["pyovpn"; "lic"; "uprop2.pyc"]) then Some (File d)
  else if decide (rel = ["pyovpn"; "lic"; "uprop.py"]) then
    (if DEBUG_MODE then Some (File FACADE_SOURCE) else None)
  else tree rel.

(** The tree a run extracts its archive to. *)
Definition extracted_tree `{ZipCodec} (m : gmap path node)
    (SOURCE_EGG temp_dir : path) (rel : path) : option node :=
  (copy_and_extract SOURCE_EGG temp_dir (<[temp_dir := Dir]> m)).1
    !! (extract_dir temp_dir ++ rel).

(* ================================================================== *)
(** * Directory trees *)
(* ================================================================== *)

(** What a file system guarantees of the entries below [root]: each
    carries a proper name and lies in a directory. *)
Definition tree_ok (m : gmap path node) (root : path) : bool :=
  forallb (λ pn : path * node,
             sane_component (name pn.1) && is_dir m (parent pn.1))
          (descendants m root).

(** The node an archive member stands for. *)
Definition node_of (mb : member) : node :=
  match mb with MFile _ d => File d | MDir _ => Dir end.

(** Extraction into [dest] of an archive that describes the tree [T]
    (relative path to node): what is below [dest] is part of [T]. *)
Definition part_of_tree (dest : path) (T : path → option node)
    (m : gmap path node) : Prop :=
  m !! dest = Some Dir ∧
  ∀ rel n, rel ≠ [] → m !! (dest ++ rel) = Some n → T rel = Some n.

(** Nothing that was there is lost or changed. *)
Definition grows (m m' : gmap path node) : Prop :=
  ∀ q n, m !! q = Some n → m' !! q = Some n.

(* ================================================================== *)
(** * The Python objects the facade handles *)
(* ================================================================== *)

(** Objects are known by their identity. *)
Definition loc := positive.

Inductive func :=
  | Foreign (id : N)          (* a function defined by some other module *)
  | NewFigure (globals : loc) (* [new_figure] of the facade module whose
                                 namespace is [globals] *).

Inductive value :=
  | VNone
  | VInt (n : Z)
  | VStr (s : string)
  | VRef (l : loc)            (* a module, class or dict object *)
  | VFunc (f : func).

#[global] Instance func_eq_dec : EqDecision func.
Proof. solve_decision. Defined.
#[global] Instance value_eq_dec : EqDecision value.
Proof. solve_decision. Defined.

(** A module is its namespace ([__dict__]); a class is the map from
    attribute names to what attribute lookup on the class resolves; a
    dict is keyed by strings, as the licence dictionaries are. *)
Inductive object :=
  | Module (ns : gmap string value)
  | Class (attrs : gmap string value)
  | Dict (items : gmap string value).

(** The interpreter state: the objects, [sys.modules], and the
    attribute and item assignments made so far (object and name), in
    order. *)
Record store := Store {
  objects : gmap loc object;
  sys_modules : gmap string loc;
  writes : list (loc * string)
}.

(** A new object. *)
Definition set_object (l : loc) (o : object) (st : store) : store :=
  Store (<[l := o]> (objects st)) (sys_modules st) (writes st).

(** An assignment to the entry [key] of the object [l]. *)
Definition assign (l : loc) (key : string) (o : object) (st : store) : store :=
  Store (<[l := o]> (objects st)) (sys_modules st) (writes st ++ [(l, key)]).

Definition Py (A : Type) : Type := store → outcome A * store.

#[global] Instance Py_ret : MRet Py := λ A a st, (Normal a, st).

#[global] Instance Py_bind : MBind Py := λ A B k m st,
  match m st with
  | (Normal a, st') => k a st'
  | (Returned, st') => (Returned, st')
  | (Raised e, st') => (Raised e, st')
  end.

Definition py_raise {A} (c : exn_class) (msg : string) : Py A :=
  λ st, (Raised (Exn c msg), st).

(** The namespace an object keeps its attributes in, if it has one. *)
Definition namespace_of (st : store) (v : value) : option (gmap string value) :=
  match v with
  | VRef l =>
      match objects st !! l with
      | Some (Module ns) | Some (Class ns) => Some ns
      | _ => None
      end
  | _ => None
  end.

(** [v.attr]. *)
Definition getattr (v : value) (attr : string) : Py value := λ st,
  match namespace_of st v ≫= (.!! attr) with
  | Some x => (Normal x, st)
  | None => (Raised (Exn AttributeError attr), st)
  end.

(** [v.attr = x]. *)
Definition setattr (v : value) (attr : string) (x : value) : Py unit := λ st,
  match v with
  | VRef l =>
      match objects st !! l with
      | Some (Module ns) => (Normal tt, assign l attr (Module (<[attr := x]> ns)) st)
      | Some (Class ns) => (Normal tt, assign l attr (Class (<[attr := x]> ns)) st)
      | _ => (Raised (Exn AttributeError attr), st)
      end
  | _ => (Raised (Exn AttributeError attr), st)
  end.

(** Reading and binding a global name of the module whose namespace is
    the object [g]. *)
Definition load_global (g : loc) (x : string) : Py value := λ st,
  match objects st !! g with
  | Some (Module ns) =>
      match ns !! x with
      | Some v => (Normal v, st)
      | None => (Raised (Exn NameError x), st)
      end
  | _ => (Raised (Exn NameError x), st)
  end.

Definition store_global (g : loc) (x : string) (v : value) : Py unit := λ st,
  match objects st !! g with
  | Some (Module ns) => (Normal tt, assign g x (Module (<[x := v]> ns)) st)
  | _ => (Raised (Exn NameError x), st)
  end.

(** [ret[key] = v]: only dicts take item assignment. *)
Definition setitem (ret : value) (key : string) (v : value) : Py unit := λ st,
  match ret with
  | VRef l =>
      match objects st !! l with
      | Some (Dict items) => (Normal tt, assign l key (Dict (<[key := v]> items)) st)
      | _ => (Raised (Exn TypeError "object does not support item assignment"), st)
      end
  | _ => (Raised (Exn TypeError "object does not support item assignment"), st)
  end.


(** [dir(v)]: the names of the namespace, sorted. *)
Definition str_le (a b : string) : Prop := String.leb a b = true.

#[global] Instance str_le_dec : RelDecision str_le.
Proof. intros a b. unfold str_le. apply _. Defined.

Definition names_of (ns : gmap string value) : list string :=
  merge_sort str_le ((map_to_list ns).*1).

Definition dir (v : value) : Py (list string) := λ st,
  (Normal (names_of (default ∅ (namespace_of st v))), st).

(** [for x in l: body]. *)
Fixpoint for_each {A} (l : list A) (body : A → Py unit) : Py unit :=
  match l with
  | [] => mret tt
  | x :: rest => body x;; for_each rest body
  end.

(** Compiled modules: the facade, or any other code, given by what
    running it does to the store, its own namespace being the module
    object it gets. *)
Inductive code :=
  | Facade
  | Other (body : loc → Py unit).

(** What an interpreter run takes from outside the facade: the modules
    that can be found, what calling functions and classes defined
    elsewhere does, and what running source text does that is not one
    of the statements interpreted below (in the namespace given). *)
Record pyenv := PyEnv {
  finder : string → option code;
  foreign : value → list value → Py value;
  exec_other : loc → string → Py unit
}.

(** Names that can stand on the left of an assignment: identifiers (in
    ASCII) that are not keywords. *)
Definition is_letter (c : Ascii.ascii) : bool :=
  let n := Ascii.nat_of_ascii c in
  ((65 <=? n) && (n <=? 90) || (97 <=? n) && (n <=? 122) || (n =? 95))%nat.

Definition is_digit (c : Ascii.ascii) : bool :=
  let n := Ascii.nat_of_ascii c in ((48 <=? n) && (n <=? 57))%nat.

Fixpoint all_chars (p : Ascii.ascii → bool) (s : string) : bool :=
  match s with
  | EmptyString => true
  | String c rest => p c && all_chars p rest
  end.

Definition KEYWORDS : list string := [
  "False"; "None"; "True"; "and"; "as"; "assert"; "async"; "await";
  "break"; "class"; "continue"; "def"; "del"; "elif"; "else"; "except";
  "finally"; "for"; "from"; "global"; "if"; "import"; "in"; "is";
  "lambda"; "nonlocal"; "not"; "or"; "pass"; "raise"; "return"; "try";
  "while"; "with"; "yield"
].

Definition is_identifier (x : string) : bool :=
  match x with
  | EmptyString => false
  | String c rest =>
      is_letter c && all_chars (λ c, is_letter c || is_digit c) rest
      && negb (existsb (String.eqb x) KEYWORDS)
  end.

(** [x[:2] == '__']. *)
Definition is_dunder (x : string) : bool :=
  String.eqb (String.substring 0 2 x) "__".

(** What a name is bound to in the namespace of the module [g]. *)
Definition global_of (st : store) (g : loc) (x : string) : option value :=
  match objects st !! g with
  | Some (Module ns) => ns !! x
  | _ => None
  end.

(** A fresh module object has dunder entries only ([__file__],
    [__loader__], [__spec__] and the like hold objects that are not
    modelled; their names are dunder names too). *)
Definition fresh_module (fullname : string) : object :=
  Module (<["__name__" := VStr fullname]> (<["__doc__" := VNone]> ∅)).

Definition fresh_loc (st : store) : loc :=
  fresh (dom (objects st)).

(** The statement [from pyovpn.lic import uprop2] reduces to importing
    the module [pyovpn.lic.uprop2] (the package is imported already,
    the facade being a module of it): a module found in [sys.modules],
    even one that is still being run, is taken as it is; otherwise the
    module is created, registered and run, and unregistered again when
    running it raises. *)
Definition import_from (exec_module : code → loc → Py unit) (E : pyenv)
    (fullname : string) : Py value := λ st,
  match sys_modules st !! fullname with
  | Some l => (Normal (VRef l), st)
  | None =>
      match finder E fullname with
      | None => (Raised (Exn ImportError fullname), st)
      | Some c =>
          let l := fresh_loc st in
          let st1 := Store (<[l := fresh_module fullname]> (objects st))
                           (<[fullname := l]> (sys_modules st)) (writes st) in
          match exec_module c l st1 with
          | (Raised e, st2) =>
              (Raised e, Store (objects st2) (delete fullname (sys_modules st2))
                               (writes st2))
          | (_, st2) => (Normal (VRef l), st2)
          end
      end
  end.

Section Facade.
Variable E : pyenv.

(** [type(v).__name__], for the message of a failed call. *)
Definition type_name (st : store) (v : value) : string :=
  match v with
  | VNone => "NoneType"
  | VInt _ => "int"
  | VStr _ => "str"
  | VFunc _ => "function"
  | VRef l =>
      match objects st !! l with
      | Some (Module _) => "module"
      | Some (Class _) => "type"
      | Some (Dict _) => "dict"
      | None => "object"
      end
  end.

Definition not_callable (v : value) : Py value := λ st,
  (Raised (Exn TypeError ("'" +:+ type_name st v +:+ "' object is not callable")), st).

(** Calling [f] on [args] with [depth] frames left before the recursion
    limit. *)
Fixpoint call (depth : nat) (f : value) (args : list value) : Py value :=
  match depth with
  | 0 => py_raise RecursionError "maximum recursion depth exceeded"
  | S depth' =>
      match f with
      | VFunc (NewFigure g) =>
          match args with
          | [self; licdict] =>
              ret ← (old_figure ← load_global g "old_figure";
                     call depth' old_figure [self; licdict]);
              setitem ret "concurrent_connections" (VInt 200);;
              mret ret
          | _ => py_raise TypeError "new_figure() takes 2 positional arguments"
          end
      | VFunc (Foreign _) => foreign E f args
      | VRef l => λ st,
          match objects st !! l with
          | Some (Class _) => foreign E f args st
          | _ => not_callable f st
          end
      | _ => not_callable f
      end
  end.

(** A call [exec(code)] in the module [g]: the name [exec] is the
    builtin unless the module's namespace binds it, in which case what
    it is bound to is called with the text; [run] is what the builtin
    does on [code], with the module's namespace as globals and locals. *)
Definition call_exec (depth : nat) (g : loc) (code : string) (run : Py unit)
    : Py unit := λ st,
  match global_of st g "exec" with
  | Some f => (call depth f [VStr code];; mret tt) st
  | None => run st
  end.

(** The three [exec] calls of the loop. *)

(* exec('old_figure = uprop2.UsageProperties.figure') *)
Definition exec_save_figure (depth : nat) (g : loc) : Py unit :=
  call_exec depth g "old_figure = uprop2.UsageProperties.figure" (
    uprop2 ← load_global g "uprop2";
    cls ← getattr uprop2 "UsageProperties";
    figure ← getattr cls "figure";
    store_global g "old_figure" figure).

(* exec('uprop2.UsageProperties.figure = new_figure') *)
Definition exec_patch_figure (depth : nat) (g : loc) : Py unit :=
  call_exec depth g "uprop2.UsageProperties.figure = new_figure" (
    new_figure ← load_global g "new_figure";
    uprop2 ← load_global g "uprop2";
    cls ← getattr uprop2 "UsageProperties";
    setattr cls "figure" new_figure).

(* exec('%s = uprop2.%s' % (x, x)): the assignment [x = uprop2.x] when
   [x] is a name that can be assigned to; any other text is not
   interpreted here. *)
Definition exec_reexport (depth : nat) (g : loc) (x : string) : Py unit :=
  call_exec depth g (x +:+ " = uprop2." +:+ x) (
    if is_identifier x then
      uprop2 ← load_global g "uprop2";
      v ← getattr uprop2 x;
      store_global g x v
    else exec_other E g (x +:+ " = uprop2." +:+ x)).

(** The body of the [for] loop. *)
Definition facade_loop_body (depth : nat) (g : loc) (x : string) : Py unit :=
  store_global g "x" (VStr x);;
  if is_dunder x then mret tt  (* continue *)
  else
    (if String.eqb x "UsageProperties" then
       exec_save_figure depth g;;
       exec_patch_figure depth g
     else mret tt);;
    exec_reexport depth g x.

(** The text of the loop, for an interpreter that has to take it as a
    whole. *)
Definition FACADE_LOOP : string :=
  join NL (drop 9 (dedent FACADE_LITERAL)).

(** The loop [for x in dir(uprop2): ...].  [dir] is the builtin unless
    the namespace binds the name when the loop starts, and it lists the
    names of a module's namespace unless the module defines [__dir__];
    in both cases the loop is not interpreted here. *)
Definition facade_loop (depth : nat) (g : loc) : Py unit := λ st,
  match global_of st g "dir" with
  | Some _ => exec_other E g FACADE_LOOP st
  | None =>
      match load_global g "uprop2" st with
      | (Normal uprop2, st') =>
          match namespace_of st' uprop2 ≫= (.!! "__dir__") with
          | Some _ => exec_other E g FACADE_LOOP st'
          | None =>
              (names ← dir uprop2;
               for_each names (facade_loop_body depth g)) st'
          end
      | (Returned, st') => (Returned, st')
      | (Raised e, st') => (Raised e, st')
      end
  end.

(** The facade module of [FACADE_SOURCE], run with the module object
    [g] as its namespace. *)
Definition facade_body (depth : nat) (import_ : string → Py value) (g : loc)
    : Py unit :=
  (* from pyovpn.lic import uprop2 *)
  uprop2 ← import_ "pyovpn.lic.uprop2";
  store_global g "uprop2" uprop2;;
  (* old_figure = None *)
  store_global g "old_figure" VNone;;
  (* def new_figure(self, licdict): ... *)
  store_global g "new_figure" (VFunc (NewFigure g));;
  (* for x in dir(uprop2): ... *)
  facade_loop depth g.

(** Running a compiled module, with [depth] frames left. *)
Fixpoint exec_module (depth : nat) (c : code) (g : loc) : Py unit :=
  match c with
  | Other body => body g
  | Facade =>
      match depth with
      | 0 => py_raise RecursionError "maximum recursion depth exceeded"
      | S depth' => facade_body depth' (import_from (exec_module depth') E) g
      end
  end.

Definition import_module (depth : nat) (fullname : string) : Py value :=
  import_from (exec_module depth) E fullname.
End Facade.

(* ================================================================== *)
(** * Importing from an archive *)
(* ================================================================== *)

(** [name.split(".")]. *)
Fixpoint split_dots (s : string) (cur : string) : list string :=
  match s with
  | EmptyString => [cur]
  | String c rest =>
      if Ascii.eqb c "."%char then cur :: split_dots rest EmptyString
      else split_dots rest (cur +:+ String c EmptyString)
  end.

(** Where the compiled file of a module lies below a [sys.path] entry:
    sourceless imports take [name.pyc] next to where [name.py] would be. *)
Definition module_file (fullname : string) : path :=
  let comps := split_dots fullname EmptyString in
  removelast comps ++ [default EmptyString (last comps) +:+ ".pyc"].

Definition finder_in (unmarshal : string → option code) (m : gmap path node)
    (root : path) (fullname : string) : option code :=
  match m !! (root ++ module_file fullname) with
  | Some (File d) => unmarshal d
  | _ => None
  end.

(** The files of an archive, by member name. *)
Definition tree_of (l : list member) : gmap path node :=
  list_to_map ((λ mb, (arcname_of mb, node_of mb)) <$> l).


(** A name the loop can re-export with the builtin [exec]: not [exec]
    itself, and an identifier unless it is skipped. *)
Definition plain_name (x : string) : bool :=
  negb (String.eqb x "exec") && (is_dunder x || is_identifier x).

(** Where the loop of a facade module [g] stands when its alias [lu]
    has no [UsageProperties] among the names [rest] still to come; the
    alias may be the facade itself. *)
Definition plain_state (g lu : loc) (base : store) (rest : list string)
    (s : store) : Prop :=
  sys_modules s = sys_modules base ∧
  (∀ l, l ≠ g → objects s !! l = objects base !! l) ∧
  ∃ ns nsu,
    objects s !! g = Some (Module ns) ∧
    objects s !! lu = Some (Module nsu) ∧
    ns !! "uprop2" = Some (VRef lu) ∧
    ns !! "UsageProperties" = None ∧
    ns !! "__dir__" = None ∧
    (∀ x, is_Some (ns !! x) → plain_name x = true) ∧
    (∀ x, is_Some (nsu !! x) → plain_name x = true) ∧
    (nsu !! "uprop2" = None ∨ nsu !! "uprop2" = Some (VRef lu)) ∧
    ∀ x, x ∈ rest → is_Some (nsu !! x).

(* ================================================================== *)
(** * A concrete archive format and concrete runs *)
(* ================================================================== *)

#[global] Instance member_eq_dec : EqDecision member.
Proof. solve_decision. Defined.

#[global] Instance member_countable : Countable member :=
  inj_countable'
    (λ mb, match mb with MFile a d => inl (a, d) | MDir a => inr a end)
    (λ x, match x with inl (a, d) => MFile a d | inr a => MDir a end)
    (λ mb, match mb with MFile _ _ => eq_refl | MDir _ => eq_refl end).

(** A small self-delimiting container used to run the pipeline on
    concrete inputs: a method letter followed by the binary code of the
    member list. *)
Fixpoint pos_bits (p : positive) : string :=
  match p with
  | xH => EmptyString
  | xO q => String "0"%char (pos_bits q)
  | xI q => String "1"%char (pos_bits q)
  end.

Fixpoint bits_pos (s : string) : option positive :=
  match s with
  | EmptyString => Some xH
  | String c rest =>
      if Ascii.eqb c "0"%char then xO <$> bits_pos rest
      else if Ascii.eqb c "1"%char then xI <$> bits_pos rest
      else None
  end.

Definition bits_codec : ZipCodec := {|
  zip_encode c l :=
    String (match c with ZIP_STORED => "S"%char | ZIP_DEFLATED => "D"%char end)
           (pos_bits (encode l));
  zip_decode s :=
    match s with
    | String c rest =>
        if Ascii.eqb c "S"%char || Ascii.eqb c "D"%char
        then bits_pos rest ≫= decode
        else None
    | EmptyString => None
    end
|}.

(** The members of a small egg holding the licence module. *)
Definition egg_members : list member := [
  MDir ["pyovpn"];
  MFile ["pyovpn"; "__init__.pyc"] "INIT";
  MDir ["pyovpn"; "lic"];
  MFile ["pyovpn"; "lic"; "uprop.pyc"] "ORIGINAL"
].

Definition egg_path : path := EGG_DIR ++ ["pyovpn-1.2.3.egg"].

Definition base_fs : gmap path node :=
  list_to_map [
    ([], Dir); (["tmp"], Dir); (["usr"], Dir); (["usr"; "local"], Dir);
    (["usr"; "local"; "openvpn_as"], Dir);
    (["usr"; "local"; "openvpn_as"; "lib"], Dir);
    (EGG_DIR, Dir)
  ].

Definition live_fs : gmap path node :=
  <[egg_path := File (@zip_encode bits_codec ZIP_STORED egg_members)]> base_fs.

(** A compiler that accepts exactly the facade source. *)
Definition good_compiler (m : gmap path node) (src : path) : spawned :=
  match m !! src with
  | Some (File text) =>
      if String.eqb text FACADE_SOURCE
      then Exited (Completed 0 "Compiling uprop.py..." EmptyString) (Some "FACADE")
      else Exited (Completed 1 "*** Error compiling" EmptyString) None
  | _ => Exited (Completed 1 EmptyString "Can't list") None
  end.

Definition failing_compiler (m : gmap path node) (src : path) : spawned :=
  Exited (Completed 1 EmptyString "SyntaxError") None.

Definition silent_compiler (m : gmap path node) (src : path) : spawned :=
  Exited (Completed 0 EmptyString EmptyString) None.

Definition march5 : datetime := Datetime 2024 3 5 10 7 22 4321.

Definition env_with (c : gmap path node → path → spawned) : env :=
  Env ["tmp"] ["k3x9q2ab"] march5 c.

Definition world0 (m : gmap path node) : world := World m [] [].

Definition ws_path : path := ["tmp"; "pyovpn_patch_k3x9q2ab"].

(** An egg without the licence module. *)
Definition bare_members : list member := [
  MDir ["pyovpn"];
  MFile ["pyovpn"; "__init__.pyc"] "INIT"
].

Definition bare_fs : gmap path node :=
  <[egg_path := File (@zip_encode bits_codec ZIP_STORED bare_members)]> base_fs.

Definition failing_env : env := env_with failing_compiler.
Definition good_env : env := env_with good_compiler.
(** Two archives that match the pattern, and one that does not. *)
Definition two_eggs_fs : gmap path node :=
  <[EGG_DIR ++ ["pyovpn-2.0.egg"] := File "B"]>
    (<[EGG_DIR ++ ["other.egg"] := File "C"]> live_fs).

(** A directory under the archive's name. *)
Definition dir_egg_fs : gmap path node :=
  <[egg_path := Dir]> base_fs.

(** An environment whose temporary names are all taken. *)
Definition no_names_env : env := Env ["tmp"] [] march5 good_compiler.

(** The live installation without the backup directory; the temporary
    root is elsewhere. *)
Definition no_backup_dir_fs : gmap path node := delete BACKUP_DIR live_fs.

(* ================================================================== *)
(** * A concrete licence module and interpreter *)
(* ================================================================== *)

(** An original [uprop] module: a class [UsageProperties] whose
    [figure] returns a copy of the licence dictionary, and two more
    names. *)
Definition original_body (g : loc) : Py unit := λ st,
  let c := fresh_loc st in
  let st1 := set_object c (Class (<["figure" := VFunc (Foreign 0)]>
                                  (<["__doc__" := VNone]> ∅))) st in
  (store_global g "UsageProperties" (VRef c);;
   store_global g "DEFAULT_CC" (VInt 2);;
   store_global g "_cache" VNone) st1.

Definition original_foreign (f : value) (args : list value) : Py value := λ st,
  match f, args with
  | VFunc (Foreign 0), [_; VRef l] =>
      match objects st !! l with
      | Some (Dict items) =>
          let r := fresh_loc st in
          (Normal (VRef r), set_object r (Dict items) st)
      | _ => (Raised (Exn TypeError "licdict"), st)
      end
  | _, _ => (Raised (Exn TypeError "call"), st)
  end.

(** An original module that also has a name [old_figure]. *)
Definition shadowing_body (g : loc) : Py unit :=
  original_body g;;
  store_global g "old_figure" VNone.

(** An original module that also has names [exec] and [zeta]. *)
Definition exec_body (g : loc) : Py unit :=
  original_body g;;
  store_global g "exec" (VInt 0);;
  store_global g "zeta" (VInt 1).

Definition unmarshal (d : string) : option code :=
  if String.eqb d "FACADE" then Some Facade
  else if String.eqb d "ORIGINAL" then Some (Other original_body)
  else if String.eqb d "SHADOWING" then Some (Other shadowing_body)
  else if String.eqb d "EXEC" then Some (Other exec_body)
  else None.

(** Source text that is no statement. *)
Definition no_syntax (g : loc) (text : string) : Py unit :=
  py_raise SyntaxError "invalid syntax".

(** The interpreter importing from an archive. *)
Definition egg_env (egg : string) : pyenv :=
  PyEnv (finder_in unmarshal
           (tree_of (default [] (@zip_decode bits_codec egg))) [])
        original_foreign no_syntax.

(** A licence dictionary without the key, at location 1. *)
Definition lic_store : store :=
  Store (<[1%positive := Dict (<["cc" := VInt 2]> ∅)]> ∅) ∅ [].

Definition egg_of (m : gmap path node) : string :=
  match m !! egg_path with Some (File d) => d | _ => EmptyString end.

Definition once_patched : gmap path node :=
  fs (@patch bits_codec false good_env (world0 live_fs)).2.

Definition twice_patched : gmap path node :=
  fs (@patch bits_codec false good_env (world0 once_patched)).2.






Definition value_of (o : outcome value) : value :=
  match o with Normal v => v | _ => VNone end.


(* ================================================================== *)
(** * Paths: prefixes *)
(* ================================================================== *)

Lemma strip_prefix_Some root p q :
  strip_prefix root p = Some q ↔ p = root ++ q.
Proof.
  revert p. induction root as [|r root IH]; intros p; simpl.
  - split; congruence.
  - destruct p as [|c p]; [split; [done|intros [=]]|].
    destruct (String.eqb r c) eqn:Hrc.
    + apply String.eqb_eq in Hrc as ->. rewrite IH. split; congruence.
    + apply String.eqb_neq in Hrc. split; [done|intros [=]; congruence].
Qed.

Lemma strip_prefix_app root q : strip_prefix root (root ++ q) = Some q.
Proof. by apply strip_prefix_Some. Qed.

Lemma under_true root p : under root p = true ↔ ∃ q, p = root ++ q.
Proof.
  unfold under. destruct (strip_prefix root p) as [q|] eqn:Hs.
  - apply strip_prefix_Some in Hs. split; eauto.
  - split; [done|]. intros [q ->]. by rewrite strip_prefix_app in Hs.
Qed.

Lemma under_app root q : under root (root ++ q) = true.
Proof. apply under_true. eauto. Qed.

Lemma under_refl root : under root root = true.
Proof. apply under_true. exists []. by rewrite app_nil_r. Qed.

Lemma under_false_app root a p :
  under root p = false → under (root ++ a) p = false.
Proof.
  intros Hn. destruct (under (root ++ a) p) eqn:Hu; [|done].
  apply under_true in Hu as [q ->]. rewrite <- app_assoc in Hn.
  by rewrite under_app in Hn.
Qed.

Lemma under_false_ne root a p : under root p = false → p ≠ root ++ a.
Proof. intros Hn ->. by rewrite under_app in Hn. Qed.

Lemma strictly_under_true root p :
  strictly_under root p = true ↔ ∃ q, q ≠ [] ∧ p = root ++ q.
Proof.
  unfold strictly_under. destruct (strip_prefix root p) as [q|] eqn:Hs.
  - apply strip_prefix_Some in Hs as ->. destruct q.
    + split; [done|]. intros (q & Hq & Heq).
      rewrite app_nil_r in Heq. destruct q; [done|].
      apply (f_equal length) in Heq. rewrite length_app in Heq. simpl in Heq. lia.
    + split; [intros _; by exists (s :: q)|done].
  - split; [done|]. intros (q & _ & ->). by rewrite strip_prefix_app in Hs.
Qed.

Lemma strictly_under_under root p : strictly_under root p = true → under root p = true.
Proof.
  rewrite strictly_under_true, under_true. intros (q & _ & ->). eauto.
Qed.

Lemma parent_snoc (p : path) (c : string) : parent (p ++ [c]) = p.
Proof. unfold parent. apply removelast_last. Qed.

Lemma name_snoc (p : path) (c : string) : name (p ++ [c]) = c.
Proof. unfold name. by rewrite last_snoc. Qed.

Lemma parent_app (root rel : path) :
  rel ≠ [] → parent (root ++ rel) = root ++ removelast rel.
Proof. intros. unfold parent. by apply removelast_app. Qed.

(* ================================================================== *)
(** * File-system operations: what they leave alone *)
(* ================================================================== *)

Lemma write_bytes_frame p d m m' e q :
  write_bytes p d m = (m', e) → q ≠ p → m' !! q = m !! q.
Proof.
  unfold write_bytes, fs_raise. intros Hop Hq.
  destruct (is_dir m p); [by simplify_eq|].
  destruct (check_parent m p); simplify_eq; [done|].
  by rewrite lookup_insert_ne.
Qed.

Lemma write_bytes_ok p d m m' :
  write_bytes p d m = (m', None) → m' = <[p := File d]> m.
Proof.
  unfold write_bytes, fs_raise. intros Hop.
  destruct (is_dir m p); [by simplify_eq|].
  destruct (check_parent m p); by simplify_eq.
Qed.

Lemma write_bytes_raise p d m m' e :
  write_bytes p d m = (m', Some e) → m' = m.
Proof.
  unfold write_bytes, fs_raise. intros Hop.
  destruct (is_dir m p); [by simplify_eq|].
  destruct (check_parent m p); by simplify_eq.
Qed.

Lemma mkdir_frame p m m' e q :
  mkdir p m = (m', e) → q ≠ p → m' !! q = m !! q.
Proof.
  unfold mkdir, fs_raise. intros Hop Hq.
  destruct (m !! p); [by simplify_eq|].
  destruct (check_parent m p); simplify_eq; [done|].
  by rewrite lookup_insert_ne.
Qed.

Lemma copy2_frame src dst m m' e q :
  copy2 src dst m = (m', e) → q ≠ copy2_target m src dst → m' !! q = m !! q.
Proof.
  unfold copy2, fs_raise. intros Hop Hq.
  destruct (m !! src) as [[d|]|]; [|by simplify_eq..].
  case_bool_decide; [by simplify_eq|].
  by eapply write_bytes_frame.
Qed.

Lemma copy2_raise src dst m m' e :
  copy2 src dst m = (m', Some e) → m' = m.
Proof.
  unfold copy2, fs_raise. intros Hop.
  destruct (m !! src) as [[d|]|]; [|by simplify_eq..].
  case_bool_decide; [by simplify_eq|].
  by eapply write_bytes_raise.
Qed.

Lemma copy2_target_under m src dst q :
  under dst q = false → q ≠ copy2_target m src dst.
Proof.
  unfold copy2_target. intros Hq ->.
  destruct (is_dir m dst).
  - by rewrite under_app in Hq.
  - by rewrite under_refl in Hq.
Qed.

Lemma remove_tree_lookup root m q :
  remove_tree root m !! q = if under root q then None else m !! q.
Proof.
  unfold remove_tree. destruct (under root q) eqn:Hu.
  - apply map_lookup_filter_None. right. intros x _. simpl. congruence.
  - destruct (m !! q) as [x|] eqn:Hq.
    + by apply map_lookup_filter_Some.
    + apply map_lookup_filter_None. by left.
Qed.

Lemma graft_frame src dst l m q :
  under dst q = false → graft src dst l m !! q = m !! q.
Proof.
  intros Hq. induction l as [|[p n] l IH]; simpl; [done|].
  destruct (strip_prefix src p) as [rel|]; [|done].
  rewrite lookup_insert_ne; [done|]. intros <-. by rewrite under_app in Hq.
Qed.

Lemma rename_frame src dst m m' e q :
  rename src dst m = (m', e) →
  under src q = false → under dst q = false → m' !! q = m !! q.
Proof.
  unfold rename, fs_raise. intros Hop Hs Hd.
  assert (q ≠ src) by (intros ->; by rewrite under_refl in Hs).
  assert (q ≠ dst) by (intros ->; by rewrite under_refl in Hd).
  destruct (m !! src) as [[d|]|]; [| |by simplify_eq].
  - destruct (is_dir m dst); [by simplify_eq|].
    destruct (check_parent m dst); simplify_eq; [done|].
    by rewrite lookup_insert_ne, lookup_delete_ne.
  - destruct (is_file m dst); [by simplify_eq|].
    case_bool_decide; [by simplify_eq|].
    destruct (under src dst); [by simplify_eq|].
    destruct (descendants m dst); [|by simplify_eq].
    destruct (check_parent m dst); simplify_eq; [done|].
    rewrite graft_frame by done. rewrite remove_tree_lookup. by rewrite Hs.
Qed.

Lemma unlink_frame p m m' e q :
  unlink_missing_ok p m = (m', e) → q ≠ p → m' !! q = m !! q.
Proof.
  unfold unlink_missing_ok, fs_raise. intros Hop Hq.
  destruct (m !! p) as [[d|]|]; simplify_eq; [|done..].
  by rewrite lookup_delete_ne.
Qed.

Lemma rmtree_frame p m q :
  under p q = false → rmtree_ignore_errors p m !! q = m !! q.
Proof.
  unfold rmtree_ignore_errors. intros Hq. destruct (is_dir m p); [|done].
  by rewrite remove_tree_lookup, Hq.
Qed.

Lemma rmtree_gone p m q :
  is_dir m p = true → under p q = true → rmtree_ignore_errors p m !! q = None.
Proof.
  unfold rmtree_ignore_errors. intros -> Hq.
  by rewrite remove_tree_lookup, Hq.
Qed.

Lemma makedirs_from_frame base comps m m' e q :
  makedirs_from base comps m = (m', e) → under base q = false → m' !! q = m !! q.
Proof.
  revert base m. induction comps as [|c cs IH]; intros base m; simpl.
  - by intros [= <- <-].
  - intros Hop Hq. assert (under (base ++ [c]) q = false) by by apply under_false_app.
    destruct (m !! (base ++ [c])) as [[d|]|].
    + unfold fs_raise in Hop. by simplify_eq.
    + by eapply IH.
    + erewrite IH; [|done..]. rewrite lookup_insert_ne; [done|].
      by apply not_eq_sym, under_false_ne.
Qed.

Lemma fs_seq_frame (a b : fsop) (P : path → Prop) m m' e :
  (∀ m m' e q, a m = (m', e) → P q → m' !! q = m !! q) →
  (∀ m m' e q, b m = (m', e) → P q → m' !! q = m !! q) →
  fs_seq a b m = (m', e) → ∀ q, P q → m' !! q = m !! q.
Proof.
  intros Ha Hb. unfold fs_seq. destruct (a m) as [m1 [e1|]] eqn:Ham.
  - intros [= <- <-] q Hq. by eapply Ha.
  - intros Hbm q Hq. erewrite Hb by done. by eapply Ha.
Qed.

Lemma extract_member_frame dest mb m m' e q :
  extract_member dest mb m = (m', e) → under dest q = false → m' !! q = m !! q.
Proof.
  unfold extract_member. intros Hop Hq. revert q Hq.
  eapply (fs_seq_frame _ _ (λ q, under dest q = false)); [| |done].
  - intros ????. apply makedirs_from_frame.
  - clear. intros m m' e q Hop Hq.
    assert (q ≠ dest ++ sanitize (arcname_of mb)) by by apply under_false_ne.
    destruct mb.
    + by eapply write_bytes_frame.
    + destruct (is_dir m _); [by simplify_eq|]. by eapply mkdir_frame.
Qed.

Lemma extract_members_frame dest l m m' e q :
  extract_members dest l m = (m', e) → under dest q = false → m' !! q = m !! q.
Proof.
  revert m. induction l as [|mb l IH]; intros m; simpl.
  - by intros [= <- <-].
  - unfold fs_seq. destruct (extract_member dest mb m) as [m1 [e1|]] eqn:H1.
    + intros [= <- <-] Hq. by eapply extract_member_frame.
    + intros Hop Hq. erewrite IH by done. by eapply extract_member_frame.
Qed.

Lemma extractall_frame `{ZipCodec} archive dest m m' e q :
  extractall archive dest m = (m', e) → under dest q = false → m' !! q = m !! q.
Proof.
  unfold extractall, fs_raise. intros Hop Hq.
  destruct (m !! archive) as [[d|]|]; [|by simplify_eq..].
  destruct (zip_decode d); [|by simplify_eq].
  by eapply extract_members_frame.
Qed.

Lemma repack_frame `{ZipCodec} root archive m m' e q :
  repack root archive m = (m', e) → q ≠ archive → m' !! q = m !! q.
Proof.
  unfold repack. intros Hop Hq.
  destruct (write_bytes archive EmptyString m) as [m1 [e1|]] eqn:Hw.
  - simplify_eq. by eapply write_bytes_frame.
  - simplify_eq. rewrite lookup_insert_ne by done. by eapply write_bytes_frame.
Qed.

Lemma mkdtemp_in_inr dir prefix names m m' p :
  mkdtemp_in dir prefix names m = (m', inr p) →
  m !! p = None ∧ m' = <[p := Dir]> m ∧ ∃ n, n ∈ names ∧ p = dir ++ [prefix +:+ n].
Proof.
  induction names as [|n names IH]; simpl; [done|].
  destruct (m !! (dir ++ [prefix +:+ n])) eqn:Hl.
  - intros Hm. destruct (IH Hm) as (? & ? & n' & ? & ?).
    split_and!; [done..|]. exists n'. split; [by right|done].
  - destruct (check_parent m _); [done|]. intros [= <- <-].
    split_and!; [done..|]. exists n. split; [by left|done].
Qed.

Lemma mkdtemp_in_inl dir prefix names m m' e :
  mkdtemp_in dir prefix names m = (m', inl e) → m' = m.
Proof.
  induction names as [|n names IH]; simpl; [by intros [= <-]|].
  destruct (m !! (dir ++ [prefix +:+ n])) eqn:Hl; [done|].
  destruct (check_parent m _); by intros [= <-].
Qed.

(* ================================================================== *)
(** * Names: the archive, the backup and the workspace never collide *)
(* ================================================================== *)

Lemma prefix_append p s : String.prefix p (p +:+ s) = true.
Proof.
  induction p as [|c p IH]; simpl; [by destruct s|].
  by destruct (Ascii.ascii_dec c c).
Qed.

Lemma prefix_String c p d s :
  String.prefix (String c p) (String d s) = true ↔ c = d ∧ String.prefix p s = true.
Proof.
  simpl. destruct (Ascii.ascii_dec c d); split; try done; try tauto.
Qed.

Lemma prefix_append_l p s t :
  String.prefix p s = true → String.prefix p (s +:+ t) = true.
Proof.
  revert s. induction p as [|c p IH]; intros s; simpl; [by destruct (s +:+ t)|].
  destruct s as [|d s]; [done|]. simpl.
  destruct (Ascii.ascii_dec c d); [apply IH|done].
Qed.

Lemma fnmatch_literal c pat s :
  Ascii.eqb c "*"%char = false → Ascii.eqb c "?"%char = false →
  fnmatch (String c pat) s = true →
  ∃ s', s = String c s' ∧ fnmatch pat s' = true.
Proof.
  intros Hstar Hq. simpl. rewrite Hstar, Hq. destruct s as [|d s]; [done|].
  simpl. destruct (Ascii.eqb c d) eqn:Hcd; [|done].
  apply Ascii.eqb_eq in Hcd as ->. eauto.
Qed.

Lemma egg_name_prefix n :
  fnmatch EGG_PATTERN n = true → String.prefix "pyovpn-" n = true.
Proof.
  unfold EGG_PATTERN. intros Hm.
  do 7 (apply fnmatch_literal in Hm as (? & -> & Hm); [|done..]).
  by destruct x.
Qed.

(** A component that a workspace directory could be named by. *)
Definition ws_name (c : string) : bool := String.prefix "pyovpn_patch_" c.

Lemma egg_name_not_ws n : String.prefix "pyovpn-" n = true → ws_name n = false.
Proof.
  unfold ws_name. intros Hp.
  do 7 (destruct n as [|? n]; [done|]; apply prefix_String in Hp as [<- Hp]).
  by destruct n.
Qed.

Lemma backup_name_not_ws n t :
  String.prefix "pyovpn-" n = true → ws_name (backup_name n t) = false.
Proof.
  intros Hp. apply egg_name_not_ws. unfold backup_name. by apply prefix_append_l.
Qed.

(** A path none of whose components could name a workspace lies in no
    workspace. *)
Lemma not_under_workspace (root q : path) (c : string) :
  ws_name c = true → Forall (λ x, ws_name x = false) q →
  under (root ++ [c]) q = false.
Proof.
  intros Hc Hq. destruct (under (root ++ [c]) q) eqn:Hu; [|done].
  apply under_true in Hu as [r ->].
  rewrite !Forall_app, Forall_singleton in Hq. destruct Hq as [[_ Hq] _].
  simpl in Hq. congruence.
Qed.

Lemma ne_workspace (root q : path) (c : string) :
  ws_name c = true → Forall (λ x, ws_name x = false) q → q ≠ root ++ [c].
Proof.
  intros Hc Hq ->. apply Forall_app in Hq as [_ Hq].
  apply Forall_inv in Hq. simpl in Hq. congruence.
Qed.

Lemma egg_dir_no_ws : Forall (λ x, ws_name x = false) EGG_DIR.
Proof. by repeat constructor. Qed.

Lemma backup_dir_no_ws : Forall (λ x, ws_name x = false) BACKUP_DIR.
Proof. by repeat constructor. Qed.

Lemma app_ne_self {A} (l x : list A) : x ≠ [] → l ≠ l ++ x.
Proof.
  intros Hx Heq. apply (f_equal length) in Heq. rewrite length_app in Heq.
  destruct x; [done|]. simpl in Heq. lia.
Qed.

Lemma under_longer (l x : path) : x ≠ [] → under (l ++ x) l = false.
Proof.
  intros Hx. destruct (under (l ++ x) l) eqn:Hu; [|done].
  apply under_true in Hu as [r Hr]. rewrite <- app_assoc in Hr.
  apply app_ne_self in Hr; [done|]. by destruct x.
Qed.

(** ** What [glob] returns *)

Lemma elem_of_listdir m dir n :
  n ∈ listdir m dir ↔ is_dir m dir = true ∧ is_Some (m !! (dir ++ [n])).
Proof.
  unfold listdir. destruct (is_dir m dir); [|split; [by intros ?%elem_of_nil|by intros []]].
  rewrite list_elem_of_omap. split.
  - intros ([p x] & Hin & Hs). apply elem_of_map_to_list in Hin. simpl in Hs.
    destruct (strip_prefix dir p) as [[|c [|]]|] eqn:Hp; simplify_eq.
    apply strip_prefix_Some in Hp as ->. eauto.
  - intros [_ [x Hx]]. exists (dir ++ [n], x). split; [by apply elem_of_map_to_list|].
    simpl. by rewrite strip_prefix_app.
Qed.

Lemma elem_of_glob m dir pat p :
  p ∈ glob m dir pat ↔
  ∃ n, p = dir ++ [n] ∧ fnmatch pat n = true ∧
       is_dir m dir = true ∧ is_Some (m !! p).
Proof.
  unfold glob. rewrite list_elem_of_fmap. split.
  - intros (n & -> & Hin). apply list_elem_of_In, filter_In in Hin as [Hin Hm].
    apply list_elem_of_In, elem_of_listdir in Hin as [??]. eauto.
  - intros (n & -> & Hm & Hd & Hs). exists n. split; [done|].
    apply list_elem_of_In, filter_In. split; [|done].
    apply list_elem_of_In, elem_of_listdir. eauto.
Qed.

Lemma located_Some m S :
  located m = Some S →
  ∃ n, S = EGG_DIR ++ [n] ∧ String.prefix "pyovpn-" n = true ∧ is_Some (m !! S).
Proof.
  unfold located. intros Hh.
  assert (S ∈ glob m EGG_DIR EGG_PATTERN) as Hin.
  { destruct (glob m EGG_DIR EGG_PATTERN); simplify_eq/=. by left. }
  apply elem_of_glob in Hin as (n & -> & Hm & _ & Hs).
  exists n. split_and!; [done| |done]. by apply egg_name_prefix.
Qed.

Lemma located_None m :
  (∀ n, is_Some (m !! (EGG_DIR ++ [n])) → fnmatch EGG_PATTERN n = false) →
  located m = None.
Proof.
  intros Hno. unfold located.
  destruct (glob m EGG_DIR EGG_PATTERN) as [|p l] eqn:Hg; [done|].
  assert (p ∈ glob m EGG_DIR EGG_PATTERN) as Hin by (rewrite Hg; by left).
  apply elem_of_glob in Hin as (n & -> & Hm & _ & Hs).
  apply Hno in Hs. congruence.
Qed.

Lemma workspace_Some E m td :
  workspace E m = Some td →
  ∃ m0 c, mkdtemp_in (tmproot E) "pyovpn_patch_" (tmpnames E) m = (m0, inr td) ∧
          m !! td = None ∧ m0 = <[td := Dir]> m ∧
          td = tmproot E ++ [c] ∧ ws_name c = true.
Proof.
  unfold workspace.
  destruct (mkdtemp_in _ _ _ m) as [m0 [e|p]] eqn:Hmk; simpl; [done|].
  intros [= ->]. destruct (mkdtemp_in_inr _ _ _ _ _ _ Hmk) as (Hfresh & -> & n & _ & ->).
  exists (<[tmproot E ++ ["pyovpn_patch_" +:+ n] := Dir]> m), ("pyovpn_patch_" +:+ n).
  split_and!; try done. apply prefix_append.
Qed.

(* ================================================================== *)
(** * Every write is accounted for by a recorded effect *)
(* ================================================================== *)

Lemma accounts_refl w : accounts w [] w.
Proof. split; [by rewrite app_nil_r|done]. Qed.

Lemma accounts_trans w l1 w1 l2 w2 :
  accounts w l1 w1 → accounts w1 l2 w2 → accounts w (l1 ++ l2) w2.
Proof.
  intros [Ht1 Hf1] [Ht2 Hf2]. split.
  - by rewrite Ht2, Ht1, app_assoc.
  - intros q Hq. rewrite Hf2, Hf1; [done|..];
      intros ev Hev; apply Hq, elem_of_app; auto.
Qed.

Lemma accounts_log w r : accounts w [] (add_log r w).
Proof. split; [by rewrite app_nil_r|done]. Qed.

Lemma bind_eq {A B} (m : M A) (k : A → M B) w :
  (m ≫= k) w =
  match m w with
  | (Normal a, w') => k a w'
  | (Returned, w') => (Returned, w')
  | (Raised e, w') => (Raised e, w')
  end.
Proof. done. Qed.

Lemma sound_ret {A} (a : A) : sound [] (mret a).
Proof. intros w. exists []. split_and!; [apply accounts_refl|done..]. Qed.

Lemma sound_return {A} evs : sound evs (@return_ A).
Proof.
  intros w. exists []. split_and!; [apply accounts_refl|apply prefix_nil|done].
Qed.

Lemma sound_raise {A} evs e : sound evs (@raise A e).
Proof.
  intros w. exists []. split_and!; [apply accounts_refl|apply prefix_nil|done].
Qed.

Lemma sound_fs_read {A} (f : gmap path node → A) : sound [] (fs_read f).
Proof. intros w. exists []. split_and!; [apply accounts_refl|done..]. Qed.

Lemma sound_bind {A B} evs1 evs2 (m : M A) (k : A → M B) :
  sound evs1 m → (∀ a, sound evs2 (k a)) → sound (evs1 ++ evs2) (m ≫= k).
Proof.
  intros Hm Hk w. destruct (Hm w) as (l1 & Hacc & Hpre & Hn).
  rewrite bind_eq. destruct (m w) as [[a| |e] w1]; simpl in *.
  - rewrite Hn in * by done. destruct (Hk a w1) as (l2 & Hacc2 & Hpre2 & Hn2).
    exists (evs1 ++ l2). split_and!.
    + by eapply accounts_trans.
    + by apply prefix_app.
    + intros Hnorm. by rewrite Hn2.
  - exists l1. split_and!; [done| |done]. by apply prefix_app_r.
  - exists l1. split_and!; [done| |done]. by apply prefix_app_r.
Qed.

Lemma sound_seq_nil {A B} evs (m : M A) (k : A → M B) :
  sound [] m → (∀ a, sound evs (k a)) → sound evs (m ≫= k).
Proof. intros. by apply (sound_bind [] evs). Qed.

Lemma sound_then_nil {A B} evs (m : M A) (k : A → M B) :
  sound evs m → (∀ a, sound [] (k a)) → sound evs (m ≫= k).
Proof. intros. rewrite <- (app_nil_r evs). by apply sound_bind. Qed.

Lemma sound_fs_do ev op :
  (∀ m m' e q, op m = (m', e) → touches ev q = false → m' !! q = m !! q) →
  sound [ev] (fs_do ev op).
Proof.
  intros Hop w. exists [ev]. split_and!; [|done..].
  unfold fs_do. destruct (op (fs w)) as [m' e] eqn:Hm. split; [done|].
  intros q Hq. simpl. eapply Hop; [done|]. apply Hq. by left.
Qed.

Lemma sound_run_steps evss steps :
  Forall2 (λ evs s, sound evs s) evss steps →
  sound (concat evss) (run_steps steps).
Proof.
  induction 1 as [|evs s evss steps Hs _ IH]; simpl.
  - apply sound_ret.
  - apply sound_bind; [done|]. intros _. apply IH.
Qed.

Lemma run_steps_app l1 l2 w :
  run_steps (l1 ++ l2) w = (run_steps l1;; run_steps l2) w.
Proof.
  revert w. induction l1 as [|s l1 IH]; intros w; simpl.
  - done.
  - rewrite !bind_eq. destruct (s w) as [[[]| |e] w1]; [|done..].
    rewrite IH. by rewrite bind_eq.
Qed.

Lemma copy2_target_touches m src dst q :
  touches (EvCopy src dst) q = false → q ≠ copy2_target m src dst.
Proof.
  simpl. intros Hq ->. apply orb_false_iff in Hq as [H1 H2].
  apply bool_decide_eq_false in H1, H2. unfold copy2_target in *.
  by destruct (is_dir m dst).
Qed.

Section PipelineSound.
Context `{ZipCodec}.
Variable DEBUG_MODE : bool.
Variable E : env.

Lemma sound_logger lvl msg : sound [] (logger_log DEBUG_MODE lvl msg).
Proof.
  intros w. exists []. unfold logger_log, logged. simpl.
  split_and!; [|done..]. destruct (_ <=? _)%nat;
    [apply accounts_log|apply accounts_refl].
Qed.

Lemma sound_step_copy S td : sound [EvCopy S (dest_egg S td)] (step_copy DEBUG_MODE S td).
Proof.
  apply sound_then_nil; [|intros; apply sound_logger].
  apply sound_fs_do. intros m m' e q Hop Hq. eapply copy2_frame; [done|].
  by apply copy2_target_touches.
Qed.

Lemma sound_step_extract S td :
  sound [EvMkdir (extract_dir td); EvExtractAll (dest_egg S td) (extract_dir td)]
        (step_extract DEBUG_MODE S td).
Proof.
  apply (sound_bind [_] [_]).
  { apply sound_fs_do. intros m m' e q Hop Hq. eapply mkdir_frame; [done|].
    intros ->. simpl in Hq. by rewrite under_refl in Hq. }
  intros _. apply sound_then_nil; [|intros; apply sound_logger].
  apply sound_fs_do. intros m m' e q Hop Hq. by eapply extractall_frame.
Qed.

Lemma sound_step_rename td :
  sound [EvRename (old_pyc td) (new_pyc td)] (step_rename DEBUG_MODE td).
Proof.
  apply sound_seq_nil; [apply sound_fs_read|]. intros ex.
  destruct (negb ex).
  - apply sound_seq_nil; [apply sound_logger|]. intros; apply sound_return.
  - apply sound_then_nil; [|intros; apply sound_logger].
    apply sound_fs_do. intros m m' e q Hop Hq. simpl in Hq.
    apply orb_false_iff in Hq as [??]. by eapply rename_frame.
Qed.

Lemma sound_step_write_facade td :
  sound [EvWriteText (new_py td)] (step_write_facade DEBUG_MODE td).
Proof.
  apply sound_then_nil; [|intros; apply sound_logger].
  apply sound_fs_do. intros m m' e q Hop Hq. eapply write_bytes_frame; [done|].
  intros ->. simpl in Hq. by rewrite under_refl in Hq.
Qed.

Lemma sound_subprocess_run argv cwd src :
  parent src = cwd → sound [EvSpawn argv cwd] (subprocess_run E argv cwd src).
Proof.
  intros Hcwd w. exists [EvSpawn argv cwd]. split_and!; [|done..].
  unfold subprocess_run. split.
  - destruct (compileall E (fs w) src) as [r [a|]|e]; simpl; [|done..].
    by destruct (is_dir _ _).
  - intros q Hq. specialize (Hq (EvSpawn argv cwd)). simpl in Hq.
    destruct (compileall E (fs w) src) as [r [a|]|e]; simpl; [|done..].
    destruct (is_dir _ _); simpl; [done|].
    rewrite lookup_insert_ne; [done|]. intros <-.
    unfold compiled_path in Hq. rewrite Hcwd, under_app in Hq.
    by discriminate Hq; left.
Qed.

Lemma sound_step_compile td :
  sound [EvSpawn (compile_argv td) (lic_dir td)] (step_compile DEBUG_MODE E td).
Proof.
  apply sound_then_nil.
  { apply sound_subprocess_run. unfold new_py. apply parent_snoc. }
  intros result. destruct (negb _); [|apply sound_logger].
  repeat (apply sound_seq_nil; [apply sound_logger|]; intros _).
  apply sound_return.
Qed.

Lemma sound_step_verify td :
  sound (if DEBUG_MODE then [] else [EvUnlink (new_py td)]) (step_verify DEBUG_MODE td).
Proof.
  apply sound_seq_nil; [apply sound_fs_read|]. intros ex.
  destruct (negb ex).
  - apply sound_seq_nil; [apply sound_logger|]. intros; apply sound_return.
  - apply sound_then_nil; [|intros; apply sound_logger].
    destruct DEBUG_MODE; simpl; [apply sound_ret|].
    apply sound_fs_do. intros m m' e q Hop Hq. eapply unlink_frame; [done|].
    intros ->. simpl in Hq. by rewrite under_refl in Hq.
Qed.

Lemma sound_step_repack S td :
  sound [EvZipWrite (dest_egg S td) (extract_dir td)] (step_repack DEBUG_MODE S td).
Proof.
  apply sound_then_nil; [|intros; apply sound_logger].
  apply sound_fs_do. intros m m' e q Hop Hq. eapply repack_frame; [done|].
  intros ->. simpl in Hq. by rewrite under_refl in Hq.
Qed.

Lemma sound_step_backup S :
  sound [EvCopy S (backup_path E S)] (step_backup DEBUG_MODE E S).
Proof.
  intros w. exists [EvCopy S (backup_path E S)]. split_and!; [|done..].
  unfold step_backup, try_except. rewrite bind_eq. unfold fs_do.
  destruct (copy2 S (backup_path E S) (fs w)) as [m' [e|]] eqn:Hop; simpl.
  - assert (accounts w [EvCopy S (backup_path E S)]
              (set_fs m' (add_event (EvCopy S (backup_path E S)) w))) as Hacc.
    { split; [done|]. intros q Hq. simpl. eapply copy2_frame; [done|].
      apply (copy2_target_touches _ S). apply (Hq (EvCopy S (backup_path E S))). by left. }
    destruct (isinstance e FileNotFoundError); [|done].
    unfold logger_warning, logger_log, logged. simpl. destruct (_ <=? _)%nat; [|done].
    destruct Hacc as [Ht Hf]. by split.
  - unfold logger_debug, logger_log, logged. simpl.
    assert (∀ q, (∀ ev, ev ∈ [EvCopy S (backup_path E S)] → touches ev q = false) →
                 m' !! q = fs w !! q) as Hf.
    { intros q Hq. eapply copy2_frame; [done|].
      apply (copy2_target_touches _ S). apply (Hq (EvCopy S (backup_path E S))). by left. }
    destruct (_ <=? _)%nat; by split.
Qed.

Lemma sound_step_deploy S td :
  sound [EvCopy (dest_egg S td) S] (step_deploy DEBUG_MODE S td).
Proof.
  apply sound_then_nil; [|intros; apply sound_logger].
  apply sound_fs_do. intros m m' e q Hop Hq. eapply copy2_frame; [done|].
  by apply copy2_target_touches.
Qed.

Lemma sound_cons {A} ev evs (m : M A) (k : A → M unit) :
  sound [ev] m → (∀ a, sound evs (k a)) → sound (ev :: evs) (m ≫= k).
Proof. apply (sound_bind [ev] evs). Qed.

Lemma sound_build S td :
  sound (build_trace DEBUG_MODE S td) (run_steps (build_steps DEBUG_MODE E S td)).
Proof.
  unfold build_steps, build_trace. cbn [run_steps app].
  apply sound_cons; [apply sound_step_copy|intros _].
  apply (sound_bind [_; _] _); [apply sound_step_extract|intros _].
  apply sound_cons; [apply sound_step_rename|intros _].
  apply sound_cons; [apply sound_step_write_facade|intros _].
  apply sound_cons; [apply sound_step_compile|intros _].
  apply sound_bind; [apply sound_step_verify|intros _].
  apply sound_then_nil; [apply sound_step_repack|intros _; apply sound_ret].
Qed.

Lemma sound_patch_body S td :
  sound (body_trace DEBUG_MODE E S td) (patch_body DEBUG_MODE E S td).
Proof.
  unfold patch_body, body_trace. intros w. rewrite run_steps_app.
  revert w. apply sound_bind; [apply sound_build|]. intros _.
  cbn [run_steps].
  apply sound_cons; [apply sound_step_backup|intros _].
  apply sound_then_nil; [apply sound_step_deploy|intros _; apply sound_ret].
Qed.
End PipelineSound.

(* ================================================================== *)
(** * Runs of [patch], case by case *)
(* ================================================================== *)

Lemma fs_logged D lvl msg w : fs (logged D lvl msg w) = fs w.
Proof. unfold logged. by destruct (_ <=? _)%nat. Qed.

Lemma trace_logged D lvl msg w : trace (logged D lvl msg w) = trace w.
Proof. unfold logged. by destruct (_ <=? _)%nat. Qed.

Lemma log_logged_error D msg w :
  log (logged D ERROR msg w) = log w ++ [(ERROR, msg)].
Proof. unfold logged, logger_level. by destruct D. Qed.

Lemma log_logged_info D msg w :
  log (logged D INFO msg w) = log w ++ [(INFO, msg)].
Proof. unfold logged, logger_level. by destruct D. Qed.

Lemma log_logged_ext D lvl msg w : ∃ r, log (logged D lvl msg w) = log w ++ r.
Proof.
  unfold logged. destruct (_ <=? _)%nat; simpl; [by eexists|].
  exists []. by rewrite app_nil_r.
Qed.


Section PatchRuns.
Context `{ZipCodec}.
Variable DEBUG_MODE : bool.
Variable E : env.

Lemma find_source_egg_run w :
  ∃ w', find_source_egg DEBUG_MODE w = (Normal (located (fs w)), w') ∧
        fs w' = fs w ∧ trace w' = trace w ∧
        (located (fs w) = None →
         log w' = log w ++ [(ERROR, "No egg file matching pyovpn-*.egg found in /usr/local/openvpn_as/lib/python")]) ∧
        ∃ r, log w' = log w ++ r.
Proof.
  unfold find_source_egg, located. rewrite bind_eq. unfold fs_read. simpl.
  destruct (glob (fs w) EGG_DIR EGG_PATTERN) as [|S rest]; simpl.
  - eexists. split; [done|]. rewrite fs_logged, trace_logged, log_logged_error.
    split_and!; [done..|]. by eexists.
  - destruct rest; simpl; eexists; (split; [done|]);
      rewrite ?fs_logged, ?trace_logged; (split_and!; [done..|]);
      [exists []; by rewrite app_nil_r|apply log_logged_ext].
Qed.

Lemma patch_no_source w :
  located (fs w) = None →
  ∃ w', patch DEBUG_MODE E w = (Normal tt, w') ∧ fs w' = fs w ∧ trace w' = trace w ∧
        log w' = log w ++ [
          (INFO, start_message);
          (ERROR, "No egg file matching pyovpn-*.egg found in /usr/local/openvpn_as/lib/python");
          (ERROR, "Aborting due to missing egg file.")].
Proof.
  intros Hloc. unfold patch, def. rewrite bind_eq. unfold logger_info at 1, logger_log at 1.
  rewrite bind_eq.
  destruct (find_source_egg_run (logged DEBUG_MODE INFO start_message w))
    as (w1 & Hrun & Hfs & Htr & Hlog & _).
  fold start_message. rewrite Hrun.
  assert (located (fs (logged DEBUG_MODE INFO start_message w)) = None) as Hloc'
    by (by rewrite fs_logged).
  specialize (Hlog Hloc'). rewrite Hloc'.
  rewrite bind_eq. unfold logger_error, logger_log, return_.
  eexists. split; [done|].
  rewrite fs_logged, trace_logged, log_logged_error, Htr, trace_logged, Hlog, Hfs.
  rewrite fs_logged, log_logged_info. by rewrite <- !app_assoc.
Qed.

Lemma patch_handlers_None e :
  patch_handlers DEBUG_MODE e = None ↔ isinstance e Exception = false.
Proof. destruct e as [[] msg]; vm_compute; split; congruence. Qed.

Lemma logger_error_run msg w :
  logger_error DEBUG_MODE msg w = (Normal tt, logged DEBUG_MODE ERROR msg w).
Proof. done. Qed.

Lemma patch_handlers_Some e h w :
  patch_handlers DEBUG_MODE e = Some h →
  ∃ w', h w = (Normal tt, w') ∧ fs w' = fs w ∧ trace w' = trace w ∧
        ∃ r, log w' = log w ++ r ∧ r ≠ [] ∧ Forall (λ x, x.1 = ERROR) r.
Proof.
  unfold patch_handlers.
  destruct (isinstance e PermissionError).
  { intros [= <-]. rewrite bind_eq, !logger_error_run.
    eexists. split; [done|].
    rewrite !fs_logged, !trace_logged, !log_logged_error, <- app_assoc.
    split_and!; [done..|]. eexists. split_and!; [done|done|].
    by repeat constructor. }
  destruct (isinstance e BadZipFile).
  { intros [= <-]. rewrite logger_error_run. eexists. split; [done|].
    rewrite !fs_logged, !trace_logged, !log_logged_error.
    split_and!; [done..|]. eexists. split_and!; [done|done|].
    by repeat constructor. }
  destruct (isinstance e SubprocessError).
  { intros [= <-]. rewrite logger_error_run. eexists. split; [done|].
    rewrite !fs_logged, !trace_logged, !log_logged_error.
    split_and!; [done..|]. eexists. split_and!; [done|done|].
    by repeat constructor. }
  destruct (isinstance e Exception); [|done].
  intros [= <-]. rewrite logger_error_run. eexists. split; [done|].
  rewrite !fs_logged, !trace_logged, !log_logged_error.
  split_and!; [done..|]. eexists. split_and!; [done|done|].
  by repeat constructor.
Qed.

Lemma patch_finally_run td w :
  ∃ w', patch_finally DEBUG_MODE td w = (Normal tt, w') ∧
        fs w' = (if negb DEBUG_MODE && exists_ (fs w) td
                 then rmtree_ignore_errors td (fs w) else fs w) ∧
        trace w' = (if negb DEBUG_MODE && exists_ (fs w) td
                    then trace w ++ [EvRmtree td] else trace w) ∧
        ∃ r, log w' = log w ++ r.
Proof.
  unfold patch_finally. rewrite bind_eq. unfold fs_read.
  destruct (negb DEBUG_MODE && exists_ (fs w) td).
  - rewrite bind_eq. unfold logger_debug, logger_log.
    eexists. split; [done|]. rewrite fs_logged, trace_logged.
    split_and!; [done..|].
    match goal with
    | |- ∃ r, log (logged _ ?l ?msg ?w0) = _ =>
        destruct (log_logged_ext DEBUG_MODE l msg w0) as [r ->]
    end.
    by exists r.
  - eexists. split_and!; [done..|]. exists []. by rewrite app_nil_r.
Qed.

(** A run that finds its archive and creates its workspace: the [try]
    block runs in the world the workspace was created in, the handlers
    only log, and the [finally] clause closes the run. *)
Lemma patch_with_workspace w S td m0 :
  located (fs w) = Some S →
  is_file (fs w) S = true →
  mkdtemp_in (tmproot E) "pyovpn_patch_" (tmpnames E) (fs w) = (m0, inr td) →
  ∃ w0 o w1 w2 w3,
    fs w0 = m0 ∧
    trace w0 = trace w ++ [EvMkdtemp (tmproot E) "pyovpn_patch_"] ∧
    (∃ r, log w0 = log w ++ r) ∧
    patch_body DEBUG_MODE E S td w0 = (o, w1) ∧
    fs w2 = fs w1 ∧ trace w2 = trace w1 ∧
    (∃ r, log w2 = log w1 ++ r ∧ Forall (λ x, x.1 = ERROR) r ∧
          (∀ e, o = Raised e → isinstance e Exception = true → r ≠ [])) ∧
    patch_finally DEBUG_MODE td w2 = (Normal tt, w3) ∧
    (∃ r, log w3 = log w2 ++ r) ∧
    patch DEBUG_MODE E w =
      (match o with
       | Raised e => if isinstance e Exception then Normal tt else Raised e
       | _ => Normal tt
       end, w3).
Proof.
  intros Hloc Hfile Hmk. unfold patch, def. rewrite bind_eq.
  unfold logger_info at 1, logger_log at 1. rewrite bind_eq.
  destruct (find_source_egg_run (logged DEBUG_MODE INFO start_message w))
    as (wa & Hrun & Hfs & Htr & _ & ra & Hla).
  fold start_message. rewrite Hrun. rewrite fs_logged in Hfs.
  rewrite trace_logged in Htr. rewrite fs_logged, Hloc.
  rewrite bind_eq. unfold fs_read at 1. rewrite Hfs, Hfile. cbn [negb].
  rewrite bind_eq.
  rewrite log_logged_info, <- app_assoc in Hla.
  assert (∃ w0, (if DEBUG_MODE then setup_temp_dir DEBUG_MODE E "pyovpn_patch_"
                 else tempfile_mkdtemp E "pyovpn_patch_") wa = (Normal td, w0) ∧
                fs w0 = m0 ∧
                trace w0 = trace w ++ [EvMkdtemp (tmproot E) "pyovpn_patch_"] ∧
                ∃ r, log w0 = log w ++ r)
    as (w0 & -> & Hfs0 & Htr0 & Hlog0).
  { destruct DEBUG_MODE.
    - unfold setup_temp_dir. rewrite bind_eq. unfold tempfile_mkdtemp.
      rewrite Hfs, Hmk. cbn [fst snd]. rewrite bind_eq.
      unfold logger_debug, logger_log. eexists. split; [done|].
      rewrite fs_logged, trace_logged.
      cbn [fs trace log set_fs add_event]. rewrite Htr.
      split_and!; [done..|].
      match goal with
      | |- ∃ r, log (logged _ ?l ?msg ?w0) = _ =>
          destruct (log_logged_ext true l msg w0) as [r ->]
      end.
      cbn [fs trace log set_fs add_event]. rewrite Hla, <- app_assoc. by eexists.
    - unfold tempfile_mkdtemp. rewrite Hfs, Hmk. cbn [fst snd].
      eexists. split; [done|]. cbn [fs trace log set_fs add_event]. rewrite Htr.
      split_and!; [done..|]. rewrite Hla. by eexists. }
  unfold try_finally, try_except.
  destruct (patch_body DEBUG_MODE E S td w0) as [o w1] eqn:Hbody.
  destruct o as [[]| |e].
  - destruct (patch_finally_run td w1) as (w3 & Hfin & _ & _ & Hl3). rewrite Hfin.
    exists w0, (Normal tt), w1, w1, w3. split_and!; try done.
    exists []. split_and!; [by rewrite app_nil_r|done|done].
  - destruct (patch_finally_run td w1) as (w3 & Hfin & _ & _ & Hl3). rewrite Hfin.
    exists w0, Returned, w1, w1, w3. split_and!; try done.
    exists []. split_and!; [by rewrite app_nil_r|done|done].
  - destruct (patch_handlers DEBUG_MODE e) as [h|] eqn:Hh.
    + destruct (patch_handlers_Some _ _ w1 Hh) as (w2 & Hrun2 & Hfs2 & Htr2 & r & Hlog & Hne & Hall).
      rewrite Hrun2.
      destruct (patch_finally_run td w2) as (w3 & Hfin & _ & _ & Hl3). rewrite Hfin.
      exists w0, (Raised e), w1, w2, w3. split_and!; try done.
      * exists r. split_and!; done.
      * destruct (isinstance e Exception) eqn:Hex; [done|].
        apply patch_handlers_None in Hex. congruence.
    + destruct (patch_finally_run td w1) as (w3 & Hfin & _ & _ & Hl3). rewrite Hfin.
      exists w0, (Raised e), w1, w1, w3. split_and!; try done.
      * exists []. split_and!; [by rewrite app_nil_r|done|].
        intros e' [= <-] Hex. apply patch_handlers_None in Hh. congruence.
      * apply patch_handlers_None in Hh. by rewrite Hh.
Qed.
End PatchRuns.

(* ================================================================== *)
(** * The [try] block: where it writes *)
(* ================================================================== *)

Lemma under_app_l (l x q : path) : under (l ++ x) q = true → under l q = true.
Proof.
  rewrite !under_true. intros [r ->]. rewrite <- app_assoc. eauto.
Qed.

Lemma strictly_under_app (l x q : path) :
  x ≠ [] → under (l ++ x) q = true → strictly_under l q = true.
Proof.
  rewrite under_true, strictly_under_true. intros Hx [r ->].
  exists (x ++ r). rewrite <- app_assoc. split; [|done]. by destruct x.
Qed.

Lemma strictly_under_irrefl (l : path) : strictly_under l l = false.
Proof.
  destruct (strictly_under l l) eqn:Hs; [|done].
  apply strictly_under_true in Hs as (q & Hq & Heq). by apply app_ne_self in Heq.
Qed.

Section Body.
Context `{ZipCodec}.
Variable DEBUG_MODE : bool.
Variable E : env.

(** Building the patched archive writes inside the workspace only. *)
Lemma build_trace_touches S td ev q :
  ev ∈ build_trace DEBUG_MODE S td → touches ev q = true →
  strictly_under td q = true.
Proof.
  unfold build_trace. intros Hin Ht.
  assert (∀ x, x ≠ [] → under (td ++ x) q = true → strictly_under td q = true)
    as Hsub by (intros; by eapply strictly_under_app).
  unfold dest_egg, new_py, old_pyc, new_pyc, lic_dir, extract_dir in *.
  rewrite <- ?app_assoc in *.
  destruct DEBUG_MODE; simpl in Hin;
    repeat (apply elem_of_cons in Hin as [->|Hin]); try (by apply elem_of_nil in Hin);
    simpl in Ht;
    repeat match goal with
           | H : _ || _ = true |- _ => apply orb_true_iff in H as [H|H]
           | H : bool_decide _ = true |- _ => apply bool_decide_eq_true in H
           end;
    subst; first
      [ by eapply Hsub; [|done]
      | apply strictly_under_true; eexists; split; [|done]; done
      | apply strictly_under_true; eexists; split; [|by rewrite <- app_assoc]; done ].
Qed.

Lemma build_run S td w o w' :
  run_steps (build_steps DEBUG_MODE E S td) w = (o, w') →
  ∃ l, trace w' = trace w ++ l ∧ l `prefix_of` build_trace DEBUG_MODE S td ∧
       (o = Normal tt → l = build_trace DEBUG_MODE S td) ∧
       ∀ q, strictly_under td q = false → fs w' !! q = fs w !! q.
Proof.
  intros Hrun. destruct (sound_build DEBUG_MODE E S td w) as (l & [Ht Hf] & Hpre & Hn).
  rewrite Hrun in *. simpl in *. exists l. split_and!; [done..| |].
  - intros ->. by apply Hn.
  - intros q Hq. apply Hf. intros ev Hev.
    destruct (touches ev q) eqn:Htouch; [|done].
    assert (strictly_under td q = true); [|congruence].
    eapply (build_trace_touches S td ev q); [|done].
    destruct Hpre as [k ->]. apply elem_of_app. by left.
Qed.

Lemma step_backup_run S w o w' :
  step_backup DEBUG_MODE E S w = (o, w') →
  ∃ m' e, copy2 S (backup_path E S) (fs w) = (m', e) ∧ fs w' = m' ∧
          trace w' = trace w ++ [EvCopy S (backup_path E S)] ∧
          o = match e with
              | None => Normal tt
              | Some e => if isinstance e FileNotFoundError then Normal tt else Raised e
              end.
Proof.
  unfold step_backup, try_except. rewrite bind_eq. unfold fs_do.
  destruct (copy2 S (backup_path E S) (fs w)) as [m' [e|]] eqn:Hop; simpl.
  - destruct (isinstance e FileNotFoundError) eqn:Hfnf.
    + unfold logger_warning, logger_log. intros [= <- <-].
      exists m', (Some e). rewrite fs_logged, trace_logged, Hfnf. done.
    + intros [= <- <-]. exists m', (Some e). by rewrite Hfnf.
  - unfold logger_debug, logger_log. intros [= <- <-].
    exists m', None. by rewrite fs_logged, trace_logged.
Qed.

Lemma step_deploy_run S td w o w' :
  step_deploy DEBUG_MODE S td w = (o, w') →
  ∃ m' e, copy2 (dest_egg S td) S (fs w) = (m', e) ∧ fs w' = m' ∧
          trace w' = trace w ++ [EvCopy (dest_egg S td) S] ∧
          o = match e with None => Normal tt | Some e => Raised e end.
Proof.
  unfold step_deploy. rewrite bind_eq. unfold fs_do.
  destruct (copy2 (dest_egg S td) S (fs w)) as [m' [e|]] eqn:Hop; simpl.
  - intros [= <- <-]. by exists m', (Some e).
  - unfold logger_debug, logger_log. intros [= <- <-].
    exists m', None. by rewrite fs_logged, trace_logged.
Qed.

Lemma copy2_file_target src dst m :
  is_file m dst = true → copy2_target m src dst = dst.
Proof.
  unfold copy2_target, is_file, is_dir. by destruct (m !! dst) as [[]|].
Qed.

Lemma copy2_ok src dst m m' :
  copy2 src dst m = (m', None) →
  ∃ d, m !! src = Some (File d) ∧ m' = <[copy2_target m src dst := File d]> m.
Proof.
  unfold copy2, fs_raise. destruct (m !! src) as [[d|]|]; [|done..].
  case_bool_decide; [done|]. intros Hw%write_bytes_ok. eauto.
Qed.

(** The [try] block as a whole. *)
Lemma patch_body_run S td w0 o w1 :
  is_file (fs w0) S = true →
  under td S = false →
  S ≠ backup_path E S → S ≠ backup_path E S ++ [name S] →
  patch_body DEBUG_MODE E S td w0 = (o, w1) →
  ∃ lb, trace w1 = trace w0 ++ lb ∧
        lb `prefix_of` body_trace DEBUG_MODE E S td ∧
        (o = Normal tt → lb = body_trace DEBUG_MODE E S td) ∧
        (∀ q, strictly_under td q = false → q ≠ S →
              q ≠ backup_path E S → q ≠ backup_path E S ++ [name S] →
              fs w1 !! q = fs w0 !! q) ∧
        (EvCopy S (backup_path E S) ∉ lb →
         ∀ q, strictly_under td q = false → q ≠ S → fs w1 !! q = fs w0 !! q) ∧
        (o ≠ Normal tt → fs w1 !! S = fs w0 !! S) ∧
        (o = Normal tt → fs w1 !! S = fs w1 !! dest_egg S td).
Proof.
  intros Hfile HS Hbk1 Hbk2. unfold patch_body. rewrite run_steps_app, bind_eq.
  assert (strictly_under td S = false) as HS'.
  { destruct (strictly_under td S) eqn:Hs; [|done].
    apply strictly_under_under in Hs. congruence. }
  assert (S ≠ dest_egg S td) as Hdest.
  { unfold dest_egg. intros Heq. rewrite Heq, under_app in HS. done. }
  destruct (run_steps (build_steps DEBUG_MODE E S td) w0) as [o7 w7] eqn:H7.
  destruct (build_run _ _ _ _ _ H7) as (l7 & Ht7 & Hp7 & Hn7 & Hf7).
  unfold body_trace.
  destruct o7 as [[]| |e]; cycle 1.
  { intros [= <- <-]. exists l7. split_and!; try done.
    - by apply prefix_app_r.
    - intros; by apply Hf7.
    - intros; by apply Hf7.
    - intros; by apply Hf7. }
  { intros [= <- <-]. exists l7. split_and!; try done.
    - by apply prefix_app_r.
    - intros; by apply Hf7.
    - intros; by apply Hf7.
    - intros; by apply Hf7. }
  rewrite Hn7 in * by done. clear Hn7 Hp7.
  cbn [run_steps]. rewrite bind_eq.
  destruct (step_backup DEBUG_MODE E S w7) as [o8 w8] eqn:H8.
  destruct (step_backup_run _ _ _ _ H8) as (m8 & e8 & Hc8 & Hfs8 & Ht8 & Ho8).
  assert (∀ q, q ≠ backup_path E S → q ≠ backup_path E S ++ [name S] →
               fs w8 !! q = fs w7 !! q) as Hf8.
  { intros q Hq1 Hq2. rewrite Hfs8. eapply copy2_frame; [done|].
    unfold copy2_target. by destruct (is_dir _ _). }
  assert (fs w8 !! S = fs w0 !! S) as HS8 by (rewrite Hf8, Hf7; done).
  assert (o8 = Normal tt ∨ ∃ e, o8 = Raised e) as [->|[e ->]].
  { rewrite Ho8. destruct e8 as [e|]; [|by left].
    destruct (isinstance e _); [by left|right; eauto]. }
  2:{ intros [= <- <-].
      exists (build_trace DEBUG_MODE S td ++ [EvCopy S (backup_path E S)]).
      split_and!; try done.
      - by rewrite Ht8, Ht7, app_assoc.
      - apply prefix_app. by eexists [_].
      - intros q ????. rewrite Hf8, Hf7; done.
      - intros Hnot. exfalso. apply Hnot, elem_of_app. right. by left. }
  rewrite bind_eq.
  destruct (step_deploy DEBUG_MODE S td w8) as [o9 w9] eqn:H9.
  destruct (step_deploy_run _ _ _ _ _ H9) as (m9 & e9 & Hc9 & Hfs9 & Ht9 & Ho9).
  assert (is_file (fs w8) S = true) as Hfile8.
  { unfold is_file in *. by rewrite HS8. }
  assert (∀ q, q ≠ S → fs w9 !! q = fs w8 !! q) as Hf9.
  { intros q Hq. rewrite Hfs9. eapply copy2_frame; [done|].
    by rewrite copy2_file_target. }
  assert (trace w9 = trace w0 ++ build_trace DEBUG_MODE S td ++
            [EvCopy S (backup_path E S); EvCopy (dest_egg S td) S]) as Htr.
  { rewrite Ht9, Ht8, Ht7. by rewrite <- !app_assoc. }
  destruct e9 as [e|]; subst o9.
  - apply copy2_raise in Hc9. cbn [run_steps].
    intros [= <- <-].
    exists (build_trace DEBUG_MODE S td ++
            [EvCopy S (backup_path E S); EvCopy (dest_egg S td) S]).
    split_and!; try done.
    + intros q ????. rewrite Hf9, Hf8, Hf7; done.
    + intros Hnot. exfalso. apply Hnot, elem_of_app. right. by left.
    + intros _. by rewrite Hfs9, Hc9.
  - cbn [run_steps]. intros [= <- <-].
    exists (build_trace DEBUG_MODE S td ++
            [EvCopy S (backup_path E S); EvCopy (dest_egg S td) S]).
    split_and!; try done.
    + intros q ????. rewrite Hf9, Hf8, Hf7; done.
    + intros Hnot. exfalso. apply Hnot, elem_of_app. right. by left.
    + intros _. apply copy2_ok in Hc9 as (d & Hd & Hm9).
      rewrite copy2_file_target in Hm9 by done. rewrite Hfs9, Hm9.
      rewrite lookup_insert_eq, lookup_insert_ne by done. done.
Qed.
End Body.

(* ================================================================== *)
(** * Every run of [patch] *)
(* ================================================================== *)

Lemma new_events_app w w' l : trace w' = trace w ++ l → new_events w w' = l.
Proof. unfold new_events. intros ->. by rewrite drop_app_length. Qed.

Lemma strictly_under_false_of_under root q :
  under root q = false → strictly_under root q = false.
Proof.
  intros Hu. destruct (strictly_under root q) eqn:Hs; [|done].
  apply strictly_under_under in Hs. congruence.
Qed.

Section PatchCases.
Context `{ZipCodec}.
Variable DEBUG_MODE : bool.
Variable E : env.

Lemma patch_not_file w S :
  located (fs w) = Some S → is_file (fs w) S = false →
  ∃ w', patch DEBUG_MODE E w = (Normal tt, w') ∧ fs w' = fs w ∧ trace w' = trace w.
Proof.
  intros Hloc Hfile. unfold patch, def. rewrite bind_eq.
  unfold logger_info at 1, logger_log at 1. rewrite bind_eq.
  destruct (find_source_egg_run DEBUG_MODE (logged DEBUG_MODE INFO start_message w))
    as (wa & Hrun & Hfs & Htr & _ & _).
  fold start_message. rewrite Hrun. rewrite fs_logged in Hfs.
  rewrite trace_logged in Htr. rewrite fs_logged, Hloc.
  rewrite bind_eq. unfold fs_read at 1. rewrite Hfs, Hfile. cbn [negb].
  rewrite !bind_eq. unfold logger_error, logger_log, return_.
  eexists. split; [done|]. by rewrite !fs_logged, !trace_logged.
Qed.

Lemma patch_no_workspace w S m0 e :
  located (fs w) = Some S → is_file (fs w) S = true →
  mkdtemp_in (tmproot E) "pyovpn_patch_" (tmpnames E) (fs w) = (m0, inl e) →
  ∃ w', patch DEBUG_MODE E w = (Raised e, w') ∧ fs w' = fs w ∧
        trace w' = trace w ++ [EvMkdtemp (tmproot E) "pyovpn_patch_"].
Proof.
  intros Hloc Hfile Hmk. unfold patch, def. rewrite bind_eq.
  unfold logger_info at 1, logger_log at 1. rewrite bind_eq.
  destruct (find_source_egg_run DEBUG_MODE (logged DEBUG_MODE INFO start_message w))
    as (wa & Hrun & Hfs & Htr & _ & _).
  fold start_message. rewrite Hrun. rewrite fs_logged in Hfs.
  rewrite trace_logged in Htr. rewrite fs_logged, Hloc.
  rewrite bind_eq. unfold fs_read at 1. rewrite Hfs, Hfile. cbn [negb].
  rewrite bind_eq. pose proof (mkdtemp_in_inl _ _ _ _ _ _ Hmk) as ->.
  destruct DEBUG_MODE.
  - unfold setup_temp_dir. rewrite bind_eq. unfold tempfile_mkdtemp.
    rewrite Hfs, Hmk. cbn [fst snd]. eexists. split; [done|]. simpl. by rewrite Htr.
  - unfold tempfile_mkdtemp. rewrite Hfs, Hmk. cbn [fst snd].
    eexists. split; [done|]. simpl. by rewrite Htr.
Qed.

(** What holds of the archive and the workspace of a run by their
    names alone. *)
Lemma run_names m S td :
  located m = Some S → workspace E m = Some td →
  under td S = false ∧ S ≠ td ∧
  S ≠ backup_path E S ∧ S ≠ backup_path E S ++ [name S] ∧
  under td (backup_path E S) = false ∧
  under td (backup_path E S ++ [name S]) = false.
Proof.
  intros (n & -> & Hn & _)%located_Some (m0 & c & _ & _ & _ & -> & Hc)%workspace_Some.
  pose proof (egg_name_not_ws _ Hn) as Hn'.
  assert (Forall (λ x, ws_name x = false) (EGG_DIR ++ [n])) as HS.
  { apply Forall_app. split; [apply egg_dir_no_ws|by constructor]. }
  assert (Forall (λ x, ws_name x = false) (backup_path E (EGG_DIR ++ [n]))) as Hb.
  { unfold backup_path. apply Forall_app. split; [apply backup_dir_no_ws|].
    constructor; [|done]. rewrite name_snoc. by apply backup_name_not_ws. }
  split_and!.
  - by apply not_under_workspace.
  - by apply ne_workspace.
  - intros Heq%(f_equal length). by rewrite !length_app in Heq.
  - intros Heq%(f_equal length). by rewrite !length_app in Heq.
  - by apply not_under_workspace.
  - apply not_under_workspace; [done|]. apply Forall_app. split; [done|].
    rewrite name_snoc. by constructor.
Qed.

(** A run that reaches the [try] block, from start to end. *)
Lemma patch_run_workspace w S td :
  located (fs w) = Some S → is_file (fs w) S = true →
  workspace E (fs w) = Some td →
  ∃ w0 o w1 lb,
    fs w0 = <[td := Dir]> (fs w) ∧
    patch_body DEBUG_MODE E S td w0 = (o, w1) ∧
    trace w1 = trace w0 ++ lb ∧
    (∀ r1, log w1 = log w0 ++ r1 →
           ∃ ra rb, log (patch DEBUG_MODE E w).2 = log w ++ ra ++ r1 ++ rb) ∧
    lb `prefix_of` body_trace DEBUG_MODE E S td ∧
    (o = Normal tt → lb = body_trace DEBUG_MODE E S td) ∧
    (patch DEBUG_MODE E w).1 =
      match o with
      | Raised e => if isinstance e Exception then Normal tt else Raised e
      | _ => Normal tt
      end ∧
    new_events w (patch DEBUG_MODE E w).2 =
      EvMkdtemp (tmproot E) "pyovpn_patch_" :: lb ++ cleanup_trace DEBUG_MODE td ∧
    fs (patch DEBUG_MODE E w).2 =
      (if DEBUG_MODE then fs w1 else remove_tree td (fs w1)) ∧
    fs w1 !! td = Some Dir ∧
    (∀ q, under td q = false → q ≠ S →
          q ≠ backup_path E S → q ≠ backup_path E S ++ [name S] →
          fs w1 !! q = fs w !! q) ∧
    (EvCopy S (backup_path E S) ∉ lb →
     ∀ q, under td q = false → q ≠ S → fs w1 !! q = fs w !! q) ∧
    (o ≠ Normal tt → fs w1 !! S = fs w !! S) ∧
    (o = Normal tt → fs w1 !! S = fs w1 !! dest_egg S td).
Proof.
  intros Hloc Hfile Hws.
  destruct (run_names _ _ _ Hloc Hws) as (HuS & HStd & Hb1 & Hb2 & Hub1 & Hub2).
  apply workspace_Some in Hws as (m0 & c & Hmk & Hfresh & -> & Htd & Hc).
  destruct (patch_with_workspace DEBUG_MODE E w S td _ Hloc Hfile Hmk)
    as (w0 & o & w1 & w2 & w3 & Hfs0 & Htr0 & Hlog0 & Hbody & Hfs2 & Htr2 & Hlog2 & Hfin & Hlog3 & Hpatch).
  assert (is_file (fs w0) S = true) as Hfile0.
  { unfold is_file in *. rewrite Hfs0, lookup_insert_ne by done. done. }
  destruct (patch_body_run DEBUG_MODE E S td w0 o w1 Hfile0 HuS Hb1 Hb2 Hbody)
    as (lb & Htr1 & Hpre & Hn & Hf & Hfb & Hab & Hok).
  assert (∀ q, under td q = false → fs w0 !! q = fs w !! q) as Hf0.
  { intros q Hq. rewrite Hfs0, lookup_insert_ne; [done|].
    intros <-. by rewrite under_refl in Hq. }
  assert (fs w1 !! td = Some Dir) as Htd1.
  { rewrite Hf.
    - by rewrite Hfs0, lookup_insert_eq.
    - apply strictly_under_irrefl.
    - done.
    - intros ->. by rewrite under_refl in Hub1.
    - intros ->. by rewrite under_refl in Hub2. }
  destruct (patch_finally_run DEBUG_MODE td w2) as (w3' & Hfin' & Hfs3 & Htr3 & _).
  rewrite Hfin in Hfin'. injection Hfin' as <-.
  assert (exists_ (fs w2) td = true) as Hex.
  { unfold exists_. by rewrite Hfs2, Htd1. }
  rewrite Hex, andb_true_r in Hfs3, Htr3.
  exists w0, o, w1, lb. rewrite Hpatch. cbn [fst snd].
  split_and!; try done.
  - destruct Hlog0 as [r0 Hl0]. destruct Hlog2 as (r2 & Hl2 & _).
    destruct Hlog3 as [r3 Hl3]. intros r1 Hl1.
    exists r0, (r2 ++ r3). rewrite Hl3, Hl2, Hl1, Hl0. by rewrite <- !app_assoc.
  - apply new_events_app. rewrite Htr3, Htr2, Htr1, Htr0.
    unfold cleanup_trace. destruct DEBUG_MODE; simpl;
      rewrite <- ?app_assoc; simpl; by rewrite ?app_nil_r.
  - rewrite Hfs3, Hfs2. destruct DEBUG_MODE; simpl; [done|].
    unfold rmtree_ignore_errors, is_dir. by rewrite Htd1.
  - intros q Hq ???. rewrite Hf, Hf0; try done.
    by apply strictly_under_false_of_under.
  - intros Hnot q Hq ?. rewrite Hfb, Hf0; try done.
    by apply strictly_under_false_of_under.
  - intros Ho. rewrite Hab, Hf0; done.
Qed.
End PatchCases.

(* ================================================================== *)
(** * The [try] block: the backup, a failing compiler, a missing module *)
(* ================================================================== *)

Lemma prefix_snoc_mem {A} (l k : list A) (x : A) :
  l `prefix_of` (k ++ [x]) → x ∈ l → x ∉ k → l = k ++ [x].
Proof.
  intros [r Hr] Hin Hnot. destruct r as [|y r _] using rev_ind.
  - by rewrite app_nil_r in Hr.
  - rewrite app_assoc in Hr. apply app_inj_tail in Hr as [-> _].
    exfalso. apply Hnot, elem_of_app. by left.
Qed.

Lemma rename_src_gone src dst m m' :
  rename src dst m = (m', None) → src ≠ dst → under dst src = false →
  m' !! src = None.
Proof.
  unfold rename, fs_raise. intros Hop Hne Hu.
  destruct (m !! src) as [[d|]|]; [| |done].
  - destruct (is_dir m dst); [done|].
    destruct (check_parent m dst); simplify_eq.
    by rewrite lookup_insert_ne, lookup_delete_eq.
  - destruct (is_file m dst); [done|].
    case_bool_decide; [done|].
    destruct (under src dst); [done|].
    destruct (descendants m dst); [|done].
    destruct (check_parent m dst); simplify_eq.
    rewrite graft_frame by done. by rewrite remove_tree_lookup, under_refl.
Qed.

Section BodyMore.
Context `{ZipCodec}.
Variable DEBUG_MODE : bool.
Variable E : env.

Lemma pyc_file_old_pyc td : pyc_file td = old_pyc td.
Proof.
  unfold pyc_file, with_suffix, new_py, old_pyc.
  by rewrite parent_snoc, name_snoc.
Qed.

Lemma deploy_not_in_build S td :
  under td S = false → EvCopy (dest_egg S td) S ∉ build_trace DEBUG_MODE S td.
Proof.
  intros HS Hin. apply (build_trace_touches DEBUG_MODE S td _ S) in Hin.
  - apply strictly_under_under in Hin. congruence.
  - simpl. by rewrite bool_decide_eq_true_2.
Qed.

Lemma copy_out_not_in_build S td dst :
  under td dst = false → EvCopy S dst ∉ build_trace DEBUG_MODE S td.
Proof.
  intros HS Hin. apply (build_trace_touches DEBUG_MODE S td _ dst) in Hin.
  - apply strictly_under_under in Hin. congruence.
  - simpl. by rewrite bool_decide_eq_true_2.
Qed.

(** If the deploy copy is among the effects of the [try] block, the
    whole block ran. *)
Lemma deployed_all_steps S td lb :
  under td S = false →
  lb `prefix_of` body_trace DEBUG_MODE E S td →
  EvCopy (dest_egg S td) S ∈ lb →
  lb = body_trace DEBUG_MODE E S td.
Proof.
  intros HS Hpre Hin. unfold body_trace in *.
  change [EvCopy S (backup_path E S); EvCopy (dest_egg S td) S]
    with ([EvCopy S (backup_path E S)] ++ [EvCopy (dest_egg S td) S]) in *.
  rewrite app_assoc in *. apply prefix_snoc_mem; [done..|].
  intros [Hb|Hb]%elem_of_app.
  - by apply deploy_not_in_build in Hb.
  - apply list_elem_of_singleton in Hb. injection Hb as Hd _.
    unfold dest_egg in Hd. rewrite <- Hd, under_app in HS. done.
Qed.

(** The backup copy, when the block reaches it, leaves the live
    archive's bytes under the backup name. *)
Lemma patch_body_backup S td w0 o w1 lb d :
  fs w0 !! S = Some (File d) →
  under td S = false →
  under td (backup_path E S) = false →
  under td BACKUP_DIR = false →
  S ≠ backup_path E S →
  is_dir (fs w0) BACKUP_DIR = true →
  is_dir (fs w0) (backup_path E S) = false →
  patch_body DEBUG_MODE E S td w0 = (o, w1) →
  trace w1 = trace w0 ++ lb →
  EvCopy S (backup_path E S) ∈ lb →
  fs w1 !! backup_path E S = Some (File d).
Proof.
  intros HSd HS Hbk Hbd Hne Hdir Hnodir. unfold patch_body.
  rewrite run_steps_app, bind_eq.
  destruct (run_steps (build_steps DEBUG_MODE E S td) w0) as [o7 w7] eqn:H7.
  edestruct build_run as (l7 & Ht7 & Hp7 & Hn7 & Hf7); [exact H7|].
  assert (∀ q, under td q = false → fs w7 !! q = fs w0 !! q) as Hf7'.
  { intros q Hq. by apply Hf7, strictly_under_false_of_under. }
  assert (o7 = Normal tt ∨ o7 ≠ Normal tt) as [->|Hab].
  { destruct o7 as [[]| |]; auto. }
  2:{ assert (∀ lb, (o7, w7) = (o, w1) → trace w1 = trace w0 ++ lb →
                    EvCopy S (backup_path E S) ∈ lb → False) as Hno.
      { intros lb' [= <- <-] Htr Hin. rewrite Ht7 in Htr.
        apply app_inv_head in Htr as <-.
        destruct Hp7 as [k Hk].
        eapply (copy_out_not_in_build S td (backup_path E S)); [done|].
        rewrite Hk. apply elem_of_app. by left. }
      destruct o7 as [[]| |]; [done|..]; intros Heq Htr Hin; exfalso; eauto. }
  cbn [run_steps]. rewrite bind_eq.
  destruct (step_backup DEBUG_MODE E S w7) as [o8 w8] eqn:H8.
  edestruct step_backup_run as (m8 & e8 & Hc8 & Hfs8 & Ht8 & Ho8); [exact H8|].
  assert (fs w8 !! backup_path E S = Some (File d)) as Hb8.
  { rewrite Hfs8. revert Hc8. unfold copy2, copy2_target.
    assert (is_dir (fs w7) (backup_path E S) = false) as ->.
    { unfold is_dir in *. by rewrite Hf7'. }
    rewrite Hf7', HSd by done. rewrite bool_decide_eq_false_2 by done.
    unfold write_bytes, check_parent.
    assert (is_dir (fs w7) (backup_path E S) = false) as ->.
    { unfold is_dir in *. by rewrite Hf7'. }
    unfold backup_path at 1. rewrite parent_snoc.
    unfold is_dir in Hdir. rewrite Hf7' by done.
    destruct (fs w0 !! BACKUP_DIR) as [[]|]; try done.
    intros [= <- <-]. by rewrite lookup_insert_eq. }
  assert (o8 = Normal tt ∨ ∃ e, o8 = Raised e) as [->|[e ->]].
  { rewrite Ho8. destruct e8 as [e|]; [|by left].
    destruct (isinstance e _); [by left|right; eauto]. }
  2:{ by intros [= <- <-]. }
  rewrite bind_eq.
  destruct (step_deploy DEBUG_MODE S td w8) as [o9 w9] eqn:H9.
  edestruct step_deploy_run as (m9 & e9 & Hc9 & Hfs9 & Ht9 & Ho9); [exact H9|].
  assert (fs w9 !! backup_path E S = Some (File d)) as Hb9.
  { rewrite Hfs9. destruct e9 as [e|].
    - apply copy2_raise in Hc9. by rewrite Hc9.
    - erewrite copy2_frame; [done..|].
      assert (is_file (fs w8) S = true) as Hfile8.
      { unfold is_file. rewrite Hfs8. erewrite copy2_frame; [|done|].
        - by rewrite Hf7', HSd.
        - unfold copy2_target.
          assert (is_dir (fs w7) (backup_path E S) = false) as ->; [|done].
          unfold is_dir in *. by rewrite Hf7'. }
      rewrite copy2_file_target by done. done. }
  destruct o9 as [[]| |e']; cbn [run_steps]; by intros [= <- <-].
Qed.

(** ** A compiler that fails *)

Lemma stops_within_cons evs1 evs2 s rest w :
  sound evs1 s →
  (∀ w1, s w = (Normal tt, w1) → stops_within evs2 rest w1) →
  stops_within (evs1 ++ evs2) (s :: rest) w.
Proof.
  intros Hs Hrest o w'. cbn [run_steps]. rewrite bind_eq.
  destruct (Hs w) as (l1 & [Ht1 _] & Hp1 & Hn1).
  destruct (s w) as [[[]| |e] w1] eqn:Hsw; simpl in *.
  - intros Hrun. destruct (Hrest w1 eq_refl o w' Hrun) as (Ho & l2 & Ht2 & Hp2).
    split; [done|]. exists (evs1 ++ l2). rewrite Hn1 in Ht1 by done.
    split; [by rewrite Ht2, Ht1, app_assoc|by apply prefix_app].
  - intros [= <- <-]. split; [done|]. exists l1. split; [done|by apply prefix_app_r].
  - intros [= <- <-]. split; [done|]. exists l1. split; [done|by apply prefix_app_r].
Qed.

Lemma step_rename_normal td w w' :
  step_rename DEBUG_MODE td w = (Normal tt, w') → fs w' !! old_pyc td = None.
Proof.
  unfold step_rename. rewrite bind_eq. unfold fs_read.
  destruct (negb (exists_ (fs w) (old_pyc td))).
  { rewrite bind_eq. by unfold logger_error, logger_log, return_. }
  rewrite bind_eq. unfold fs_do.
  destruct (rename (old_pyc td) (new_pyc td) (fs w)) as [m' [e|]] eqn:Hop; [done|].
  cbn [fst snd]. unfold logger_debug, logger_log. intros [= <-].
  rewrite fs_logged. cbn [fs set_fs].
  eapply rename_src_gone; [done| |].
  - unfold old_pyc, new_pyc. intros Heq%app_inv_head. done.
  - unfold old_pyc, new_pyc.
    destruct (under _ _) eqn:Hu; [|done].
    apply under_true in Hu as [r Hr]. rewrite <- app_assoc in Hr.
    apply app_inv_head in Hr. done.
Qed.

Lemma step_write_facade_normal td w w' :
  step_write_facade DEBUG_MODE td w = (Normal tt, w') →
  fs w' = <[new_py td := File FACADE_SOURCE]> (fs w).
Proof.
  unfold step_write_facade. rewrite bind_eq. unfold fs_do.
  destruct (write_bytes (new_py td) FACADE_SOURCE (fs w)) as [m' [e|]] eqn:Hop; [done|].
  cbn [fst snd]. unfold logger_debug, logger_log. intros [= <-].
  rewrite fs_logged. cbn [fs set_fs]. by apply write_bytes_ok.
Qed.

Lemma step_compile_failing td w w' :
  compile_fails (compileall E (fs w) (new_py td)) →
  step_compile DEBUG_MODE E td w = (Normal tt, w') → fs w' = fs w.
Proof.
  intros Hfail. unfold step_compile. rewrite bind_eq. unfold subprocess_run.
  destruct (compileall E (fs w) (new_py td)) as [r art|e]; [|done].
  destruct (negb (returncode r =? 0)%Z) eqn:Hrc.
  { rewrite !bind_eq. by unfold logger_error, logger_log, return_. }
  destruct Hfail as [Hne| ->].
  { apply negb_false_iff, Z.eqb_eq in Hrc. done. }
  unfold logger_debug, logger_log. intros [= <-]. by rewrite fs_logged.
Qed.

Lemma step_verify_missing td w :
  fs w !! old_pyc td = None →
  ∃ w', step_verify DEBUG_MODE td w = (Returned, w') ∧ trace w' = trace w.
Proof.
  intros Hnone. unfold step_verify. rewrite bind_eq. unfold fs_read, exists_.
  rewrite pyc_file_old_pyc, Hnone. cbn [negb]. rewrite bind_eq.
  unfold logger_error, logger_log, return_. eexists. split; [done|].
  by rewrite trace_logged.
Qed.

Lemma build_fails S td w :
  (∀ m src, compile_fails (compileall E m src)) →
  stops_within (compile_trace S td) (build_steps DEBUG_MODE E S td) w.
Proof.
  intros Hfail. unfold build_steps, compile_trace.
  apply (stops_within_cons [_] _); [apply sound_step_copy|intros w1 H1].
  apply (stops_within_cons [_; _] _); [apply sound_step_extract|intros w2 H2].
  apply (stops_within_cons [_] _); [apply sound_step_rename|intros w3 H3].
  apply (stops_within_cons [_] _); [apply sound_step_write_facade|intros w4 H4].
  apply (stops_within_cons [_] []); [apply sound_step_compile|intros w5 H5].
  apply step_rename_normal in H3. apply step_write_facade_normal in H4.
  apply step_compile_failing in H5; [|done].
  assert (fs w5 !! old_pyc td = None) as Hnone.
  { rewrite H5, H4, lookup_insert_ne; [done|].
    unfold new_py, old_pyc. intros Heq%app_inv_head. done. }
  destruct (step_verify_missing td w5 Hnone) as (w6 & Hv & Ht6).
  intros o w'. cbn [run_steps]. rewrite bind_eq, Hv. intros [= <- <-].
  split; [done|]. exists []. by rewrite Ht6, app_nil_r.
Qed.

(** ** A tree without the module *)

Lemma patch_body_missing_module S td w0 m1 :
  copy_and_extract S td (fs w0) = (m1, None) →
  exists_ m1 (old_pyc td) = false →
  ∃ w1 r, patch_body DEBUG_MODE E S td w0 = (Returned, w1) ∧
          fs w1 = m1 ∧
          trace w1 = trace w0 ++ [EvCopy S (dest_egg S td);
                                  EvMkdir (extract_dir td);
                                  EvExtractAll (dest_egg S td) (extract_dir td)] ∧
          log w1 = log w0 ++ r ++ [missing_module_report td].
Proof.
  unfold copy_and_extract, fs_seq. intros Hce Hex.
  destruct (copy2 S (dest_egg S td) (fs w0)) as [ma [ea|]] eqn:Ha; [done|].
  destruct (mkdir (extract_dir td) ma) as [mb [eb|]] eqn:Hb; [done|].
  unfold patch_body, build_steps. cbn [run_steps app].
  unfold step_copy, step_extract, step_rename.
  rewrite !bind_eq. unfold fs_do at 1. rewrite Ha. cbn [fst snd].
  unfold logger_debug at 1, logger_log at 1.
  rewrite !bind_eq. unfold fs_do at 1. rewrite fs_logged. cbn [fs set_fs].
  rewrite Hb. cbn [fst snd].
  rewrite !bind_eq. unfold fs_do at 1. cbn [fs set_fs]. rewrite Hce. cbn [fst snd].
  unfold logger_debug at 1, logger_log at 1.
  rewrite !bind_eq. unfold fs_read at 1.
  rewrite fs_logged. cbn [fs set_fs]. rewrite Hex. cbn [negb].
  rewrite !bind_eq. unfold logger_error, logger_log, return_.
  match goal with
  | |- context [logged _ DEBUG ?msg2 (set_fs m1 (add_event ?e3 (set_fs mb
                  (add_event ?e2 (logged _ DEBUG ?msg1 ?wa)))))] =>
      destruct (log_logged_ext DEBUG_MODE DEBUG msg1 wa) as [r1 Hr1];
      destruct (log_logged_ext DEBUG_MODE DEBUG msg2
                  (set_fs m1 (add_event e3 (set_fs mb
                     (add_event e2 (logged DEBUG_MODE DEBUG msg1 wa))))))
        as [r2 Hr2]
  end.
  eexists _, (r1 ++ r2). split; [done|].
  rewrite fs_logged, trace_logged, log_logged_error.
  rewrite fs_logged, trace_logged, Hr2.
  cbn [fs trace log set_fs add_event]. rewrite trace_logged, Hr1.
  cbn [fs trace log set_fs add_event].
  split_and!; [done| |].
  - by rewrite <- !app_assoc.
  - unfold missing_module_report. by rewrite <- !app_assoc.
Qed.
End BodyMore.

(* ================================================================== *)
(** * The pipeline: the claims *)
(* ================================================================== *)

Lemma under_workspace_in E c q :
  ws_name c = true → under (tmproot E ++ [c]) q = true → in_workspace E q = true.
Proof.
  intros Hc [r ->]%under_true. unfold in_workspace.
  by rewrite <- app_assoc, strip_prefix_app.
Qed.

Lemma body_trace_no_rmtree `{ZipCodec} D E S td p :
  EvRmtree p ∉ body_trace D E S td.
Proof.
  unfold body_trace, build_trace. intros Hin.
  destruct D; simpl in Hin;
    repeat (apply elem_of_cons in Hin as [Heq|Hin]; [discriminate Heq|]);
    by apply elem_of_nil in Hin.
Qed.

(** C7. If no archive in the source directory matches the pattern, the
    run reports that no egg file was found, says it is aborting, and
    ends there: the file system is left exactly as it was and no effect
    is performed (no workspace, no extraction, no backup, no deploy). *)
Theorem C7_no_source_no_mutation `{ZipCodec} (D : bool) (E : env) (w : world) :
  glob (fs w) EGG_DIR EGG_PATTERN = [] →
  ∃ w', patch D E w = (Normal tt, w') ∧
        fs w' = fs w ∧ trace w' = trace w ∧
        log w' = log w ++ [
          (INFO, start_message);
          (ERROR, "No egg file matching pyovpn-*.egg found in /usr/local/openvpn_as/lib/python");
          (ERROR, "Aborting due to missing egg file.")].
Proof.
  intros Hglob. apply patch_no_source. unfold located. by rewrite Hglob.
Qed.

Lemma C7_witness :
  ∃ w', @patch bits_codec false (env_with good_compiler) (world0 base_fs) = (Normal tt, w') ∧
        fs w' = base_fs ∧ trace w' = [] ∧
        log w' = [] ++ [
          (INFO, start_message);
          (ERROR, "No egg file matching pyovpn-*.egg found in /usr/local/openvpn_as/lib/python");
          (ERROR, "Aborting due to missing egg file.")].
Proof.
  apply (@C7_no_source_no_mutation bits_codec false (env_with good_compiler) (world0 base_fs)).
  vm_compute. reflexivity.
Defined.

(** C3. In every run the effects of the [try] block are an initial
    segment of the pipeline's sequence of steps, so whatever makes a
    step abort skips all steps after it; the live archive is left as it
    was whenever the block does not run to its end (no archive found,
    archive not a file, no workspace, an early [return], or an
    exception), and when the live archive does change, every step ran
    and its new content is the repacked archive that the final copy
    wrote over it. *)
Theorem C3_live_archive_written_only_by_deploy `{ZipCodec} (D : bool) (E : env) (w : world) :
  let w' := (patch D E w).2 in
  match located (fs w) with
  | None => new_events w w' = [] ∧ fs w' = fs w
  | Some egg =>
      (new_events w w' = [] ∧ fs w' = fs w) ∨
      (new_events w w' = [EvMkdtemp (tmproot E) "pyovpn_patch_"] ∧ fs w' = fs w) ∨
      ∃ td w0 o w1 lb,
        workspace E (fs w) = Some td ∧
        patch_body D E egg td w0 = (o, w1) ∧
        trace w1 = trace w0 ++ lb ∧
        lb `prefix_of` body_trace D E egg td ∧
        (o = Normal tt → lb = body_trace D E egg td) ∧
        new_events w w' =
          EvMkdtemp (tmproot E) "pyovpn_patch_" :: lb ++ cleanup_trace D td ∧
        (o ≠ Normal tt → fs w' !! egg = fs w !! egg) ∧
        (fs w' !! egg ≠ fs w !! egg →
         lb = body_trace D E egg td ∧ fs w' !! egg = fs w1 !! dest_egg egg td)
  end.
Proof.
  intros w'. subst w'. destruct (located (fs w)) as [S|] eqn:Hloc.
  2:{ destruct (patch_no_source D E w Hloc) as (w' & -> & Hfs & Htr & _).
      simpl. split; [|done]. apply new_events_app. by rewrite app_nil_r. }
  destruct (is_file (fs w) S) eqn:Hfile.
  2:{ left. destruct (patch_not_file D E w S Hloc Hfile) as (w' & -> & Hfs & Htr).
      simpl. split; [|done]. apply new_events_app. by rewrite app_nil_r. }
  destruct (mkdtemp_in (tmproot E) "pyovpn_patch_" (tmpnames E) (fs w))
    as [m0 [e|td]] eqn:Hmk.
  { right; left.
    destruct (patch_no_workspace D E w S m0 e Hloc Hfile Hmk) as (w' & -> & Hfs & Htr).
    simpl. split; [|done]. by apply new_events_app. }
  right; right.
  assert (workspace E (fs w) = Some td) as Hws by (unfold workspace; by rewrite Hmk).
  destruct (run_names E _ _ _ Hloc Hws) as (HuS & _).
  destruct (patch_run_workspace D E w S td Hloc Hfile Hws)
    as (w0 & o & w1 & lb & Hfs0 & Hbody & Htr1 & _ & Hpre & Hn & _ & Hev & Hfs' & _
        & _ & _ & Hab & Hok).
  assert (fs (patch D E w).2 !! S = fs w1 !! S) as HS.
  { rewrite Hfs'. destruct D; [done|]. by rewrite remove_tree_lookup, HuS. }
  exists td, w0, o, w1, lb. split_and!; try done.
  - intros Ho. by rewrite HS, Hab.
  - intros Hne. assert (o = Normal tt) as Ho.
    { destruct o as [[]| |e]; [done|exfalso..];
        apply Hne; by rewrite HS, Hab. }
    split; [by apply Hn|]. by rewrite HS, Hok.
Qed.

(** C5. Once the workspace exists, the [finally] clause runs however
    the [try] block ends (falling through, an early [return], a caught
    exception, or one that propagates): without the debug flag nothing
    is left at or below the workspace path and the removal is the last
    effect of the run; with the debug flag no removal is attempted and
    the workspace directory is still there, as the block left it. *)
Theorem C5_workspace_removed_on_every_exit `{ZipCodec} (D : bool) (E : env) (w : world)
    (S td : path) :
  located (fs w) = Some S → is_file (fs w) S = true →
  workspace E (fs w) = Some td →
  let w' := (patch D E w).2 in
  ∃ w0 o w1,
    patch_body D E S td w0 = (o, w1) ∧
    (patch D E w).1 =
      match o with
      | Raised e => if isinstance e Exception then Normal tt else Raised e
      | _ => Normal tt
      end ∧
    if D then
      fs w' = fs w1 ∧ fs w' !! td = Some Dir ∧ EvRmtree td ∉ new_events w w'
    else
      fs w' = remove_tree td (fs w1) ∧
      (∀ q, under td q = true → fs w' !! q = None) ∧
      last (new_events w w') = Some (EvRmtree td).
Proof.
  intros Hloc Hfile Hws w'. subst w'.
  destruct (patch_run_workspace D E w S td Hloc Hfile Hws)
    as (w0 & o & w1 & lb & Hfs0 & Hbody & Htr1 & _ & Hpre & Hn & Hout & Hev & Hfs' & Htd
        & _).
  exists w0, o, w1. split_and!; [done..|].
  rewrite Hev, Hfs'. unfold cleanup_trace. destruct D.
  - split_and!; [done..|]. rewrite app_nil_r. intros Hin.
    apply elem_of_cons in Hin as [Heq|Hin]; [done|].
    destruct Hpre as [k Hk]. eapply (body_trace_no_rmtree true E S td td).
    rewrite Hk. apply elem_of_app. by left.
  - split_and!; [done| |].
    + intros q Hq. by rewrite remove_tree_lookup, Hq.
    + rewrite app_comm_cons. apply last_snoc.
Qed.

Lemma backup_dir_not_in_workspace E m td :
  workspace E m = Some td → under td BACKUP_DIR = false.
Proof.
  intros (m0 & c & _ & _ & _ & -> & Hc)%workspace_Some.
  apply not_under_workspace; [done|apply backup_dir_no_ws].
Qed.

(** C9. The backup file is [<name of the live archive>.bak-<timestamp>]
    in the backup directory, with the UTC time rendered by
    [%Y%m%d-%H%M%S], that is, to the second (microseconds do not
    appear).  In a run that reaches the deploy copy, with the backup
    directory present and the backup name not taken by a directory, the
    copy under that name is made just before the deploy copy and holds
    the bytes the live archive had before the run.  For a run at
    2024-03-05T10:07:22Z against [pyovpn-1.2.3.egg] the backup is named
    [pyovpn-1.2.3.egg.bak-20240305-100722]. *)
Theorem C9_backup_file_name `{ZipCodec} (D : bool) (E : env) (w : world)
    (S td : path) (d : string) :
  located (fs w) = Some S → fs w !! S = Some (File d) →
  workspace E (fs w) = Some td →
  is_dir (fs w) BACKUP_DIR = true →
  let bk := BACKUP_DIR ++ [name S +:+ ".bak-" +:+ strftime "%Y%m%d-%H%M%S" (utcnow E)] in
  is_dir (fs w) bk = false →
  let w' := (patch D E w).2 in
  EvCopy (dest_egg S td) S ∈ new_events w w' →
  fs w' !! bk = Some (File d) ∧
  (∃ l1 l2, new_events w w' = l1 ++ [EvCopy S bk; EvCopy (dest_egg S td) S] ++ l2) ∧
  (∀ t, strftime TIMESTAMP_FORMAT t =
        zpad 4 (year t) +:+ zpad 2 (month t) +:+ zpad 2 (day t) +:+ "-" +:+
        zpad 2 (hour t) +:+ zpad 2 (minute t) +:+ zpad 2 (second t)) ∧
  (∀ us, backup_name "pyovpn-1.2.3.egg" (Datetime 2024 3 5 10 7 22 us)
         = "pyovpn-1.2.3.egg.bak-20240305-100722").
Proof.
  intros Hloc HSd Hws Hdir bk Hnodir w' Hdep. subst w'.
  assert (bk = backup_path E S) as Hbk by done. clearbody bk. subst bk.
  assert (is_file (fs w) S = true) as Hfile by (unfold is_file; by rewrite HSd).
  destruct (run_names E _ _ _ Hloc Hws) as (HuS & HStd & Hb1 & Hb2 & Hub1 & Hub2).
  pose proof (backup_dir_not_in_workspace _ _ _ Hws) as Hubd.
  destruct (patch_run_workspace D E w S td Hloc Hfile Hws)
    as (w0 & o & w1 & lb & Hfs0 & Hbody & Htr1 & _ & Hpre & Hn & _ & Hev & Hfs' & _).
  rewrite Hev in Hdep.
  assert (EvCopy (dest_egg S td) S ∈ lb) as Hin.
  { apply elem_of_cons in Hdep as [Heq|Hdep]; [done|].
    apply elem_of_app in Hdep as [Hdep|Hdep]; [done|].
    unfold cleanup_trace in Hdep. destruct D; [by apply elem_of_nil in Hdep|].
    by apply list_elem_of_singleton in Hdep. }
  pose proof (deployed_all_steps D E S td lb HuS Hpre Hin) as ->.
  assert (∀ q, under td q = false → fs w0 !! q = fs w !! q) as Hf0.
  { intros q Hq. rewrite Hfs0, lookup_insert_ne; [done|].
    intros <-. by rewrite under_refl in Hq. }
  split_and!.
  - assert (fs w1 !! backup_path E S = Some (File d)) as Hb.
    { eapply (patch_body_backup D E S td w0 o w1); try done.
      + by rewrite Hf0.
      + unfold is_dir. by rewrite Hf0.
      + unfold is_dir. by rewrite Hf0.
      + unfold body_trace. apply elem_of_app. right. by left. }
    rewrite Hfs'. destruct D; [done|]. by rewrite remove_tree_lookup, Hub1.
  - rewrite Hev. unfold body_trace.
    exists (EvMkdtemp (tmproot E) "pyovpn_patch_" :: build_trace D S td),
           (cleanup_trace D td).
    by rewrite <- !app_assoc.
  - done.
  - done.
Qed.

Lemma compile_trace_build D S td ev :
  ev ∈ compile_trace S td → ev ∈ build_trace D S td.
Proof. unfold build_trace. intros Hin. apply elem_of_app. by left. Qed.

Lemma not_in_workspace_not_under E m td q :
  workspace E m = Some td → in_workspace E q = false → under td q = false.
Proof.
  intros (m0 & c & _ & _ & _ & -> & Hc)%workspace_Some Hq.
  destruct (under _ q) eqn:Hu; [|done].
  apply under_workspace_in in Hu; [congruence|done].
Qed.

(** C2. If the external compiler exits with a non-zero status or leaves
    no compiled file, the run ends before repacking, backup and deploy:
    every effect it performs writes inside the workspace only, no
    archive is written, and every path outside the workspace (the live
    archive, the backup directory and everything else) holds after the
    run what it held before. *)
Theorem C2_compile_failure_aborts `{ZipCodec} (D : bool) (E : env) (w : world) :
  (∀ m src, compile_fails (compileall E m src)) →
  let w' := (patch D E w).2 in
  (∀ q, in_workspace E q = false → fs w' !! q = fs w !! q) ∧
  (∀ ev, ev ∈ new_events w w' →
         (∀ q, touches ev q = true → in_workspace E q = true) ∧
         (∀ archive root, ev ≠ EvZipWrite archive root) ∧
         (∀ src dst, ev = EvCopy src dst → in_workspace E dst = true)).
Proof.
  intros Hfail w'. subst w'.
  assert (∀ q, touches (EvMkdtemp (tmproot E) "pyovpn_patch_") q = true →
               in_workspace E q = true) as Hmkd.
  { intros q. simpl. unfold in_workspace.
    by destruct (strip_prefix (tmproot E) q) as [[|c [|]]|]. }
  destruct (located (fs w)) as [S|] eqn:Hloc.
  2:{ destruct (patch_no_source D E w Hloc) as (w' & -> & Hfs & Htr & _). simpl.
      split; [by rewrite Hfs|]. intros ev Hin.
      rewrite (new_events_app w w' []) in Hin by by rewrite app_nil_r.
      by apply elem_of_nil in Hin. }
  destruct (is_file (fs w) S) eqn:Hfile.
  2:{ destruct (patch_not_file D E w S Hloc Hfile) as (w' & -> & Hfs & Htr). simpl.
      split; [by rewrite Hfs|]. intros ev Hin.
      rewrite (new_events_app w w' []) in Hin by by rewrite app_nil_r.
      by apply elem_of_nil in Hin. }
  destruct (mkdtemp_in (tmproot E) "pyovpn_patch_" (tmpnames E) (fs w))
    as [m0 [e|td]] eqn:Hmk.
  { destruct (patch_no_workspace D E w S m0 e Hloc Hfile Hmk) as (w' & -> & Hfs & Htr).
    simpl. split; [by rewrite Hfs|]. intros ev Hin.
    rewrite (new_events_app w w' _ Htr) in Hin.
    apply list_elem_of_singleton in Hin as ->. split_and!; [done..|]. done. }
  assert (workspace E (fs w) = Some td) as Hws by (unfold workspace; by rewrite Hmk).
  destruct (run_names E _ _ _ Hloc Hws) as (HuS & HStd & Hb1 & Hb2 & Hub1 & Hub2).
  destruct (patch_run_workspace D E w S td Hloc Hfile Hws)
    as (w0 & o & w1 & lb & Hfs0 & Hbody & Htr1 & _ & Hpre & Hn & _ & Hev & Hfs' & _
        & _ & Hfb & Hab & _).
  assert (o ≠ Normal tt ∧ lb `prefix_of` compile_trace S td) as [Ho Hlb].
  { revert Hbody. unfold patch_body. rewrite run_steps_app, bind_eq.
    destruct (run_steps (build_steps D E S td) w0) as [o7 w7] eqn:H7.
    destruct (build_fails D E S td w0 Hfail o7 w7 H7) as (Ho7 & l7 & Ht7 & Hp7).
    destruct o7 as [[]| |e]; [done|..]; intros [= <- <-];
      rewrite Ht7 in Htr1; apply app_inv_head in Htr1 as <-; done. }
  assert (∀ ev, ev ∈ lb → ev ∈ compile_trace S td) as Hsub.
  { intros ev Hin. destruct Hlb as [k ->]. apply elem_of_app. by left. }
  assert (∀ q, under td q = false → fs w1 !! q = fs w !! q) as Hf1.
  { intros q Hq. destruct (decide (q = S)) as [->|Hne]; [by apply Hab|].
    apply Hfb; [|done..]. intros Hin%Hsub%(compile_trace_build D).
    by apply copy_out_not_in_build in Hin. }
  split.
  - intros q Hq. pose proof (not_in_workspace_not_under _ _ _ _ Hws Hq) as Hu.
    rewrite Hfs'. destruct D; [by apply Hf1|].
    rewrite remove_tree_lookup, Hu. by apply Hf1.
  - intros ev Hin. rewrite Hev in Hin.
    apply workspace_Some in Hws as (m0' & c & _ & _ & _ & Htd & Hc).
    assert (∀ q, under td q = true → in_workspace E q = true) as Hin_ws.
    { intros q Hq. rewrite Htd in Hq. by eapply under_workspace_in. }
    assert (∀ q, touches ev q = true → in_workspace E q = true) as Htouch.
    { apply elem_of_cons in Hin as [->|Hin]; [done|].
      apply elem_of_app in Hin as [Hin|Hin].
      - intros q Hq. apply Hin_ws, strictly_under_under.
        eapply (build_trace_touches D S td ev q); [|done].
        by apply compile_trace_build, Hsub.
      - unfold cleanup_trace in Hin. destruct D; [by apply elem_of_nil in Hin|].
        apply list_elem_of_singleton in Hin as ->. intros q Hq. by apply Hin_ws. }
    split_and!; [done| |].
    + intros archive root ->. apply elem_of_cons in Hin as [Heq|Hin]; [done|].
      apply elem_of_app in Hin as [Hin|Hin].
      * apply Hsub in Hin. unfold compile_trace in Hin.
        repeat (apply elem_of_cons in Hin as [Heq|Hin]; [done|]).
        by apply elem_of_nil in Hin.
      * unfold cleanup_trace in Hin. destruct D; [by apply elem_of_nil in Hin|].
        by apply list_elem_of_singleton in Hin.
    + intros src dst ->. apply Htouch. simpl. by rewrite bool_decide_eq_true_2.
Qed.

(** C8. When the archive has been copied into the workspace and
    extracted, and the extracted tree has no entry at
    [pyovpn/lic/uprop.pyc], the run logs that the expected file was not
    found and ends: its only effects are the workspace creation, the
    copy, the extraction and the final cleanup, so no facade is
    written, no compiler is started and there is no backup and no
    deploy; every path outside the workspace is left as it was. *)
Theorem C8_missing_module_aborts `{ZipCodec} (D : bool) (E : env) (w : world)
    (S td : path) :
  located (fs w) = Some S → is_file (fs w) S = true →
  workspace E (fs w) = Some td →
  let extracted := copy_and_extract S td (<[td := Dir]> (fs w)) in
  extracted.2 = None →
  exists_ extracted.1 (old_pyc td) = false →
  let r := patch D E w in
  r.1 = Normal tt ∧
  new_events w r.2 =
    [EvMkdtemp (tmproot E) "pyovpn_patch_";
     EvCopy S (dest_egg S td);
     EvMkdir (extract_dir td);
     EvExtractAll (dest_egg S td) (extract_dir td)] ++ cleanup_trace D td ∧
  missing_module_report td ∈ new_log w r.2 ∧
  fs r.2 = (if D then extracted.1 else remove_tree td extracted.1) ∧
  (∀ q, under td q = false → fs r.2 !! q = fs w !! q).
Proof.
  intros Hloc Hfile Hws extracted Hnone Hex r. subst r.
  destruct (run_names E _ _ _ Hloc Hws) as (HuS & HStd & Hb1 & Hb2 & Hub1 & Hub2).
  destruct (patch_run_workspace D E w S td Hloc Hfile Hws)
    as (w0 & o & w1 & lb & Hfs0 & Hbody & Htr1 & Hlog & Hpre & Hn & Hout & Hev & Hfs'
        & _ & _ & Hfb & Hab & _).
  assert (copy_and_extract S td (fs w0) = (extracted.1, None)) as Hce.
  { rewrite Hfs0. fold extracted. destruct extracted as [m1 e]. simpl in *. by subst. }
  destruct (patch_body_missing_module D E S td w0 _ Hce Hex)
    as (w1' & r1 & Hbody' & Hfs1 & Htr1' & Hlog1).
  rewrite Hbody' in Hbody. injection Hbody as <- <-.
  rewrite Htr1 in Htr1'. apply app_inv_head in Htr1' as ->.
  assert (∀ q, under td q = false → fs w1' !! q = fs w !! q) as Hf1.
  { intros q Hq. destruct (decide (q = S)) as [->|Hne]; [by apply Hab|].
    apply Hfb; [|done..]. intros Hin.
    repeat (apply elem_of_cons in Hin as [Heq|Hin];
            [first [discriminate Heq
                   |injection Heq as Heq; rewrite Heq in Hub1;
                    unfold dest_egg in Hub1; by rewrite under_app in Hub1]|]).
    by apply elem_of_nil in Hin. }
  split_and!.
  - by rewrite Hout.
  - by rewrite Hev.
  - destruct (Hlog _ Hlog1) as (ra & rb & Hl). unfold new_log.
    rewrite Hl, drop_app_length. rewrite !elem_of_app. right. left. right.
    by left.
  - by rewrite Hfs', Hfs1.
  - intros q Hq. rewrite Hfs'. destruct D; [by apply Hf1|].
    rewrite remove_tree_lookup, Hq. by apply Hf1.
Qed.

(* ------------------------------------------------------------------ *)
(** ** The claims on concrete runs *)
(* ------------------------------------------------------------------ *)

Lemma C5_witness :
  located live_fs = Some egg_path ∧ is_file live_fs egg_path = true ∧
  workspace failing_env live_fs = Some ws_path ∧
  ∃ w0 o w1,
    @patch_body bits_codec false failing_env egg_path ws_path w0 = (o, w1) ∧
    (@patch bits_codec false failing_env (world0 live_fs)).1 =
      match o with
      | Raised e => if isinstance e Exception then Normal tt else Raised e
      | _ => Normal tt
      end ∧
    fs (@patch bits_codec false failing_env (world0 live_fs)).2
      = remove_tree ws_path (fs w1) ∧
    (∀ q, under ws_path q = true →
          fs (@patch bits_codec false failing_env (world0 live_fs)).2 !! q = None) ∧
    last (new_events (world0 live_fs)
            (@patch bits_codec false failing_env (world0 live_fs)).2)
      = Some (EvRmtree ws_path).
Proof.
  assert (located live_fs = Some egg_path) as H1 by (vm_compute; reflexivity).
  assert (is_file live_fs egg_path = true) as H2 by (vm_compute; reflexivity).
  assert (workspace failing_env live_fs = Some ws_path) as H3 by (vm_compute; reflexivity).
  split; [exact H1|]. split; [exact H2|]. split; [exact H3|].
  exact (@C5_workspace_removed_on_every_exit bits_codec false failing_env
           (world0 live_fs) egg_path ws_path H1 H2 H3).
Defined.

Lemma C2_witness :
  (∀ m src, compile_fails (compileall failing_env m src)) ∧
  (∀ q, in_workspace failing_env q = false →
        fs (@patch bits_codec false failing_env (world0 live_fs)).2 !! q = live_fs !! q) ∧
  (∀ ev, ev ∈ new_events (world0 live_fs)
                (@patch bits_codec false failing_env (world0 live_fs)).2 →
         (∀ q, touches ev q = true → in_workspace failing_env q = true) ∧
         (∀ archive root, ev ≠ EvZipWrite archive root) ∧
         (∀ src dst, ev = EvCopy src dst → in_workspace failing_env dst = true)).
Proof.
  assert (∀ m src, compile_fails (compileall failing_env m src)) as H1.
  { intros m src. simpl. left. lia. }
  split; [exact H1|].
  exact (@C2_compile_failure_aborts bits_codec false failing_env (world0 live_fs) H1).
Defined.

Lemma C8_witness :
  located bare_fs = Some egg_path ∧ is_file bare_fs egg_path = true ∧
  workspace good_env bare_fs = Some ws_path ∧
  (@copy_and_extract bits_codec egg_path ws_path (<[ws_path := Dir]> bare_fs)).2 = None ∧
  exists_ (@copy_and_extract bits_codec egg_path ws_path (<[ws_path := Dir]> bare_fs)).1
          (old_pyc ws_path) = false ∧
  (@patch bits_codec false good_env (world0 bare_fs)).1 = Normal tt ∧
  new_events (world0 bare_fs) (@patch bits_codec false good_env (world0 bare_fs)).2 =
    [EvMkdtemp (tmproot good_env) "pyovpn_patch_";
     EvCopy egg_path (dest_egg egg_path ws_path);
     EvMkdir (extract_dir ws_path);
     EvExtractAll (dest_egg egg_path ws_path) (extract_dir ws_path)]
    ++ cleanup_trace false ws_path ∧
  missing_module_report ws_path
    ∈ new_log (world0 bare_fs) (@patch bits_codec false good_env (world0 bare_fs)).2 ∧
  fs (@patch bits_codec false good_env (world0 bare_fs)).2 =
    remove_tree ws_path
      (@copy_and_extract bits_codec egg_path ws_path (<[ws_path := Dir]> bare_fs)).1 ∧
  (∀ q, under ws_path q = false →
        fs (@patch bits_codec false good_env (world0 bare_fs)).2 !! q = bare_fs !! q).
Proof.
  assert (located bare_fs = Some egg_path) as H1 by (vm_compute; reflexivity).
  assert (is_file bare_fs egg_path = true) as H2 by (vm_compute; reflexivity).
  assert (workspace good_env bare_fs = Some ws_path) as H3 by (vm_compute; reflexivity).
  assert ((@copy_and_extract bits_codec egg_path ws_path
             (<[ws_path := Dir]> bare_fs)).2 = None) as H4
    by (vm_compute; reflexivity).
  assert (exists_ (@copy_and_extract bits_codec egg_path ws_path
                     (<[ws_path := Dir]> bare_fs)).1 (old_pyc ws_path) = false) as H5
    by (vm_compute; reflexivity).
  split; [exact H1|]. split; [exact H2|]. split; [exact H3|]. split; [exact H4|].
  split; [exact H5|].
  exact (@C8_missing_module_aborts bits_codec false good_env (world0 bare_fs)
           egg_path ws_path H1 H2 H3 H4 H5).
Defined.

Lemma C9_witness :
  located live_fs = Some egg_path ∧
  live_fs !! egg_path = Some (File (@zip_encode bits_codec ZIP_STORED egg_members)) ∧
  workspace good_env live_fs = Some ws_path ∧
  is_dir live_fs BACKUP_DIR = true ∧
  is_dir live_fs (BACKUP_DIR ++ ["pyovpn-1.2.3.egg.bak-20240305-100722"]) = false ∧
  EvCopy (dest_egg egg_path ws_path) egg_path
    ∈ new_events (world0 live_fs) (@patch bits_codec false good_env (world0 live_fs)).2 ∧
  fs (@patch bits_codec false good_env (world0 live_fs)).2
    !! (BACKUP_DIR ++ ["pyovpn-1.2.3.egg.bak-20240305-100722"])
    = Some (File (@zip_encode bits_codec ZIP_STORED egg_members)).
Proof.
  assert (located live_fs = Some egg_path) as H1 by (vm_compute; reflexivity).
  assert (live_fs !! egg_path
          = Some (File (@zip_encode bits_codec ZIP_STORED egg_members))) as H2
    by (vm_compute; reflexivity).
  assert (workspace good_env live_fs = Some ws_path) as H3 by (vm_compute; reflexivity).
  assert (is_dir live_fs BACKUP_DIR = true) as H4 by (vm_compute; reflexivity).
  assert (is_dir live_fs (BACKUP_DIR ++ ["pyovpn-1.2.3.egg.bak-20240305-100722"]) = false)
    as H5 by (vm_compute; reflexivity).
  assert (EvCopy (dest_egg egg_path ws_path) egg_path
            ∈ new_events (world0 live_fs)
                (@patch bits_codec false good_env (world0 live_fs)).2) as H6.
  { refine (bool_decide_unpack _ _). vm_compute. exact I. }
  split; [exact H1|]. split; [exact H2|]. split; [exact H3|]. split; [exact H4|].
  split; [exact H5|]. split; [exact H6|].
  exact (proj1 (@C9_backup_file_name bits_codec false good_env (world0 live_fs)
                  egg_path ws_path _ H1 H2 H3 H4 H5 H6)).
Defined.

(* ================================================================== *)
(** * Repacking a tree and extracting it again *)
(* ================================================================== *)

Lemma elem_of_descendants m root p n :
  (p, n) ∈ descendants m root ↔ strictly_under root p = true ∧ m !! p = Some n.
Proof.
  unfold descendants. rewrite list_elem_of_filter, elem_of_map_to_list. done.
Qed.

Lemma elem_of_rglob m root p :
  is_dir m root = true →
  p ∈ rglob m root ↔ strictly_under root p = true ∧ m !! p ≠ None.
Proof.
  intros Hd. unfold rglob. rewrite Hd, list_elem_of_fmap. split.
  - intros ([q n] & -> & Hin). apply elem_of_descendants in Hin as [? Hl].
    split; [done|]. simpl. by rewrite Hl.
  - intros [Hs Hn]. destruct (m !! p) as [n|] eqn:Hl; [|done].
    exists (p, n). split; [done|]. by apply elem_of_descendants.
Qed.

Lemma tree_ok_entry m root rel c n :
  tree_ok m root = true → m !! (root ++ rel ++ [c]) = Some n →
  sane_component c = true ∧ m !! (root ++ rel) = Some Dir.
Proof.
  unfold tree_ok. rewrite forallb_forall. intros Hok Hl.
  specialize (Hok (root ++ rel ++ [c], n)).
  rewrite <- list_elem_of_In, elem_of_descendants in Hok.
  cbn [fst] in Hok. rewrite app_assoc, name_snoc, parent_snoc in Hok.
  assert (sane_component c && is_dir m (root ++ rel) = true) as Hb.
  { apply Hok. split; [|by rewrite <- app_assoc].
    apply strictly_under_true. exists (rel ++ [c]).
    split; [by destruct rel|]. by rewrite app_assoc. }
  apply andb_prop in Hb as [Hs Hd].
  split; [done|]. unfold is_dir in Hd.
  by destruct (m !! (root ++ rel)) as [[]|].
Qed.

Lemma tree_ok_sane m root rel :
  tree_ok m root = true → m !! (root ++ rel) ≠ None → sanitize rel = rel.
Proof.
  intros Hok. induction rel as [|c rel IH] using rev_ind; [done|].
  intros Hl. destruct (m !! (root ++ rel ++ [c])) as [n|] eqn:Hn; [|done].
  destruct (tree_ok_entry _ _ _ _ _ Hok Hn) as [Hc Hp].
  unfold sanitize in *. rewrite List.filter_app. simpl. rewrite Hc, IH; [done|].
  by rewrite Hp.
Qed.

Lemma tree_ok_ancestor m root a b :
  tree_ok m root = true → b ≠ [] → m !! (root ++ a ++ b) ≠ None →
  m !! (root ++ a) = Some Dir.
Proof.
  intros Hok. revert a. induction b as [|c b IH] using rev_ind; [done|].
  intros a _ Hl. destruct (m !! (root ++ a ++ b ++ [c])) as [n|] eqn:Hn; [|done].
  rewrite (app_assoc a) in Hn.
  destruct (tree_ok_entry _ _ _ _ _ Hok Hn) as [_ Hp].
  destruct b as [|c' b]; [by rewrite app_nil_r in Hp|].
  apply IH; [done|]. by rewrite Hp.
Qed.

Lemma zip_write_all_ok m root files zf :
  (∀ f, f ∈ files → under root f = true ∧ m !! f ≠ None) →
  ∃ new, zip_write_all m root files zf = (zf ++ new, None) ∧
         ∀ mb, mb ∈ new ↔
               ∃ rel, root ++ rel ∈ files ∧ arcname_of mb = rel ∧
                      m !! (root ++ rel) = Some (node_of mb).
Proof.
  revert zf. induction files as [|f files IH]; intros zf Hall; simpl.
  - exists []. rewrite app_nil_r. split; [done|]. intros mb. split.
    + by intros ?%elem_of_nil.
    + intros (rel & ?%elem_of_nil & _). done.
  - destruct (Hall f) as [Hu Hex]; [left|].
    apply under_true in Hu as [rel ->]. rewrite strip_prefix_app.
    unfold zip_member.
    destruct (m !! (root ++ rel)) as [n|] eqn:Hn; [|done].
    destruct (IH (zf ++ [match n with File d => MFile rel d | Dir => MDir rel end]))
      as (new & Hrun & Hnew).
    { intros f Hf. apply Hall. by right. }
    exists (match n with File d => MFile rel d | Dir => MDir rel end :: new).
    split.
    { destruct n; rewrite Hrun; by rewrite <- app_assoc. }
    intros mb. rewrite elem_of_cons, Hnew. split.
    + intros [->|(rel' & Hin & Harc & Hl)].
      * exists rel. split; [left|]. by destruct n.
      * exists rel'. split; [by right|done].
    + intros (rel' & [Heq|Hin]%elem_of_cons & Harc & Hl).
      * apply app_inv_head in Heq as ->. left. rewrite Hn in Hl.
        destruct mb; simpl in *; by simplify_eq.
      * right. eauto.
Qed.

Lemma repack_members `{ZipCodec} root archive m :
  is_dir m root = true → under root archive = false →
  is_dir m archive = false → is_dir m (parent archive) = true →
  ∃ zf, repack root archive m = (<[archive := File (zip_encode ZIP_DEFLATED zf)]> m, None) ∧
        ∀ mb, mb ∈ zf ↔ arcname_of mb ≠ [] ∧
                        m !! (root ++ arcname_of mb) = Some (node_of mb).
Proof.
  intros Hroot Hout Hnd Hpar. unfold repack, write_bytes, check_parent.
  rewrite Hnd. unfold is_dir in Hpar.
  destruct (m !! parent archive) as [[]|] eqn:Hp; try done.
  set (m1 := <[archive := File EmptyString]> m).
  assert (∀ q, under root q = true → m1 !! q = m !! q) as Hsame.
  { intros q Hq. unfold m1. rewrite lookup_insert_ne; [done|]. congruence. }
  assert (is_dir m1 root = true) as Hroot1.
  { unfold is_dir. rewrite Hsame; [done|apply under_refl]. }
  destruct (zip_write_all_ok m1 root (rglob m1 root) []) as (zf & Hrun & Hzf).
  { intros f [Hs Hf]%elem_of_rglob; [|done]. split; [|done].
    by apply strictly_under_under. }
  exists zf. simpl in Hrun. rewrite Hrun. cbn [fst snd]. split.
  { unfold m1. by rewrite insert_insert_eq. }
  intros mb. rewrite Hzf. split.
  - intros (rel & [Hs Hex]%elem_of_rglob & <- & Hl); [|done].
    rewrite Hsame in Hl by apply under_app. split; [|done].
    apply strictly_under_true in Hs as (q & Hq & Heq).
    by apply app_inv_head in Heq as ->.
  - intros [Hne Hl]. exists (arcname_of mb).
    rewrite Hsame by apply under_app. split_and!; [|done..].
    apply elem_of_rglob; [done|]. rewrite Hsame by apply under_app.
    split; [|by rewrite Hl]. apply strictly_under_true. eauto.
Qed.

(** Extraction into [dest] of members that describe a tree [T]
    (relative path to node): what is below [dest] is always part of
    [T], and nothing written is lost. *)
Section ExtractTree.
Variable dest : path.
Variable T : path → option node.
Hypothesis T_sane : ∀ rel, T rel ≠ None → sanitize rel = rel.
Hypothesis T_ancestor : ∀ a b, a ≠ [] → b ≠ [] → T (a ++ b) ≠ None → T a = Some Dir.

Lemma grows_trans m1 m2 m3 : grows m1 m2 → grows m2 m3 → grows m1 m3.
Proof. unfold grows. eauto. Qed.

Lemma part_of_tree_insert m rel n :
  part_of_tree dest T m → rel ≠ [] → T rel = Some n →
  (∀ n', m !! (dest ++ rel) = Some n' → n' = n) →
  part_of_tree dest T (<[dest ++ rel := n]> m) ∧ grows m (<[dest ++ rel := n]> m).
Proof.
  intros [Hd Hin] Hne HT Hold. split; [split|].
  - rewrite lookup_insert_ne; [done|]. apply not_eq_sym. by apply app_ne_self.
  - intros rel' n' Hne'. destruct (decide (rel' = rel)) as [->|Hr].
    + rewrite lookup_insert_eq. congruence.
    + rewrite lookup_insert_ne; [by apply Hin|].
      intros Heq%app_inv_head. done.
  - intros q n' Hq. destruct (decide (q = dest ++ rel)) as [->|].
    + rewrite lookup_insert_eq. f_equal. symmetry. by apply Hold.
    + by rewrite lookup_insert_ne.
Qed.

Lemma makedirs_from_tree pre comps m :
  part_of_tree dest T m → m !! (dest ++ pre) = Some Dir →
  (∀ k, (0 < k ≤ length comps)%nat → T (pre ++ take k comps) = Some Dir) →
  ∃ m', makedirs_from (dest ++ pre) comps m = (m', None) ∧
        part_of_tree dest T m' ∧ grows m m' ∧ m' !! (dest ++ pre ++ comps) = Some Dir.
Proof.
  revert pre m. induction comps as [|c cs IH]; intros pre m Hinv Hpre HT; simpl.
  - exists m. rewrite app_nil_r. split_and!; try done. by intros q n ?.
  - assert (T (pre ++ [c]) = Some Dir) as Hc.
    { apply (HT 1%nat). simpl. lia. }
    assert (∀ k, (0 < k ≤ length cs)%nat →
                 T ((pre ++ [c]) ++ take k cs) = Some Dir) as HT'.
    { intros k Hk. rewrite <- app_assoc. apply (HT (S k)). simpl. lia. }
    rewrite <- (app_assoc dest pre [c]).
    destruct (m !! (dest ++ pre ++ [c])) as [[d|]|] eqn:Hl.
    + destruct Hinv as [_ Hin]. apply Hin in Hl; [congruence|by destruct pre].
    + destruct (IH (pre ++ [c]) m Hinv Hl HT') as (m' & Hrun & ? & ? & Hfin).
      exists m'. by rewrite <- app_assoc in Hfin.
    + destruct (part_of_tree_insert m (pre ++ [c]) Dir Hinv) as [Hinv' Hg];
        [by destruct pre|done|congruence|].
      destruct (IH (pre ++ [c]) _ Hinv') as (m' & Hrun & ? & ? & Hfin);
        [by rewrite lookup_insert_eq|done|].
      exists m'. rewrite <- app_assoc in Hfin. split_and!; try done.
      by eapply grows_trans.
Qed.

Lemma extract_member_tree mb m :
  part_of_tree dest T m → arcname_of mb ≠ [] → T (arcname_of mb) = Some (node_of mb) →
  ∃ m', extract_member dest mb m = (m', None) ∧ part_of_tree dest T m' ∧ grows m m' ∧
        m' !! (dest ++ arcname_of mb) = Some (node_of mb).
Proof.
  intros Hinv Hne HT. unfold extract_member.
  rewrite T_sane by (by rewrite HT).
  destruct (exists_last Hne) as (pre & c & Hrel).
  rewrite Hrel, removelast_last.
  destruct (makedirs_from_tree [] pre m) as (m1 & Hrun & Hinv1 & Hg1 & Hpre).
  { done. }
  { rewrite app_nil_r. apply Hinv. }
  { intros k Hk. simpl. apply (T_ancestor _ (drop k pre ++ [c])).
    - destruct pre; simpl in *; [lia|]. destruct k; [lia|done].
    - by destruct (drop k pre).
    - rewrite app_assoc, take_drop, <- Hrel, HT. done. }
  rewrite app_nil_r in Hrun. simpl in Hpre.
  unfold fs_seq. rewrite Hrun.
  assert (∀ n', m1 !! (dest ++ pre ++ [c]) = Some n' → n' = node_of mb) as Hold.
  { intros n' Hl. destruct Hinv1 as [_ Hin]. apply Hin in Hl; [|by destruct pre].
    rewrite <- Hrel in Hl. congruence. }
  destruct (part_of_tree_insert m1 (pre ++ [c]) (node_of mb) Hinv1) as [Hinv2 Hg2];
    [by destruct pre|by rewrite <- Hrel|done|].
  destruct mb as [a d|a]; simpl in *.
  - unfold write_bytes, check_parent, is_dir.
    destruct (m1 !! (dest ++ pre ++ [c])) as [n'|] eqn:Hl.
    + rewrite (Hold n' eq_refl). rewrite app_assoc, parent_snoc, Hpre.
      rewrite <- app_assoc. eexists. split_and!; try done.
      * by eapply grows_trans.
      * by rewrite lookup_insert_eq.
    + rewrite app_assoc, parent_snoc, Hpre.
      rewrite <- app_assoc. eexists. split_and!; try done.
      * by eapply grows_trans.
      * by rewrite lookup_insert_eq.
  - unfold is_dir, mkdir, check_parent, fs_raise.
    destruct (m1 !! (dest ++ pre ++ [c])) as [n'|] eqn:Hl.
    + rewrite (Hold n' eq_refl). exists m1. split_and!; try done.
      by rewrite Hl, (Hold n' eq_refl).
    + rewrite app_assoc, parent_snoc, Hpre.
      rewrite <- app_assoc. eexists. split_and!; try done.
      * by eapply grows_trans.
      * by rewrite lookup_insert_eq.
Qed.

Lemma extract_members_tree l m :
  part_of_tree dest T m →
  (∀ mb, mb ∈ l → arcname_of mb ≠ [] ∧ T (arcname_of mb) = Some (node_of mb)) →
  ∃ m', extract_members dest l m = (m', None) ∧ part_of_tree dest T m' ∧ grows m m' ∧
        ∀ mb, mb ∈ l → m' !! (dest ++ arcname_of mb) = Some (node_of mb).
Proof.
  revert m. induction l as [|mb l IH]; intros m Hinv Hall; simpl.
  - exists m. split_and!; try done; [by intros q n ?|by intros ? ?%elem_of_nil].
  - destruct (Hall mb) as [Hne HT]; [left|].
    destruct (extract_member_tree mb m Hinv Hne HT) as (m1 & Hrun1 & Hinv1 & Hg1 & Hl1).
    destruct (IH m1 Hinv1) as (m2 & Hrun2 & Hinv2 & Hg2 & Hl2).
    { intros mb' Hin. apply Hall. by right. }
    exists m2. unfold fs_seq. rewrite Hrun1. split_and!; try done.
    + by eapply grows_trans.
    + intros mb' [->|Hin]%elem_of_cons; [by apply Hg2|by apply Hl2].
Qed.
End ExtractTree.

Lemma bits_pos_bits p : bits_pos (pos_bits p) = Some p.
Proof. induction p; simpl; by rewrite ?IHp. Qed.

Lemma bits_codec_roundtrip : @zip_roundtrip bits_codec.
Proof.
  intros c l. simpl. rewrite bits_pos_bits. simpl.
  destruct c; simpl; apply decode_encode.
Qed.

Lemma no_descendants_empty (m : gmap path node) dest rel :
  descendants m dest = [] → rel ≠ [] → m !! (dest ++ rel) = None.
Proof.
  intros Hd Hne. destruct (m !! (dest ++ rel)) as [n|] eqn:Hl; [|done].
  assert ((dest ++ rel, n) ∈ descendants m dest) as Hin.
  { apply elem_of_descendants. split; [|done]. apply strictly_under_true. eauto. }
  rewrite Hd in Hin. by apply elem_of_nil in Hin.
Qed.

(** A small tree to repack. *)
Lemma tree_fs_ok :
  let m := <[ ws_path ++ ["pyovpn-1.2.3.egg"] := File "old"]>
           (<[ ws_path ++ ["extracted"; "pyovpn"; "lic"; "uprop.pyc"] := File "FACADE"]>
           (<[ ws_path ++ ["extracted"; "pyovpn"; "lic"] := Dir]>
           (<[ ws_path ++ ["extracted"; "pyovpn"] := Dir]>
           (<[ ws_path ++ ["extracted"] := Dir]>
           (<[ ws_path := Dir]> base_fs))))) in
  is_dir m (extract_dir ws_path) = true ∧
  under (extract_dir ws_path) (ws_path ++ ["pyovpn-1.2.3.egg"]) = false ∧
  is_dir m (ws_path ++ ["pyovpn-1.2.3.egg"]) = false ∧
  is_dir m (parent (ws_path ++ ["pyovpn-1.2.3.egg"])) = true ∧
  tree_ok m (extract_dir ws_path) = true.
Proof. vm_compute. done. Qed.

(** C6. Repacking the tree below [root] into [archive] (which lies
    outside the tree and can be written) succeeds and leaves there a
    deflate-compressed container whose members are exactly the entries
    below [root], each keyed by its path relative to [root]: every
    regular file with its bytes, and every directory as a directory
    member.  Given that containers read back as written, extracting that
    container anywhere into an empty directory succeeds and reproduces
    the tree below [root], entry for entry, touching nothing outside
    the destination. *)
Theorem C6_repack_extracts_back `{ZipCodec} (root archive : path) (m : gmap path node) :
  zip_roundtrip →
  is_dir m root = true → under root archive = false →
  is_dir m archive = false → is_dir m (parent archive) = true →
  tree_ok m root = true →
  ∃ zf,
    repack root archive m
      = (<[archive := File (zip_encode ZIP_DEFLATED zf)]> m, None) ∧
    (∀ rel d, rel ≠ [] → m !! (root ++ rel) = Some (File d) → MFile rel d ∈ zf) ∧
    (∀ mb, mb ∈ zf → arcname_of mb ≠ [] ∧
                     m !! (root ++ arcname_of mb) = Some (node_of mb)) ∧
    ∀ (m2 : gmap path node) (archive2 dest : path),
      m2 !! archive2 = Some (File (zip_encode ZIP_DEFLATED zf)) →
      is_dir m2 dest = true → descendants m2 dest = [] →
      ∃ m3, extractall archive2 dest m2 = (m3, None) ∧
            (∀ rel, rel ≠ [] → m3 !! (dest ++ rel) = m !! (root ++ rel)) ∧
            (∀ q, under dest q = false → m3 !! q = m2 !! q).
Proof.
  intros Hrt Hroot Hout Hnd Hpar Hok.
  destruct (repack_members root archive m Hroot Hout Hnd Hpar) as (zf & Hrun & Hzf).
  exists zf. split_and!; [done| | |].
  - intros rel d Hne Hl. by apply (Hzf (MFile rel d)).
  - intros mb. by rewrite Hzf.
  - intros m2 archive2 dest Harch Hdest Hempty.
    unfold extractall. rewrite Harch, Hrt.
    set (T := λ rel, m !! (root ++ rel)).
    destruct (extract_members_tree dest T) with (l := zf) (m := m2)
      as (m3 & Hext & [Hd3 Hin3] & Hg & Hall).
    + intros rel. by apply tree_ok_sane.
    + intros a b _ Hb HT. by apply (tree_ok_ancestor m root a b).
    + split.
      * unfold is_dir in Hdest. by destruct (m2 !! dest) as [[]|].
      * intros rel n Hne. by rewrite no_descendants_empty.
    + intros mb. by rewrite Hzf.
    + exists m3. split_and!; [done| |].
      * intros rel Hne. destruct (m !! (root ++ rel)) as [n|] eqn:Hl.
        -- assert (match n with File d => MFile rel d | Dir => MDir rel end ∈ zf) as Hmb.
           { apply Hzf. by destruct n. }
           apply Hall in Hmb. by destruct n.
        -- destruct (m3 !! (dest ++ rel)) as [n|] eqn:Hl3; [|done].
           apply Hin3 in Hl3; [|done]. unfold T in Hl3. congruence.
      * intros q Hq. by eapply extract_members_frame.
Qed.

Lemma C6_witness :
  let root := extract_dir ws_path in
  let archive := ws_path ++ ["pyovpn-1.2.3.egg"] in
  let m := <[ archive := File "old"]>
           (<[ ws_path ++ ["extracted"; "pyovpn"; "lic"; "uprop.pyc"] := File "FACADE"]>
           (<[ ws_path ++ ["extracted"; "pyovpn"; "lic"] := Dir]>
           (<[ ws_path ++ ["extracted"; "pyovpn"] := Dir]>
           (<[ ws_path ++ ["extracted"] := Dir]>
           (<[ ws_path := Dir]> base_fs))))) in
  @zip_roundtrip bits_codec ∧
  is_dir m root = true ∧ under root archive = false ∧
  is_dir m archive = false ∧ is_dir m (parent archive) = true ∧
  tree_ok m root = true ∧
  ∃ zf,
    @repack bits_codec root archive m
      = (<[archive := File (@zip_encode bits_codec ZIP_DEFLATED zf)]> m, None) ∧
    (∀ rel d, rel ≠ [] → m !! (root ++ rel) = Some (File d) → MFile rel d ∈ zf) ∧
    (∀ mb, mb ∈ zf → arcname_of mb ≠ [] ∧
                     m !! (root ++ arcname_of mb) = Some (node_of mb)) ∧
    ∀ (m2 : gmap path node) (archive2 dest : path),
      m2 !! archive2 = Some (File (@zip_encode bits_codec ZIP_DEFLATED zf)) →
      is_dir m2 dest = true → descendants m2 dest = [] →
      ∃ m3, @extractall bits_codec archive2 dest m2 = (m3, None) ∧
            (∀ rel, rel ≠ [] → m3 !! (dest ++ rel) = m !! (root ++ rel)) ∧
            (∀ q, under dest q = false → m3 !! q = m2 !! q).
Proof.
  intros root archive m.
  destruct tree_fs_ok as (H1 & H2 & H3 & H4 & H5).
  split; [exact bits_codec_roundtrip|].
  split; [exact H1|]. split; [exact H2|]. split; [exact H3|].
  split; [exact H4|]. split; [exact H5|].
  exact (@C6_repack_extracts_back bits_codec root archive m
           bits_codec_roundtrip H1 H2 H3 H4 H5).
Defined.

(* ================================================================== *)
(** * The order of names *)
(* ================================================================== *)

Lemma ascii_compare_cases (a b : Ascii.ascii) :
  (Ascii.compare a b = Eq ∧ a = b) ∨
  (Ascii.compare a b = Lt ∧ (Ascii.N_of_ascii a < Ascii.N_of_ascii b)%N) ∨
  (Ascii.compare a b = Gt ∧ (Ascii.N_of_ascii b < Ascii.N_of_ascii a)%N).
Proof.
  unfold Ascii.compare.
  destruct (N.compare_spec (Ascii.N_of_ascii a) (Ascii.N_of_ascii b)) as [Heq|Hlt|Hgt].
  - left. split; [done|].
    by rewrite <- (Ascii.ascii_N_embedding a), Heq, Ascii.ascii_N_embedding.
  - right. left. done.
  - right. right. done.
Qed.

Lemma string_compare_le_trans (a b c : string) :
  String.compare a b ≠ Gt → String.compare b c ≠ Gt → String.compare a c ≠ Gt.
Proof.
  revert b c. induction a as [|x a IH]; intros [|y b] [|z c]; simpl; try done.
  intros H1 H2.
  destruct (ascii_compare_cases x y) as [[Exy Hxy]|[[Exy Hxy]|[Exy Hxy]]];
    rewrite Exy in H1; [| |done];
    (destruct (ascii_compare_cases y z) as [[Eyz Hyz]|[[Eyz Hyz]|[Eyz Hyz]]];
     rewrite Eyz in H2; [| |done]);
    destruct (ascii_compare_cases x z) as [[Exz Hxz]|[[Exz Hxz]|[Exz Hxz]]];
    rewrite Exz; subst; try done; try lia.
  by apply (IH b).
Qed.

#[global] Instance str_le_trans : Transitive str_le.
Proof.
  intros a b c. unfold str_le, String.leb. intros Hab Hbc.
  pose proof (string_compare_le_trans a b c) as Ht.
  destruct (String.compare a b), (String.compare b c), (String.compare a c);
    try done; exfalso; by apply Ht.
Qed.

#[global] Instance str_le_total : Total str_le.
Proof. intros a b. apply String.leb_total. Qed.

Lemma elem_of_names_of ns x : x ∈ names_of ns ↔ is_Some (ns !! x).
Proof.
  unfold names_of. rewrite merge_sort_Permutation, list_elem_of_fmap. split.
  - intros ([k v] & -> & Hin%elem_of_map_to_list). eauto.
  - intros [v Hv]. exists (x, v). split; [done|]. by apply elem_of_map_to_list.
Qed.



(* ================================================================== *)
(** * The interpreter, statement by statement *)
(* ================================================================== *)

Lemma py_bind_eq {A B} (m : Py A) (k : A → Py B) st :
  (m ≫= k) st =
  match m st with
  | (Normal a, st') => k a st'
  | (Returned, st') => (Returned, st')
  | (Raised e, st') => (Raised e, st')
  end.
Proof. done. Qed.

Lemma load_global_run g x s ns v :
  objects s !! g = Some (Module ns) → ns !! x = Some v →
  load_global g x s = (Normal v, s).
Proof. unfold load_global. by intros -> ->. Qed.

Lemma store_global_run g x v s ns :
  objects s !! g = Some (Module ns) →
  store_global g x v s = (Normal tt, assign g x (Module (<[x := v]> ns)) s).
Proof. unfold store_global. by intros ->. Qed.

Lemma getattr_module_run l a s ns v :
  objects s !! l = Some (Module ns) → ns !! a = Some v →
  getattr (VRef l) a s = (Normal v, s).
Proof. unfold getattr, namespace_of. intros ->. simpl. by intros ->. Qed.


Lemma getattr_module_missing l a s ns :
  objects s !! l = Some (Module ns) → ns !! a = None →
  getattr (VRef l) a s = (Raised (Exn AttributeError a), s).
Proof. unfold getattr, namespace_of. intros ->. simpl. by intros ->. Qed.


Lemma objects_assign l k o s l' :
  objects (assign l k o s) !! l' = if decide (l = l') then Some o else objects s !! l'.
Proof.
  unfold assign. simpl. destruct (decide (l = l')) as [->|].
  - by rewrite lookup_insert_eq.
  - by rewrite lookup_insert_ne.
Qed.

Lemma objects_assign_eq l k o s : objects (assign l k o s) !! l = Some o.
Proof. rewrite objects_assign. by rewrite decide_True. Qed.

Lemma objects_assign_ne l k o s l' :
  l ≠ l' → objects (assign l k o s) !! l' = objects s !! l'.
Proof. intros. rewrite objects_assign. by rewrite decide_False. Qed.

(* ================================================================== *)
(** * The loop of the facade *)
(* ================================================================== *)


Lemma call_exec_builtin E depth g code run s ns :
  objects s !! g = Some (Module ns) → ns !! "exec" = None →
  call_exec E depth g code run s = run s.
Proof. unfold call_exec, global_of. by intros -> ->. Qed.

Section FacadeLoop.
Variable E : pyenv.
Variable depth : nat.
Variables (g lu lc : loc) (nsu attrs : gmap string value) (orig : value).
Variable base : store.
Hypothesis g_ne_lu : g ≠ lu.
Hypothesis alias_class : nsu !! "UsageProperties" = Some (VRef lc).
Hypothesis class_figure : attrs !! "figure" = Some orig.
Hypothesis alias_no_uprop2 : nsu !! "uprop2" = None.
Hypothesis alias_no_exec : nsu !! "exec" = None.
Hypothesis alias_identifiers :
  ∀ x, is_Some (nsu !! x) → is_dunder x = false → is_identifier x = true.



Lemma dir_module_run l s ns :
  objects s !! l = Some (Module ns) → dir (VRef l) s = (Normal (names_of ns), s).
Proof. unfold dir, namespace_of. by intros ->. Qed.

End FacadeLoop.

(* ================================================================== *)
(** * The facade: what importing it does *)
(* ================================================================== *)




Lemma import_from_known exec_module E fullname l s :
  sys_modules s !! fullname = Some l →
  import_from exec_module E fullname s = (Normal (VRef l), s).
Proof. unfold import_from. by intros ->. Qed.












(* ================================================================== *)
(** * A facade whose alias has no [UsageProperties] *)
(* ================================================================== *)

Lemma plain_name_exec (ns : gmap string value) :
  (∀ x, is_Some (ns !! x) → plain_name x = true) → ns !! "exec" = None.
Proof.
  intros Hall. destruct (ns !! "exec") as [v|] eqn:Hv; [|done].
  by specialize (Hall "exec" (ex_intro _ v Hv)).
Qed.

Lemma plain_name_identifier x :
  plain_name x = true → is_dunder x = false → is_identifier x = true.
Proof.
  unfold plain_name. intros [_ Hx]%andb_prop Hd. by rewrite Hd in Hx.
Qed.

Lemma plain_name_insert (ns : gmap string value) y v :
  plain_name y = true →
  (∀ x, is_Some (ns !! x) → plain_name x = true) →
  ∀ x, is_Some (<[y := v]> ns !! x) → plain_name x = true.
Proof.
  intros Hy Hall x. destruct (decide (x = y)) as [->|]; [done|].
  rewrite lookup_insert_ne by done. apply Hall.
Qed.

Section PlainLoop.
Variable E : pyenv.
Variable depth : nat.
Variables (g lu : loc) (base : store).

Lemma plain_loop_step x rest s :
  plain_state g lu base (x :: rest) s → x ≠ "UsageProperties" →
  ∃ s', facade_loop_body E depth g x s = (Normal tt, s') ∧
        plain_state g lu base rest s'.
Proof.
  intros (Hsys & Hframe & ns & nsu & Hg & Hlu & Hup & HU & Hdir & Hpl & Hplu & Hnsu & Hin)
         HxU.
  unfold facade_loop_body. rewrite py_bind_eq.
  rewrite (store_global_run _ _ _ _ _ Hg).
  set (ns1 := <["x" := VStr x]> ns).
  set (s1 := assign g "x" (Module ns1) s).
  set (nsu1 := if decide (lu = g) then ns1 else nsu).
  assert (objects s1 !! g = Some (Module ns1)) as Hg1 by apply objects_assign_eq.
  assert (objects s1 !! lu = Some (Module nsu1)) as Hlu1.
  { unfold s1, nsu1. rewrite objects_assign. destruct (decide (lu = g)) as [->|].
    - by rewrite decide_True.
    - by rewrite decide_False. }
  assert (ns1 !! "uprop2" = Some (VRef lu)) as Hup1.
  { unfold ns1. by rewrite lookup_insert_ne. }
  assert (ns1 !! "UsageProperties" = None) as HU1.
  { unfold ns1. by rewrite lookup_insert_ne. }
  assert (ns1 !! "__dir__" = None) as Hdir1.
  { unfold ns1. by rewrite lookup_insert_ne. }
  assert (∀ y, is_Some (ns1 !! y) → plain_name y = true) as Hpl1.
  { by apply plain_name_insert. }
  assert (nsu = ns ∨ lu ≠ g) as Hsame.
  { destruct (decide (lu = g)) as [->|]; [left; congruence|by right]. }
  assert (∀ y, is_Some (nsu1 !! y) → plain_name y = true) as Hplu1.
  { unfold nsu1. by destruct (decide (lu = g)). }
  assert (nsu1 !! "uprop2" = None ∨ nsu1 !! "uprop2" = Some (VRef lu)) as Hnsu1.
  { unfold nsu1. destruct (decide (lu = g)); [by right|done]. }
  assert (∀ y, is_Some (nsu !! y) → is_Some (nsu1 !! y)) as Hdom.
  { intros y Hy. unfold nsu1. destruct (decide (lu = g)) as [Heq|]; [|done].
    destruct Hsame as [->|]; [|done]. unfold ns1.
    destruct (decide (y = "x")) as [->|].
    - by rewrite lookup_insert_eq.
    - by rewrite lookup_insert_ne. }
  destruct (is_dunder x) eqn:Hd.
  - exists s1. split; [done|]. split_and!; [done| |].
    { intros l ?. unfold s1. rewrite objects_assign_ne by done. by apply Hframe. }
    exists ns1, nsu1. split_and!; try done.
    intros y Hy. apply Hdom, Hin. by right.
  - rewrite py_bind_eq.
    rewrite (proj2 (String.eqb_neq x "UsageProperties") HxU).
    unfold exec_reexport. rewrite ?py_bind_eq.
    unfold mret at 1, Py_ret at 1. cbn beta iota.
    destruct (Hdom x) as [v Hv]; [apply Hin; by left|].
    assert (plain_name x = true) as Hxp by (apply Hplu1; eauto).
    rewrite ?py_bind_eq,
      (call_exec_builtin _ _ _ _ _ _ _ Hg1 (plain_name_exec _ Hpl1)).
    rewrite (plain_name_identifier x Hxp Hd).
    rewrite ?py_bind_eq, (load_global_run _ _ _ _ _ Hg1 Hup1).
    rewrite ?py_bind_eq, (getattr_module_run _ _ _ _ _ Hlu1 Hv).
    rewrite ?py_bind_eq, (store_global_run _ _ _ _ _ Hg1).
    set (ns2 := <[x := v]> ns1).
    set (nsu2 := if decide (lu = g) then ns2 else nsu).
    assert (ns2 !! "uprop2" = Some (VRef lu)) as Hup2.
    { unfold ns2. destruct (decide (x = "uprop2")) as [->|].
      - rewrite lookup_insert_eq. destruct Hnsu1; congruence.
      - by rewrite lookup_insert_ne. }
    assert (∀ y, is_Some (ns2 !! y) → plain_name y = true) as Hpl2.
    { by apply plain_name_insert. }
    eexists. split; [done|]. split_and!; [done| |].
    { intros l ?. unfold s1. rewrite !objects_assign_ne by done. by apply Hframe. }
    exists ns2, nsu2. split_and!.
    + apply objects_assign_eq.
    + unfold nsu2. rewrite objects_assign. destruct (decide (lu = g)) as [->|].
      * by rewrite decide_True.
      * rewrite decide_False by done. unfold s1. by rewrite objects_assign_ne.
    + done.
    + unfold ns2. by rewrite lookup_insert_ne.
    + unfold ns2. rewrite lookup_insert_ne; [done|]. by intros ->.
    + done.
    + unfold nsu2. by destruct (decide (lu = g)).
    + unfold nsu2. destruct (decide (lu = g)); [by right|done].
    + intros y Hy. assert (is_Some (nsu1 !! y)) as Hy1.
      { apply Hdom, Hin. by right. }
      unfold nsu2, nsu1 in *. destruct (decide (lu = g)); [|done].
      unfold ns2. destruct (decide (y = x)) as [->|].
      * by rewrite lookup_insert_eq.
      * by rewrite lookup_insert_ne.
Qed.

Lemma plain_loop rest : ∀ s,
  plain_state g lu base rest s → "UsageProperties" ∉ rest →
  ∃ s', for_each rest (facade_loop_body E depth g) s = (Normal tt, s') ∧
        plain_state g lu base [] s'.
Proof.
  induction rest as [|x rest IH]; intros s Hst HU; simpl.
  - by exists s.
  - apply not_elem_of_cons in HU as [HxU HU].
    destruct (plain_loop_step x rest s Hst) as (s1 & Hrun & Hst1); [done|].
    destruct (IH s1 Hst1 HU) as (s2 & Hrun2 & Hst2).
    exists s2. by rewrite py_bind_eq, Hrun.
Qed.

Lemma facade_body_plain_run import_ s0 ns0 nsu :
  import_ "pyovpn.lic.uprop2" s0 = (Normal (VRef lu), base) →
  objects base !! g = Some (Module ns0) → ns0 !! "UsageProperties" = None →
  ns0 !! "dir" = None → ns0 !! "__dir__" = None →
  (∀ x, is_Some (ns0 !! x) → plain_name x = true) →
  objects base !! lu = Some (Module nsu) → nsu !! "UsageProperties" = None →
  nsu !! "__dir__" = None →
  (∀ x, is_Some (nsu !! x) → plain_name x = true) →
  nsu !! "uprop2" = None ∨ nsu !! "uprop2" = Some (VRef lu) →
  ∃ s2, facade_body E depth import_ g s0 = (Normal tt, s2) ∧
        plain_state g lu base [] s2.
Proof.
  intros Himp Hg HU0 Hdir0 Hddir0 Hpl0 Hlu HU Hddiru Hplu Hnsu.
  unfold facade_body. rewrite py_bind_eq, Himp.
  rewrite ?py_bind_eq, (store_global_run _ _ _ _ _ Hg).
  set (ns1 := <["uprop2" := VRef lu]> ns0).
  set (s1 := assign g "uprop2" (Module ns1) base).
  assert (objects s1 !! g = Some (Module ns1)) as Hg1 by apply objects_assign_eq.
  rewrite ?py_bind_eq, (store_global_run _ _ _ _ _ Hg1).
  set (ns2 := <["old_figure" := VNone]> ns1).
  set (s2 := assign g "old_figure" (Module ns2) s1).
  assert (objects s2 !! g = Some (Module ns2)) as Hg2 by apply objects_assign_eq.
  rewrite ?py_bind_eq, (store_global_run _ _ _ _ _ Hg2).
  set (ns3 := <["new_figure" := VFunc (NewFigure g)]> ns2).
  set (s3 := assign g "new_figure" (Module ns3) s2).
  assert (objects s3 !! g = Some (Module ns3)) as Hg3 by apply objects_assign_eq.
  assert (ns3 !! "uprop2" = Some (VRef lu)) as Hup3.
  { unfold ns3, ns2, ns1. rewrite !lookup_insert_ne by done. by rewrite lookup_insert_eq. }
  assert (ns3 !! "UsageProperties" = None) as HU3.
  { unfold ns3, ns2, ns1. by rewrite !lookup_insert_ne. }
  assert (ns3 !! "dir" = None) as Hdir3.
  { unfold ns3, ns2, ns1. by rewrite !lookup_insert_ne. }
  assert (ns3 !! "__dir__" = None) as Hddir3.
  { unfold ns3, ns2, ns1. by rewrite !lookup_insert_ne. }
  assert (∀ x, is_Some (ns3 !! x) → plain_name x = true) as Hpl3.
  { unfold ns3, ns2, ns1. by repeat (apply plain_name_insert; [done|]). }
  set (nsu3 := if decide (lu = g) then ns3 else nsu).
  assert (objects s3 !! lu = Some (Module nsu3)) as Hlu3.
  { unfold nsu3. destruct (decide (lu = g)) as [->|]; [done|].
    unfold s3, s2, s1. by rewrite !objects_assign_ne. }
  assert (nsu3 !! "UsageProperties" = None) as HUa.
  { unfold nsu3. by destruct (decide (lu = g)). }
  assert (nsu3 !! "__dir__" = None) as Hddira.
  { unfold nsu3. by destruct (decide (lu = g)). }
  unfold facade_loop, global_of. rewrite Hg3, Hdir3.
  rewrite (load_global_run _ _ _ _ _ Hg3 Hup3).
  unfold namespace_of at 1. rewrite Hlu3. cbn [mbind option_bind]. rewrite Hddira.
  rewrite ?py_bind_eq, (dir_module_run _ _ _ Hlu3).
  destruct (plain_loop (names_of nsu3) s3) as (s4 & Hrun & Hst).
  - split_and!; [done| |].
    { intros l ?. unfold s3, s2, s1. by rewrite !objects_assign_ne. }
    exists ns3, nsu3. split_and!; try done.
    + unfold nsu3. by destruct (decide (lu = g)).
    + unfold nsu3. destruct (decide (lu = g)); [by right|done].
    + intros x. by rewrite elem_of_names_of.
  - rewrite elem_of_names_of, HUa. by intros [? [=]].
  - exists s4. split; [exact Hrun|done].
Qed.
End PlainLoop.

Lemma fresh_loc_fresh st : objects st !! fresh_loc st = None.
Proof. apply not_elem_of_dom. unfold fresh_loc. apply is_fresh. Qed.

Lemma fresh_module_names fullname x :
  is_Some ((<["__name__" := VStr fullname]> (<["__doc__" := VNone]> ∅)
            : gmap string value) !! x) →
  x = "__name__" ∨ x = "__doc__".
Proof.
  destruct (decide (x = "__name__")) as [->|]; [by left|].
  rewrite lookup_insert_ne by done.
  destruct (decide (x = "__doc__")) as [->|]; [by right|].
  rewrite lookup_insert_ne by done. rewrite lookup_empty. by intros [? [=]].
Qed.

Lemma fresh_module_plain fullname x :
  is_Some ((<["__name__" := VStr fullname]> (<["__doc__" := VNone]> ∅)
            : gmap string value) !! x) →
  plain_name x = true.
Proof. by intros [-> | ->]%fresh_module_names. Qed.

(** Importing the facade when the alias module is the facade too. *)
Lemma facade_over_facade (P : pyenv) (depth : nat) (g : loc) (st : store)
    (ns0 : gmap string value) :
  finder P "pyovpn.lic.uprop2" = Some Facade →
  sys_modules st !! "pyovpn.lic.uprop2" = None →
  objects st !! g = Some (Module ns0) → ns0 !! "UsageProperties" = None →
  ns0 !! "dir" = None → ns0 !! "__dir__" = None →
  (∀ x, is_Some (ns0 !! x) → plain_name x = true) →
  ∃ st2,
    exec_module P (S (S depth)) Facade g st = (Normal tt, st2) ∧
    getattr (VRef g) "UsageProperties" st2
      = (Raised (Exn AttributeError "UsageProperties"), st2) ∧
    (∀ l attrs, objects st !! l = Some (Class attrs) →
                objects st2 !! l = Some (Class attrs)) ∧
    sys_modules st2 = <["pyovpn.lic.uprop2" := fresh_loc st]> (sys_modules st).
Proof.
  intros Hfind Hnew Hg HU0 Hdir0 Hddir0 Hpl0.
  set (l := fresh_loc st).
  assert (objects st !! l = None) as Hl by apply fresh_loc_fresh.
  assert (g ≠ l) as Hgl by (intros ->; congruence).
  set (st1 := Store (<[l := fresh_module "pyovpn.lic.uprop2"]> (objects st))
                    (<["pyovpn.lic.uprop2" := l]> (sys_modules st)) (writes st)).
  destruct (facade_body_plain_run P depth l l st1
              (import_from (exec_module P depth) P) st1
              (<["__name__" := VStr "pyovpn.lic.uprop2"]> (<["__doc__" := VNone]> ∅))
              (<["__name__" := VStr "pyovpn.lic.uprop2"]> (<["__doc__" := VNone]> ∅)))
    as (s_in & Hrun_in & Hsys_in & Hframe_in & ns_in & nsu_in & Hl_in & Hl_in' & Hup_in
        & HU_in & Hddir_in & Hpl_in & _).
  { apply import_from_known. simpl. by rewrite lookup_insert_eq. }
  { simpl. by rewrite lookup_insert_eq. }
  { done. }
  { done. }
  { done. }
  { apply fresh_module_plain. }
  { simpl. by rewrite lookup_insert_eq. }
  { done. }
  { done. }
  { apply fresh_module_plain. }
  { by left. }
  assert (import_from (exec_module P (S depth)) P "pyovpn.lic.uprop2" st
          = (Normal (VRef l), s_in)) as Himp.
  { unfold import_from. rewrite Hnew, Hfind. fold l. fold st1.
    change (exec_module P (S depth) Facade l st1)
      with (facade_body P depth (import_from (exec_module P depth) P) l st1).
    by rewrite Hrun_in. }
  destruct (facade_body_plain_run P (S depth) g l s_in
              (import_from (exec_module P (S depth)) P) st ns0 ns_in)
    as (st2 & Hrun & Hsys & Hframe & ns & nsu & Hg2 & _ & _ & HU & _).
  { exact Himp. }
  { rewrite Hframe_in by done. simpl. by rewrite lookup_insert_ne. }
  { done. }
  { done. }
  { done. }
  { done. }
  { done. }
  { done. }
  { done. }
  { done. }
  { by right. }
  exists st2. split_and!.
  - exact Hrun.
  - by eapply getattr_module_missing.
  - intros l' attrs Hl'.
    assert (l' ≠ g) by (intros ->; congruence).
    assert (l' ≠ l) by (intros ->; congruence).
    rewrite Hframe, Hframe_in by done. simpl. by rewrite lookup_insert_ne.
  - by rewrite Hsys, Hsys_in.
Qed.

(* ================================================================== *)
(** * The [try] block, step by step *)
(* ================================================================== *)

Lemma quiet_app a b : quiet (a ++ b) = quiet a && quiet b.
Proof. unfold quiet. apply forallb_app. Qed.

Lemma log_logged_quiet D lvl msg w :
  lvl ≠ ERROR → ∃ r, log (logged D lvl msg w) = log w ++ r ∧ quiet r = true.
Proof.
  intros Hl. unfold logged. destruct (_ <=? _)%nat.
  - exists [(lvl, msg)]. split; [done|]. by destruct lvl.
  - exists []. by rewrite app_nil_r.
Qed.

(** The shape of most steps: one call, then a debug message. *)
Lemma fs_do_debug_spec D ev op msg w o w' :
  (fs_do ev op;; logger_debug D msg) w = (o, w') →
  ∃ r, log w' = log w ++ r ∧ quiet r = true ∧ is_returned o = false ∧
       (o = Normal tt → op (fs w) = (fs w', None)).
Proof.
  rewrite bind_eq. unfold fs_do.
  destruct (op (fs w)) as [m' [e|]] eqn:Hop; cbn [fst snd].
  - intros [= <- <-]. exists []. by rewrite app_nil_r.
  - unfold logger_debug, logger_log. intros [= <- <-].
    destruct (log_logged_quiet D DEBUG msg (set_fs m' (add_event ev w)))
      as (r & Hr & Hq); [done|].
    exists r. rewrite Hr, fs_logged. by split_and!.
Qed.

Section Steps.
Context `{ZipCodec}.
Variable DEBUG_MODE : bool.
Variable E : env.

Lemma step_extract_spec S td w o w' :
  step_extract DEBUG_MODE S td w = (o, w') →
  ∃ r, log w' = log w ++ r ∧ quiet r = true ∧ is_returned o = false ∧
       (o = Normal tt →
        fs_seq (mkdir (extract_dir td))
               (extractall (dest_egg S td) (extract_dir td)) (fs w) = (fs w', None)).
Proof.
  unfold step_extract. rewrite bind_eq. unfold fs_do at 1, fs_seq.
  destruct (mkdir (extract_dir td) (fs w)) as [m' [e|]] eqn:Hop; cbn [fst snd].
  - intros [= <- <-]. exists []. by rewrite app_nil_r.
  - intros Hrest. apply fs_do_debug_spec in Hrest as (r & Hr & Hq & Hret & Hn).
    exists r. split_and!; try done.
Qed.

Lemma step_rename_spec td w o w' :
  step_rename DEBUG_MODE td w = (o, w') →
  ∃ r, log w' = log w ++ r ∧ quiet r = negb (is_returned o) ∧
       (o = Normal tt →
        exists_ (fs w) (old_pyc td) = true ∧
        rename (old_pyc td) (new_pyc td) (fs w) = (fs w', None)).
Proof.
  unfold step_rename. rewrite bind_eq. unfold fs_read.
  destruct (exists_ (fs w) (old_pyc td)) eqn:Hex; cbn [negb].
  - intros Hrest. apply fs_do_debug_spec in Hrest as (r & Hr & Hq & Hret & Hn).
    exists r. rewrite Hret. split_and!; try done. intros Ho. split; [done|by apply Hn].
  - rewrite bind_eq. unfold logger_error, logger_log, return_. intros [= <- <-].
    eexists. rewrite log_logged_error. by split_and!.
Qed.

Lemma step_compile_spec td w o w' :
  step_compile DEBUG_MODE E td w = (o, w') →
  ∃ r, log w' = log w ++ r ∧ quiet r = negb (is_returned o) ∧
       (o = Normal tt →
        (∃ result artifact,
           compileall E (fs w) (new_py td) = Exited result artifact ∧
           returncode result = 0%Z) ∧
        fs w' = compile_effect E (new_py td) (fs w)).
Proof.
  unfold step_compile. rewrite bind_eq. unfold subprocess_run, compile_effect.
  destruct (compileall E (fs w) (new_py td)) as [result art|e] eqn:Hc.
  2:{ intros [= <- <-]. exists []. by rewrite app_nil_r. }
  destruct (returncode result =? 0)%Z eqn:Hrc; cbn [negb].
  - unfold logger_debug, logger_log. intros [= <- <-].
    match goal with
    | |- context [logged _ DEBUG ?msg ?w0] =>
        destruct (log_logged_quiet DEBUG_MODE DEBUG msg w0) as (r & Hr & Hq); [done|]
    end.
    exists r. rewrite Hr, fs_logged. split_and!.
    + by destruct art as [a|]; [destruct (is_dir _ _)|].
    + done.
    + intros _. split.
      * exists result, art. split; [done|]. by apply Z.eqb_eq.
      * by destruct art as [a|]; [destruct (is_dir _ _)|].
  - rewrite !bind_eq. unfold logger_error, logger_log, return_. intros [= <- <-].
    eexists. rewrite !log_logged_error, <- !app_assoc.
    split; [by destruct art as [a|]; [destruct (is_dir _ _)|]|]. by split.
Qed.

Lemma step_verify_spec td w o w' :
  step_verify DEBUG_MODE td w = (o, w') →
  ∃ r, log w' = log w ++ r ∧ quiet r = negb (is_returned o) ∧
       (o = Normal tt →
        exists_ (fs w) (pyc_file td) = true ∧
        if DEBUG_MODE then fs w' = fs w
        else unlink_missing_ok (new_py td) (fs w) = (fs w', None)).
Proof.
  unfold step_verify. rewrite bind_eq. unfold fs_read.
  destruct (exists_ (fs w) (pyc_file td)) eqn:Hex; cbn [negb].
  - destruct DEBUG_MODE; cbn [negb].
    + rewrite bind_eq. unfold logger_debug, logger_log.
      unfold mret at 1, M_ret at 1. intros [= <- <-].
      match goal with
      | |- context [logged _ DEBUG ?msg ?w0] =>
          destruct (log_logged_quiet true DEBUG msg w0) as (r & Hr & Hq); [done|]
      end.
      exists r. rewrite Hr, fs_logged. by split_and!.
    + intros Hrest. apply fs_do_debug_spec in Hrest as (r & Hr & Hq & Hret & Hn).
      exists r. rewrite Hret. split_and!; try done. intros Ho. split; [done|by apply Hn].
  - rewrite bind_eq. unfold logger_error, logger_log, return_. intros [= <- <-].
    eexists. rewrite log_logged_error. by split_and!.
Qed.

Lemma step_backup_spec S w o w' :
  step_backup DEBUG_MODE E S w = (o, w') →
  ∃ r, log w' = log w ++ r ∧ quiet r = true ∧ is_returned o = false.
Proof.
  unfold step_backup, try_except.
  destruct ((fs_do _ _;; logger_debug _ _) w) as [o1 w1] eqn:Hb.
  apply fs_do_debug_spec in Hb as (r & Hr & Hq & Hret & _).
  destruct o1 as [[]| |e]; try (intros [= <- <-]; by exists r).
  destruct (isinstance e FileNotFoundError).
  - unfold logger_warning, logger_log. intros [= <- <-].
    match goal with
    | |- context [logged _ WARNING ?msg ?w0] =>
        destruct (log_logged_quiet DEBUG_MODE WARNING msg w0) as (r2 & Hr2 & Hq2); [done|]
    end.
    exists (r ++ r2). rewrite Hr2, Hr, <- app_assoc, quiet_app, Hq, Hq2. done.
  - intros [= <- <-]. by exists r.
Qed.

Lemma step_spec_seq (s rest : M unit) P Q :
  step_spec s P → step_spec rest Q →
  step_spec (s;; rest) (λ w w', ∃ w1, P w w1 ∧ Q w1 w').
Proof.
  intros Hs Hrest w o w'. rewrite bind_eq.
  destruct (s w) as [o1 w1] eqn:H1.
  destruct (Hs _ _ _ H1) as (r1 & Hr1 & Hq1 & HP).
  destruct o1 as [[]| |e].
  - intros H2. destruct (Hrest _ _ _ H2) as (r2 & Hr2 & Hq2 & HQ).
    exists (r1 ++ r2). rewrite Hr2, Hr1, <- app_assoc, quiet_app, Hq1, Hq2.
    split_and!; [done..|]. intros Ho. exists w1. split; [by apply HP|by apply HQ].
  - intros [= <- <-]. exists r1. by split_and!.
  - intros [= <- <-]. exists r1. by split_and!.
Qed.

Lemma step_spec_nil : step_spec (mret tt) (λ w w', w' = w).
Proof. intros w o w' [= <- <-]. exists []. by rewrite app_nil_r. Qed.

Lemma step_copy_ok S td :
  step_spec (step_copy DEBUG_MODE S td)
    (λ w w', copy2 S (dest_egg S td) (fs w) = (fs w', None)).
Proof.
  intros w o w' (r & ? & ? & Hret & ?)%fs_do_debug_spec.
  exists r. by rewrite Hret.
Qed.

Lemma step_extract_ok S td :
  step_spec (step_extract DEBUG_MODE S td)
    (λ w w', fs_seq (mkdir (extract_dir td))
               (extractall (dest_egg S td) (extract_dir td)) (fs w) = (fs w', None)).
Proof.
  intros w o w' (r & ? & ? & Hret & ?)%step_extract_spec.
  exists r. by rewrite Hret.
Qed.

Lemma step_rename_ok td :
  step_spec (step_rename DEBUG_MODE td)
    (λ w w', exists_ (fs w) (old_pyc td) = true ∧
             rename (old_pyc td) (new_pyc td) (fs w) = (fs w', None)).
Proof. intros w o w'. apply step_rename_spec. Qed.

Lemma step_write_facade_ok td :
  step_spec (step_write_facade DEBUG_MODE td)
    (λ w w', write_bytes (new_py td) FACADE_SOURCE (fs w) = (fs w', None)).
Proof.
  intros w o w' (r & ? & ? & Hret & ?)%fs_do_debug_spec.
  exists r. by rewrite Hret.
Qed.

Lemma step_compile_ok td :
  step_spec (step_compile DEBUG_MODE E td)
    (λ w w', (∃ result artifact,
                compileall E (fs w) (new_py td) = Exited result artifact ∧
                returncode result = 0%Z) ∧
             fs w' = compile_effect E (new_py td) (fs w)).
Proof. intros w o w'. apply step_compile_spec. Qed.

Lemma step_verify_ok td :
  step_spec (step_verify DEBUG_MODE td)
    (λ w w', exists_ (fs w) (pyc_file td) = true ∧
             if DEBUG_MODE then fs w' = fs w
             else unlink_missing_ok (new_py td) (fs w) = (fs w', None)).
Proof. intros w o w'. apply step_verify_spec. Qed.

Lemma step_repack_ok S td :
  step_spec (step_repack DEBUG_MODE S td)
    (λ w w', repack (extract_dir td) (dest_egg S td) (fs w) = (fs w', None)).
Proof.
  intros w o w' (r & ? & ? & Hret & ?)%fs_do_debug_spec.
  exists r. by rewrite Hret.
Qed.

Lemma step_backup_ok S :
  step_spec (step_backup DEBUG_MODE E S)
    (λ w w', ∃ e, copy2 S (backup_path E S) (fs w) = (fs w', e) ∧
                  match e with
                  | None => True
                  | Some x => isinstance x FileNotFoundError = true
                  end).
Proof.
  intros w o w' Hrun.
  destruct (step_backup_spec _ _ _ _ Hrun) as (r & ? & ? & Hret).
  exists r. rewrite Hret. split_and!; [done..|]. intros ->.
  destruct (step_backup_run DEBUG_MODE E _ _ _ _ Hrun) as (m' & e & Hc & <- & _ & Ho).
  exists e. split; [done|]. destruct e as [x|]; [|done].
  by destruct (isinstance x FileNotFoundError).
Qed.

Lemma step_deploy_ok S td :
  step_spec (step_deploy DEBUG_MODE S td)
    (λ w w', copy2 (dest_egg S td) S (fs w) = (fs w', None)).
Proof.
  intros w o w' (r & ? & ? & Hret & ?)%fs_do_debug_spec.
  exists r. by rewrite Hret.
Qed.

(** The [try] block as a whole: an [ERROR] record exactly when it
    returns early, and the chain of file-system operations when it runs
    to its end. *)
Lemma patch_body_spec S td :
  step_spec (patch_body DEBUG_MODE E S td)
    (λ w0 w9, ∃ m1 m2 m3 m5 m6 m7 e,
       copy_and_extract S td (fs w0) = (m1, None) ∧
       exists_ m1 (old_pyc td) = true ∧
       rename (old_pyc td) (new_pyc td) m1 = (m2, None) ∧
       write_bytes (new_py td) FACADE_SOURCE m2 = (m3, None) ∧
       (∃ result artifact,
          compileall E m3 (new_py td) = Exited result artifact ∧
          returncode result = 0%Z) ∧
       exists_ (compile_effect E (new_py td) m3) (pyc_file td) = true ∧
       (if DEBUG_MODE then m5 = compile_effect E (new_py td) m3
        else unlink_missing_ok (new_py td) (compile_effect E (new_py td) m3)
             = (m5, None)) ∧
       repack (extract_dir td) (dest_egg S td) m5 = (m6, None) ∧
       copy2 S (backup_path E S) m6 = (m7, e) ∧
       match e with
       | None => True
       | Some x => isinstance x FileNotFoundError = true
       end ∧
       copy2 (dest_egg S td) S m7 = (fs w9, None)).
Proof.
  intros w o w' Hrun.
  pose proof (step_spec_seq _ _ _ _ (step_copy_ok S td)
    (step_spec_seq _ _ _ _ (step_extract_ok S td)
    (step_spec_seq _ _ _ _ (step_rename_ok td)
    (step_spec_seq _ _ _ _ (step_write_facade_ok td)
    (step_spec_seq _ _ _ _ (step_compile_ok td)
    (step_spec_seq _ _ _ _ (step_verify_ok td)
    (step_spec_seq _ _ _ _ (step_repack_ok S td)
    (step_spec_seq _ _ _ _ (step_backup_ok S)
    (step_spec_seq _ _ _ _ (step_deploy_ok S td) step_spec_nil))))))))) as Hall.
  destruct (Hall w o w' Hrun) as (r & Hr & Hq & Hn).
  exists r. split_and!; [done..|]. intros Ho.
  destruct (Hn Ho) as (w1 & H1 & w2 & H2 & w3 & [H3a H3] & w4 & H4 & w5 & [H5a H5]
                       & w6 & [H6a H6] & w7 & H7 & w8 & (e & H8 & H8e) & w9 & H9 & ->).
  exists (fs w2), (fs w3), (fs w4), (fs w6), (fs w7), (fs w8), e.
  rewrite H5 in *. split_and!; try done.
  unfold copy_and_extract, fs_seq. rewrite H1. exact H2.
Qed.
End Steps.

(* ================================================================== *)
(** * Runs that log no error *)
(* ================================================================== *)

Lemma quiet_all_errors r :
  Forall (λ x : level * string, x.1 = ERROR) r → quiet r = true → r = [].
Proof.
  destruct r as [|[l msg] r]; [done|]. intros Hall Hq.
  apply Forall_cons in Hall as [Hl _]. simpl in Hl. subst l. done.
Qed.

Lemma new_log_app w w' r : log w' = log w ++ r → new_log w w' = r.
Proof. unfold new_log. intros ->. by rewrite drop_app_length. Qed.

Section Quiet.
Context `{ZipCodec}.
Variable DEBUG_MODE : bool.
Variable E : env.

(** A run that ends normally and logs no [ERROR] record ran its [try]
    block to the end. *)
Lemma patch_quiet_run w S td :
  located (fs w) = Some S → is_file (fs w) S = true →
  workspace E (fs w) = Some td →
  (patch DEBUG_MODE E w).1 = Normal tt →
  quiet (new_log w (patch DEBUG_MODE E w).2) = true →
  ∃ w0 w1,
    fs w0 = <[td := Dir]> (fs w) ∧
    patch_body DEBUG_MODE E S td w0 = (Normal tt, w1) ∧
    new_events w (patch DEBUG_MODE E w).2 =
      EvMkdtemp (tmproot E) "pyovpn_patch_"
        :: body_trace DEBUG_MODE E S td ++ cleanup_trace DEBUG_MODE td ∧
    ∀ q, under td q = false → fs (patch DEBUG_MODE E w).2 !! q = fs w1 !! q.
Proof.
  intros Hloc Hfile Hws Hnormal Hquiet.
  destruct (run_names E _ _ _ Hloc Hws) as (HuS & HStd & Hb1 & Hb2 & Hub1 & Hub2).
  apply workspace_Some in Hws as (m0 & c & Hmk & Hfresh & -> & Htd & Hc).
  destruct (patch_with_workspace DEBUG_MODE E w S td _ Hloc Hfile Hmk)
    as (w0 & o & w1 & w2 & w3 & Hfs0 & Htr0 & [r0 Hlog0] & Hbody & Hfs2 & Htr2
        & (r2 & Hlog2 & Herr2 & Hne2) & Hfin & [r3 Hlog3] & Hpatch).
  destruct (patch_body_spec DEBUG_MODE E S td w0 o w1 Hbody) as (r1 & Hlog1 & Hq1 & _).
  rewrite Hpatch in Hnormal, Hquiet |- *. cbn [fst snd] in *.
  rewrite (new_log_app w w3 (r0 ++ r1 ++ r2 ++ r3)) in Hquiet.
  2:{ rewrite Hlog3, Hlog2, Hlog1, Hlog0. by rewrite <- !app_assoc. }
  rewrite !quiet_app in Hquiet.
  apply andb_prop in Hquiet as [_ Hquiet].
  apply andb_prop in Hquiet as [Hquiet1 Hquiet].
  apply andb_prop in Hquiet as [Hquiet2 _].
  pose proof (quiet_all_errors r2 Herr2 Hquiet2) as Hr2.
  assert (o = Normal tt) as ->.
  { destruct o as [[]| |e]; [done| |].
    - rewrite Hquiet1 in Hq1. done.
    - destruct (isinstance e Exception) eqn:Hex; [|done].
      by destruct (Hne2 e eq_refl Hex). }
  assert (is_file (fs w0) S = true) as Hfile0.
  { unfold is_file in *. rewrite Hfs0, lookup_insert_ne by done. done. }
  destruct (patch_body_run DEBUG_MODE E S td w0 _ w1 Hfile0 HuS Hb1 Hb2 Hbody)
    as (lb & Htr1 & Hpre & Hn & Hf & _).
  rewrite (Hn eq_refl) in Htr1.
  assert (fs w1 !! td = Some Dir) as Htd1.
  { rewrite Hf.
    - by rewrite Hfs0, lookup_insert_eq.
    - apply strictly_under_irrefl.
    - done.
    - intros ->. by rewrite under_refl in Hub1.
    - intros ->. by rewrite under_refl in Hub2. }
  destruct (patch_finally_run DEBUG_MODE td w2) as (w3' & Hfin' & Hfs3 & Htr3 & _).
  rewrite Hfin in Hfin'. injection Hfin' as <-.
  assert (exists_ (fs w2) td = true) as Hex.
  { unfold exists_. by rewrite Hfs2, Htd1. }
  rewrite Hex, andb_true_r in Hfs3, Htr3.
  exists w0, w1. split_and!; [done|done| |].
  - apply new_events_app. rewrite Htr3, Htr2, Htr1, Htr0.
    unfold cleanup_trace. destruct DEBUG_MODE; simpl;
      rewrite <- ?app_assoc; simpl; by rewrite ?app_nil_r.
  - intros q Hq. rewrite Hfs3, Hfs2. destruct DEBUG_MODE; simpl; [done|].
    by apply rmtree_frame.
Qed.
End Quiet.

(* ================================================================== *)
(** * What a completed run puts in the archive *)
(* ================================================================== *)

Lemma rename_file_ok src dst m m' d :
  m !! src = Some (File d) → rename src dst m = (m', None) →
  m' = <[dst := File d]> (delete src m).
Proof.
  unfold rename, fs_raise. intros ->.
  destruct (is_dir m dst); [done|].
  destruct (check_parent m dst); by intros [= <-].
Qed.

Lemma makedirs_from_strict base comps m m' e q :
  makedirs_from base comps m = (m', e) → strictly_under base q = false →
  m' !! q = m !! q.
Proof.
  revert base m. induction comps as [|c cs IH]; intros base m; simpl.
  - by intros [= <- <-].
  - intros Hop Hq.
    assert (strictly_under (base ++ [c]) q = false) as Hq'.
    { destruct (strictly_under (base ++ [c]) q) eqn:Hs; [|done].
      apply strictly_under_under in Hs.
      apply (strictly_under_app base [c] q) in Hs; [congruence|done]. }
    assert (q ≠ base ++ [c]) as Hne.
    { intros ->. rewrite (proj2 (strictly_under_true base (base ++ [c]))) in Hq;
        [done|]. by exists [c]. }
    destruct (m !! (base ++ [c])) as [[d|]|].
    + unfold fs_raise in Hop. by simplify_eq.
    + by eapply IH.
    + erewrite IH; [|done..]. by rewrite lookup_insert_ne.
Qed.

Lemma extract_member_keeps dest mb m m' e :
  extract_member dest mb m = (m', e) → m !! dest = Some Dir → m' !! dest = Some Dir.
Proof.
  unfold extract_member, fs_seq. intros Hop Hd.
  destruct (makedirs_from dest _ m) as [m1 [e1|]] eqn:Hmk.
  { simplify_eq. erewrite makedirs_from_strict; [done..|apply strictly_under_irrefl]. }
  assert (m1 !! dest = Some Dir) as Hd1.
  { erewrite makedirs_from_strict; [done..|apply strictly_under_irrefl]. }
  destruct (decide (sanitize (arcname_of mb) = [])) as [Hnil|Hne].
  - rewrite Hnil, app_nil_r in Hop. destruct mb.
    + unfold write_bytes, is_dir, fs_raise in Hop. rewrite Hd1 in Hop. by simplify_eq.
    + unfold is_dir in Hop. rewrite Hd1 in Hop. by simplify_eq.
  - assert (dest ≠ dest ++ sanitize (arcname_of mb)) as Hneq by by apply app_ne_self.
    destruct mb.
    + erewrite write_bytes_frame; [done..].
    + destruct (is_dir m1 _); [by simplify_eq|].
      erewrite mkdir_frame; [done..].
Qed.

Lemma extract_members_keeps dest l m m' e :
  extract_members dest l m = (m', e) → m !! dest = Some Dir → m' !! dest = Some Dir.
Proof.
  revert m. induction l as [|mb l IH]; intros m; simpl.
  - by intros [= <- <-].
  - unfold fs_seq. destruct (extract_member dest mb m) as [m1 [e1|]] eqn:H1.
    + intros [= <- <-] Hd. by eapply extract_member_keeps.
    + intros Hop Hd. eapply IH; [done|]. by eapply extract_member_keeps.
Qed.

Lemma mkdir_ok p m m' : mkdir p m = (m', None) → m' = <[p := Dir]> m.
Proof.
  unfold mkdir, fs_raise. destruct (m !! p); [done|].
  destruct (check_parent m p); by intros [= <-].
Qed.

Lemma copy_and_extract_dir `{ZipCodec} S td m m1 :
  copy_and_extract S td m = (m1, None) → m1 !! extract_dir td = Some Dir.
Proof.
  unfold copy_and_extract, fs_seq.
  destruct (copy2 S (dest_egg S td) m) as [ma [ea|]]; [done|].
  destruct (mkdir (extract_dir td) ma) as [mb [eb|]] eqn:Hmk; [done|].
  apply mkdir_ok in Hmk as ->. unfold extractall, fs_raise.
  destruct (_ !! dest_egg S td) as [[d|]|]; [|done..].
  destruct (zip_decode d); [|done].
  intros Hx. eapply extract_members_keeps; [done|]. by rewrite lookup_insert_eq.
Qed.

Lemma zip_write_all_files m root files zf zf' :
  zip_write_all m root files zf = (zf', None) →
  (λ mb, root ++ arcname_of mb) <$> zf' = ((λ mb, root ++ arcname_of mb) <$> zf) ++ files.
Proof.
  revert zf. induction files as [|f files IH]; intros zf; simpl.
  - intros [= <-]. by rewrite app_nil_r.
  - destruct (strip_prefix root f) as [rel|] eqn:Hs; [|done].
    apply strip_prefix_Some in Hs as ->. unfold zip_member.
    destruct (m !! (root ++ rel)) as [[d|]|]; [| |done].
    + intros ->%IH. rewrite fmap_app. simpl. by rewrite <- app_assoc.
    + intros ->%IH. rewrite fmap_app. simpl. by rewrite <- app_assoc.
Qed.

Lemma NoDup_rglob m root : NoDup (rglob m root).
Proof.
  unfold rglob. destruct (is_dir m root); [|constructor].
  unfold descendants. eapply sublist_NoDup; [apply (NoDup_fst_map_to_list m)|].
  apply fmap_sublist, sublist_filter.
Qed.

Lemma repack_members_nodup `{ZipCodec} root archive m :
  is_dir m root = true → under root archive = false →
  is_dir m archive = false → is_dir m (parent archive) = true →
  ∃ zf, repack root archive m = (<[archive := File (zip_encode ZIP_DEFLATED zf)]> m, None) ∧
        NoDup (arcname_of <$> zf) ∧
        ∀ mb, mb ∈ zf ↔ arcname_of mb ≠ [] ∧
                        m !! (root ++ arcname_of mb) = Some (node_of mb).
Proof.
  intros Hroot Hout Hnd Hpar. unfold repack, write_bytes, check_parent.
  rewrite Hnd. unfold is_dir in Hpar.
  destruct (m !! parent archive) as [[]|] eqn:Hp; try done.
  set (m1 := <[archive := File EmptyString]> m).
  assert (∀ q, under root q = true → m1 !! q = m !! q) as Hsame.
  { intros q Hq. unfold m1. rewrite lookup_insert_ne; [done|]. congruence. }
  assert (is_dir m1 root = true) as Hroot1.
  { unfold is_dir. rewrite Hsame; [done|apply under_refl]. }
  destruct (zip_write_all_ok m1 root (rglob m1 root) []) as (zf & Hrun & Hzf).
  { intros f [Hs Hf]%elem_of_rglob; [|done]. split; [|done].
    by apply strictly_under_under. }
  exists zf. simpl in Hrun. rewrite Hrun. cbn [fst snd]. split_and!.
  { unfold m1. by rewrite insert_insert_eq. }
  { apply zip_write_all_files in Hrun. simpl in Hrun.
    apply (NoDup_fmap_1 (λ p, root ++ p)).
    rewrite <- list_fmap_compose. unfold compose. rewrite Hrun. apply NoDup_rglob. }
  intros mb. rewrite Hzf. split.
  - intros (rel & [Hs Hex]%elem_of_rglob & <- & Hl); [|done].
    rewrite Hsame in Hl by apply under_app. split; [|done].
    apply strictly_under_true in Hs as (q & Hq & Heq).
    by apply app_inv_head in Heq as ->.
  - intros [Hne Hl]. exists (arcname_of mb).
    rewrite Hsame by apply under_app. split_and!; [|done..].
    apply elem_of_rglob; [done|]. rewrite Hsame by apply under_app.
    split; [|by rewrite Hl]. apply strictly_under_true. eauto.
Qed.

(** A repack that succeeds, read backwards. *)
Lemma repack_ok `{ZipCodec} root archive m m' :
  repack root archive m = (m', None) →
  is_dir m root = true → under root archive = false →
  ∃ zf, m' = <[archive := File (zip_encode ZIP_DEFLATED zf)]> m ∧
        NoDup (arcname_of <$> zf) ∧
        ∀ mb, mb ∈ zf ↔ arcname_of mb ≠ [] ∧
                        m !! (root ++ arcname_of mb) = Some (node_of mb).
Proof.
  intros Hrun Hroot Hout.
  assert (is_dir m archive = false ∧ is_dir m (parent archive) = true) as [Hnd Hpar].
  { unfold repack, write_bytes, fs_raise, check_parent, is_dir in *.
    destruct (m !! archive) as [[]|]; destruct (m !! parent archive) as [[]|];
      try done. }
  destruct (repack_members_nodup root archive m Hroot Hout Hnd Hpar)
    as (zf & Hrun' & Hnd' & Hzf).
  rewrite Hrun in Hrun'. injection Hrun' as ->. by exists zf.
Qed.

Lemma compiled_path_new_py td : compiled_path (new_py td) = old_pyc td.
Proof. unfold compiled_path, new_py, old_pyc. by rewrite parent_snoc, name_snoc. Qed.

Lemma lic_paths_ne td :
  old_pyc td ≠ new_pyc td ∧ old_pyc td ≠ new_py td ∧ new_pyc td ≠ new_py td.
Proof.
  unfold old_pyc, new_pyc, new_py. split_and!; by intros [=]%app_inv_head.
Qed.

Lemma lic_path_rel td (n : string) :
  lic_dir td ++ [n] = extract_dir td ++ ["pyovpn"; "lic"; n].
Proof. unfold lic_dir. by rewrite <- app_assoc. Qed.

Section Success.
Context `{ZipCodec}.
Variable DEBUG_MODE : bool.
Variable E : env.

(** The steps that build the archive, when they all fall through. *)
Lemma build_spec S td :
  step_spec (run_steps (build_steps DEBUG_MODE E S td))
    (λ w0 w7, ∃ m1 m2 m3 m5,
       copy_and_extract S td (fs w0) = (m1, None) ∧
       exists_ m1 (old_pyc td) = true ∧
       rename (old_pyc td) (new_pyc td) m1 = (m2, None) ∧
       write_bytes (new_py td) FACADE_SOURCE m2 = (m3, None) ∧
       (∃ result artifact,
          compileall E m3 (new_py td) = Exited result artifact ∧
          returncode result = 0%Z) ∧
       exists_ (compile_effect E (new_py td) m3) (pyc_file td) = true ∧
       (if DEBUG_MODE then m5 = compile_effect E (new_py td) m3
        else unlink_missing_ok (new_py td) (compile_effect E (new_py td) m3)
             = (m5, None)) ∧
       repack (extract_dir td) (dest_egg S td) m5 = (fs w7, None)).
Proof.
  intros w o w' Hrun.
  pose proof (step_spec_seq _ _ _ _ (step_copy_ok DEBUG_MODE S td)
    (step_spec_seq _ _ _ _ (step_extract_ok DEBUG_MODE S td)
    (step_spec_seq _ _ _ _ (step_rename_ok DEBUG_MODE td)
    (step_spec_seq _ _ _ _ (step_write_facade_ok DEBUG_MODE td)
    (step_spec_seq _ _ _ _ (step_compile_ok DEBUG_MODE E td)
    (step_spec_seq _ _ _ _ (step_verify_ok DEBUG_MODE td)
    (step_spec_seq _ _ _ _ (step_repack_ok DEBUG_MODE S td) step_spec_nil))))))) as Hall.
  destruct (Hall w o w' Hrun) as (r & Hr & Hq & Hn).
  exists r. split_and!; [done..|]. intros Ho.
  destruct (Hn Ho) as (w1 & H1 & w2 & H2 & w3 & [H3a H3] & w4 & H4 & w5 & [H5a H5]
                       & w6 & [H6a H6] & w7 & H7 & ->).
  exists (fs w2), (fs w3), (fs w4), (fs w6).
  rewrite H5 in *. split_and!; try done.
  unfold copy_and_extract, fs_seq. rewrite H1. exact H2.
Qed.

(** The tree the compiled facade ends up in. *)
Lemma patched_tree td m1 m2 m3 m5 d :
  m1 !! old_pyc td = Some (File d) →
  rename (old_pyc td) (new_pyc td) m1 = (m2, None) →
  write_bytes (new_py td) FACADE_SOURCE m2 = (m3, None) →
  exists_ (compile_effect E (new_py td) m3) (pyc_file td) = true →
  (if DEBUG_MODE then m5 = compile_effect E (new_py td) m3
   else unlink_missing_ok (new_py td) (compile_effect E (new_py td) m3) = (m5, None)) →
  ∃ a result,
    compileall E m3 (new_py td) = Exited result (Some a) ∧
    m3 !! new_py td = Some (File FACADE_SOURCE) ∧
    m5 !! old_pyc td = Some (File a) ∧
    m5 !! new_pyc td = Some (File d) ∧
    m5 !! new_py td = (if DEBUG_MODE then Some (File FACADE_SOURCE) else None) ∧
    ∀ q, q ≠ old_pyc td → q ≠ new_pyc td → q ≠ new_py td → m5 !! q = m1 !! q.
Proof.
  intros Hold Hren Hwr Hex Hunl.
  destruct (lic_paths_ne td) as (Hn1 & Hn2 & Hn3).
  apply (rename_file_ok _ _ _ _ _ Hold) in Hren. apply write_bytes_ok in Hwr.
  assert (m3 !! old_pyc td = None) as Hgone.
  { subst m3 m2. rewrite !lookup_insert_ne by done. by rewrite lookup_delete_eq. }
  unfold compile_effect in *. rewrite compiled_path_new_py in *.
  rewrite pyc_file_old_pyc in Hex.
  destruct (compileall E m3 (new_py td)) as [result [a|]|e];
    [|by unfold exists_ in Hex; rewrite Hgone in Hex..].
  unfold is_dir in *. rewrite Hgone in *.
  set (m4 := <[old_pyc td := File a]> m3) in *.
  assert (m4 !! new_py td = Some (File FACADE_SOURCE)) as Hpy4.
  { unfold m4. rewrite lookup_insert_ne by done. subst m3. by rewrite lookup_insert_eq. }
  exists a, result. split; [done|]. split.
  { subst m3. by rewrite lookup_insert_eq. }
  destruct DEBUG_MODE.
  - subst m5. unfold m4. split_and!.
    + by rewrite lookup_insert_eq.
    + subst m3 m2. rewrite !lookup_insert_ne by done. by rewrite lookup_insert_eq.
    + done.
    + intros q ? ? ?. subst m3 m2. rewrite !lookup_insert_ne by done.
      by rewrite lookup_delete_ne.
  - unfold unlink_missing_ok in Hunl. rewrite Hpy4 in Hunl. injection Hunl as <-.
    unfold m4. split_and!.
    + rewrite lookup_delete_ne by done. by rewrite lookup_insert_eq.
    + rewrite lookup_delete_ne by done. subst m3 m2.
      rewrite !lookup_insert_ne by done. by rewrite lookup_insert_eq.
    + by rewrite lookup_delete_eq.
    + intros q ? ? ?. rewrite lookup_delete_ne by done. subst m3 m2.
      rewrite !lookup_insert_ne by done. by rewrite lookup_delete_ne.
Qed.

Lemma patch_body_archive S td w0 w1 m1 d :
  patch_body DEBUG_MODE E S td w0 = (Normal tt, w1) →
  is_file (fs w0) S = true → under td S = false →
  S ≠ backup_path E S → S ≠ backup_path E S ++ [name S] →
  under td (backup_path E S) = false →
  under td (backup_path E S ++ [name S]) = false →
  name S ≠ "extracted" →
  copy_and_extract S td (fs w0) = (m1, None) →
  m1 !! old_pyc td = Some (File d) →
  ∃ zf a result m3,
    fs w1 !! S = Some (File (zip_encode ZIP_DEFLATED zf)) ∧
    m3 !! new_py td = Some (File FACADE_SOURCE) ∧
    compileall E m3 (new_py td) = Exited result (Some a) ∧
    returncode result = 0%Z ∧
    NoDup (arcname_of <$> zf) ∧
    ∀ mb, mb ∈ zf ↔
          arcname_of mb ≠ [] ∧
          patched_tree_of DEBUG_MODE a d (λ rel, m1 !! (extract_dir td ++ rel))
            (arcname_of mb) = Some (node_of mb).
Proof.
  intros Hrun Hfile HuS Hb1 Hb2 Hub1 Hub2 Hname Hce Hold.
  unfold patch_body in Hrun. rewrite run_steps_app, bind_eq in Hrun.
  destruct (run_steps (build_steps DEBUG_MODE E S td) w0) as [o7 w7] eqn:Hbuild.
  destruct (build_spec S td w0 o7 w7 Hbuild) as (_ & _ & _ & Hchain).
  destruct (build_run DEBUG_MODE E S td w0 o7 w7 Hbuild) as (_ & _ & _ & _ & Hframe7).
  destruct o7 as [[]| |e]; [|done..]. cbn [run_steps] in Hrun.
  rewrite bind_eq in Hrun.
  destruct (step_backup DEBUG_MODE E S w7) as [o8 w8] eqn:Hbackup.
  destruct (step_backup_run DEBUG_MODE E _ _ _ _ Hbackup) as (m8 & e8 & Hc8 & Hfs8 & _ & Ho8).
  destruct o8 as [[]| |e]; [|done..]. rewrite bind_eq in Hrun.
  destruct (step_deploy DEBUG_MODE S td w8) as [o9 w9] eqn:Hdeploy.
  destruct (step_deploy_run DEBUG_MODE _ _ _ _ _ Hdeploy) as (m9 & e9 & Hc9 & Hfs9 & _ & Ho9).
  destruct o9 as [[]| |e]; [|done..]. injection Hrun as <-.
  destruct e9 as [e9|]; [done|]. subst m8 m9.
  destruct (Hchain eq_refl) as (m1' & m2 & m3 & m5 & Hce' & _ & Hren & Hwr & (result & art & Hcomp & Hrc)
                                & Hex & Hunl & Hrep).
  rewrite Hce in Hce'. injection Hce' as <-.
  destruct (patched_tree td m1 m2 m3 m5 d Hold Hren Hwr Hex Hunl)
    as (a & result' & Hcomp' & Hpy3 & H5a & H5b & H5c & H5o).
  rewrite Hcomp in Hcomp'. injection Hcomp' as <- ->.
  (* the extraction directory is still there *)
  destruct (lic_paths_ne td) as (Hn1 & Hn2 & Hn3).
  assert (∀ n, extract_dir td ≠ lic_dir td ++ [n]) as Hext.
  { intros n. unfold lic_dir. rewrite <- app_assoc. by apply app_ne_self. }
  assert (is_dir m5 (extract_dir td) = true) as Hroot.
  { unfold is_dir. rewrite H5o; [|apply Hext..].
    by rewrite (copy_and_extract_dir _ _ _ _ Hce). }
  assert (under (extract_dir td) (dest_egg S td) = false) as Hout.
  { destruct (under (extract_dir td) (dest_egg S td)) eqn:Hu; [|done].
    apply under_true in Hu as [r Hr].
    unfold extract_dir, dest_egg in Hr. rewrite <- app_assoc in Hr.
    apply app_inv_head in Hr. injection Hr as Hr _. done. }
  destruct (repack_ok _ _ _ _ Hrep Hroot Hout) as (zf & Hfs7 & Hnodup & Hzf).
  exists zf, a, result, m3. split_and!; try done.
  - (* the deploy copy *)
    assert (strictly_under td S = false) as HS'.
    { destruct (strictly_under td S) eqn:Hs; [|done].
      apply strictly_under_under in Hs. congruence. }
    assert (fs w8 !! S = fs w0 !! S) as HS8.
    { assert (S ≠ copy2_target (fs w7) S (backup_path E S)) as Ht.
      { unfold copy2_target. by destruct (is_dir (fs w7) (backup_path E S)). }
      rewrite (copy2_frame _ _ _ _ _ _ Hc8 Ht). by apply Hframe7. }
    assert (fs w8 !! dest_egg S td = Some (File (zip_encode ZIP_DEFLATED zf))) as Hd8.
    { assert (dest_egg S td ≠ copy2_target (fs w7) S (backup_path E S)) as Ht.
      { unfold copy2_target. destruct (is_dir (fs w7) (backup_path E S)); intros Heq;
          rewrite <- Heq in *; unfold dest_egg in *; by rewrite under_app in *. }
      rewrite (copy2_frame _ _ _ _ _ _ Hc8 Ht), Hfs7. by rewrite lookup_insert_eq. }
    apply copy2_ok in Hc9 as (d9 & Hd9 & ->).
    rewrite copy2_file_target.
    + rewrite lookup_insert_eq. congruence.
    + unfold is_file in *. by rewrite HS8.
  - (* the members *)
    intros mb. rewrite Hzf. unfold patched_tree_of.
    destruct (decide (arcname_of mb = ["pyovpn"; "lic"; "uprop.pyc"])) as [->|Ha].
    { rewrite <- lic_path_rel. fold (old_pyc td). by rewrite H5a. }
    destruct (decide (arcname_of mb = ["pyovpn"; "lic"; "uprop2.pyc"])) as [->|Hb].
    { rewrite <- lic_path_rel. fold (new_pyc td). by rewrite H5b. }
    destruct (decide (arcname_of mb = ["pyovpn"; "lic"; "uprop.py"])) as [->|Hc].
    { rewrite <- lic_path_rel. fold (new_py td). rewrite H5c.
      destruct DEBUG_MODE; done. }
    rewrite H5o; [done|..]; unfold old_pyc, new_pyc, new_py;
      rewrite lic_path_rel; by intros ?%app_inv_head.
Qed.
End Success.

Section Completed.
Context `{ZipCodec}.
Variable DEBUG_MODE : bool.
Variable E : env.

(** A run that ends normally and logs no error has deployed the
    patched archive. *)
Lemma patch_completed_archive w S td d :
  located (fs w) = Some S → is_file (fs w) S = true →
  workspace E (fs w) = Some td →
  (patch DEBUG_MODE E w).1 = Normal tt →
  quiet (new_log w (patch DEBUG_MODE E w).2) = true →
  extracted_tree (fs w) S td ["pyovpn"; "lic"; "uprop.pyc"] = Some (File d) →
  ∃ zf a result m3,
    fs (patch DEBUG_MODE E w).2 !! S = Some (File (zip_encode ZIP_DEFLATED zf)) ∧
    m3 !! new_py td = Some (File FACADE_SOURCE) ∧
    compileall E m3 (new_py td) = Exited result (Some a) ∧
    returncode result = 0%Z ∧
    NoDup (arcname_of <$> zf) ∧
    ∀ mb, mb ∈ zf ↔
          arcname_of mb ≠ [] ∧
          patched_tree_of DEBUG_MODE a d (extracted_tree (fs w) S td)
            (arcname_of mb) = Some (node_of mb).
Proof.
  intros Hloc Hfile Hws Hnormal Hquiet Hold.
  destruct (run_names E _ _ _ Hloc Hws) as (HuS & HStd & Hb1 & Hb2 & Hub1 & Hub2).
  destruct (patch_quiet_run DEBUG_MODE E w S td Hloc Hfile Hws Hnormal Hquiet)
    as (w0 & w1 & Hfs0 & Hbody & _ & Hout).
  destruct (patch_body_spec DEBUG_MODE E S td w0 _ w1 Hbody) as (_ & _ & _ & Hchain).
  destruct (Hchain eq_refl) as (m1 & _ & _ & _ & _ & _ & _ & Hce & _).
  unfold extracted_tree in *. rewrite <- Hfs0, Hce in *. cbn [fst] in *.
  apply located_Some in Hloc as (n & -> & Hn & _).
  destruct (patch_body_archive DEBUG_MODE E (EGG_DIR ++ [n]) td w0 w1 m1 d)
    as (zf & a & result & m3 & HS & Hpy & Hcomp & Hrc & Hnd & Hzf); try done.
  - unfold is_file in *. rewrite Hfs0, lookup_insert_ne by done. done.
  - rewrite name_snoc. by intros ->.
  - rewrite <- lic_path_rel in Hold. exact Hold.
  - exists zf, a, result, m3. split_and!; try done. by rewrite Hout.
Qed.
End Completed.

(* ================================================================== *)
(** * Patching a patched archive *)
(* ================================================================== *)

Lemma tree_of_lookup zf rel n :
  NoDup (arcname_of <$> zf) →
  tree_of zf !! rel = Some n ↔ ∃ mb, mb ∈ zf ∧ arcname_of mb = rel ∧ node_of mb = n.
Proof.
  intros Hnd. unfold tree_of. rewrite <- elem_of_list_to_map.
  - rewrite list_elem_of_fmap. split.
    + intros (mb & [= -> ->] & Hin). eauto.
    + intros (mb & Hin & <- & <-). eauto.
  - by rewrite <- list_fmap_compose.
Qed.

Lemma module_file_uprop :
  module_file "pyovpn.lic.uprop" = ["pyovpn"; "lic"; "uprop.pyc"] ∧
  module_file "pyovpn.lic.uprop2" = ["pyovpn"; "lic"; "uprop2.pyc"].
Proof. by vm_compute. Qed.

(** Importing the facade from an archive in which the alias module is
    the facade as well. *)
Lemma import_facade_over_facade (unmarshal : string → option code)
    (foreign : value → list value → Py value)
    (exec_other : loc → string → Py unit) (zf : list member)
    (a dF : string) (depth : nat) (st : store) :
  NoDup (arcname_of <$> zf) →
  MFile ["pyovpn"; "lic"; "uprop.pyc"] a ∈ zf →
  MFile ["pyovpn"; "lic"; "uprop2.pyc"] dF ∈ zf →
  unmarshal a = Some Facade → unmarshal dF = Some Facade →
  sys_modules st !! "pyovpn.lic.uprop" = None →
  sys_modules st !! "pyovpn.lic.uprop2" = None →
  ∃ l st2,
    import_module (PyEnv (finder_in unmarshal (tree_of zf) []) foreign exec_other)
      (S (S depth)) "pyovpn.lic.uprop" st = (Normal (VRef l), st2) ∧
    getattr (VRef l) "UsageProperties" st2
      = (Raised (Exn AttributeError "UsageProperties"), st2) ∧
    ∀ c attrs, objects st !! c = Some (Class attrs) →
               objects st2 !! c = Some (Class attrs).
Proof.
  intros Hnd Ha HdF Hua HuF Hnew1 Hnew2.
  destruct module_file_uprop as [Hf1 Hf2].
  set (P := PyEnv (finder_in unmarshal (tree_of zf) []) foreign exec_other).
  assert (finder P "pyovpn.lic.uprop" = Some Facade) as Hfind1.
  { simpl. unfold finder_in. rewrite Hf1. simpl.
    rewrite (proj2 (tree_of_lookup zf _ (File a) Hnd)); [done|]. eauto. }
  assert (finder P "pyovpn.lic.uprop2" = Some Facade) as Hfind2.
  { simpl. unfold finder_in. rewrite Hf2. simpl.
    rewrite (proj2 (tree_of_lookup zf _ (File dF) Hnd)); [done|]. eauto. }
  set (l := fresh_loc st).
  assert (objects st !! l = None) as Hl by apply fresh_loc_fresh.
  set (st1 := Store (<[l := fresh_module "pyovpn.lic.uprop"]> (objects st))
                    (<["pyovpn.lic.uprop" := l]> (sys_modules st)) (writes st)).
  destruct (facade_over_facade P depth l st1
              (<["__name__" := VStr "pyovpn.lic.uprop"]> (<["__doc__" := VNone]> ∅)))
    as (st2 & Hrun & Hget & Hcls & _).
  { exact Hfind2. }
  { simpl. by rewrite lookup_insert_ne. }
  { simpl. by rewrite lookup_insert_eq. }
  { done. }
  { done. }
  { done. }
  { apply fresh_module_plain. }
  exists l, st2. split_and!.
  - unfold import_module, import_from. rewrite Hnew1, Hfind1. fold l. fold st1.
    by rewrite Hrun.
  - exact Hget.
  - intros c attrs Hc. apply Hcls. simpl.
    rewrite lookup_insert_ne; [done|]. intros <-. congruence.
Qed.

(** C4, as stated, fails on a concrete archive: the second run
    completes, but the alias module of the twice-patched archive holds
    the facade, and importing the facade from it yields a module from
    which [UsageProperties] cannot be read. *)
Lemma C4_counterexample :
  let second := @patch bits_codec false good_env (world0 once_patched) in
  second.1 = Normal tt ∧
  quiet (new_log (world0 once_patched) second.2) = true ∧
  MFile ["pyovpn"; "lic"; "uprop2.pyc"] "ORIGINAL"
    ∈ default [] (@zip_decode bits_codec (egg_of once_patched)) ∧
  MFile ["pyovpn"; "lic"; "uprop2.pyc"] "FACADE"
    ∈ default [] (@zip_decode bits_codec (egg_of twice_patched)) ∧
  ¬ ∃ m st2 cls st3,
      import_module (egg_env (egg_of twice_patched)) 5 "pyovpn.lic.uprop" lic_store
        = (Normal m, st2) ∧
      getattr m "UsageProperties" st2 = (Normal cls, st3).
Proof.
  intros second. split_and!.
  - by vm_compute.
  - by vm_compute.
  - vm_compute. repeat first [by left | right].
  - vm_compute. repeat first [by left | right].
  - intros (m & st2 & cls & st3 & Himp & Hget).
    assert (is_normal
              (getattr
                 (value_of (import_module (egg_env (egg_of twice_patched)) 5
                              "pyovpn.lic.uprop" lic_store).1)
                 "UsageProperties"
                 (import_module (egg_env (egg_of twice_patched)) 5
                    "pyovpn.lic.uprop" lic_store).2).1 = false) as Hc
      by (by vm_compute).
    rewrite Himp in Hc. cbn [fst snd value_of] in Hc. by rewrite Hget in Hc.
Qed.

(** C4, amended. A run on a patched archive (one that extracts to both
    [pyovpn/lic/uprop.pyc] and [pyovpn/lic/uprop2.pyc]) that ends
    normally without logging an error deploys an archive in which
    [uprop2.pyc] holds what [uprop.pyc] held, the first run's facade,
    in place of the original module, and [uprop.pyc] holds the newly
    compiled facade.  When both load as the facade, importing
    [pyovpn.lic.uprop] from that archive succeeds and touches no class,
    so nothing is wrapped, neither once nor into a cycle; but the
    module it yields has no [UsageProperties]. *)
Theorem C4_second_run_replaces_the_original `{ZipCodec} (DEBUG_MODE : bool) (E : env)
    (w : world) (S td : path) (dF dO : string) :
  located (fs w) = Some S → is_file (fs w) S = true →
  workspace E (fs w) = Some td →
  extracted_tree (fs w) S td ["pyovpn"; "lic"; "uprop.pyc"] = Some (File dF) →
  extracted_tree (fs w) S td ["pyovpn"; "lic"; "uprop2.pyc"] = Some (File dO) →
  (patch DEBUG_MODE E w).1 = Normal tt →
  quiet (new_log w (patch DEBUG_MODE E w).2) = true →
  ∃ zf a,
    fs (patch DEBUG_MODE E w).2 !! S = Some (File (zip_encode ZIP_DEFLATED zf)) ∧
    (∀ d, MFile ["pyovpn"; "lic"; "uprop2.pyc"] d ∈ zf ↔ d = dF) ∧
    (∀ d, MFile ["pyovpn"; "lic"; "uprop.pyc"] d ∈ zf ↔ d = a) ∧
    ∀ (unmarshal : string → option code) (foreign : value → list value → Py value)
      (exec_other : loc → string → Py unit) (depth : nat) (st : store),
      unmarshal a = Some Facade → unmarshal dF = Some Facade →
      sys_modules st !! "pyovpn.lic.uprop" = None →
      sys_modules st !! "pyovpn.lic.uprop2" = None →
      ∃ l st2,
        import_module (PyEnv (finder_in unmarshal (tree_of zf) []) foreign exec_other)
          (2 + depth) "pyovpn.lic.uprop" st = (Normal (VRef l), st2) ∧
        getattr (VRef l) "UsageProperties" st2
          = (Raised (Exn AttributeError "UsageProperties"), st2) ∧
        ∀ c attrs, objects st !! c = Some (Class attrs) →
                   objects st2 !! c = Some (Class attrs).
Proof.
  intros Hloc Hfile Hws HdF HdO Hnormal Hquiet.
  destruct (patch_completed_archive DEBUG_MODE E w S td dF
              Hloc Hfile Hws Hnormal Hquiet HdF)
    as (zf & a & result & m3 & HS & _ & _ & _ & Hnd & Hzf).
  assert (∀ d, MFile ["pyovpn"; "lic"; "uprop2.pyc"] d ∈ zf ↔ d = dF) as H2.
  { intros d. rewrite Hzf. unfold patched_tree_of. simpl.
    split; [intros [_ [=]]; done|intros ->; done]. }
  assert (∀ d, MFile ["pyovpn"; "lic"; "uprop.pyc"] d ∈ zf ↔ d = a) as H1.
  { intros d. rewrite Hzf. unfold patched_tree_of. simpl.
    split; [intros [_ [=]]; done|intros ->; done]. }
  exists zf, a. split_and!; [done..|].
  intros unmarshal foreign exec_other depth st Hua HuF Hn1 Hn2.
  apply (import_facade_over_facade unmarshal foreign exec_other zf a dF depth st);
    try done.
  - by apply H1.
  - by apply H2.
Qed.

Lemma second_run_facts :
  let w := world0 once_patched in
  located (fs w) = Some egg_path ∧ is_file (fs w) egg_path = true ∧
  workspace good_env (fs w) = Some ws_path ∧
  @extracted_tree bits_codec (fs w) egg_path ws_path ["pyovpn"; "lic"; "uprop.pyc"]
    = Some (File "FACADE") ∧
  @extracted_tree bits_codec (fs w) egg_path ws_path ["pyovpn"; "lic"; "uprop2.pyc"]
    = Some (File "ORIGINAL") ∧
  (@patch bits_codec false good_env w).1 = Normal tt ∧
  quiet (new_log w (@patch bits_codec false good_env w).2) = true.
Proof. vm_compute. by split_and!. Qed.

Lemma C4_witness :
  let w := world0 once_patched in
  (located (fs w) = Some egg_path ∧ is_file (fs w) egg_path = true ∧
   workspace good_env (fs w) = Some ws_path ∧
   @extracted_tree bits_codec (fs w) egg_path ws_path ["pyovpn"; "lic"; "uprop.pyc"]
     = Some (File "FACADE") ∧
   @extracted_tree bits_codec (fs w) egg_path ws_path ["pyovpn"; "lic"; "uprop2.pyc"]
     = Some (File "ORIGINAL") ∧
   (@patch bits_codec false good_env w).1 = Normal tt ∧
   quiet (new_log w (@patch bits_codec false good_env w).2) = true) ∧
  ∃ zf a,
    fs (@patch bits_codec false good_env w).2 !! egg_path
      = Some (File (@zip_encode bits_codec ZIP_DEFLATED zf)) ∧
    (∀ d, MFile ["pyovpn"; "lic"; "uprop2.pyc"] d ∈ zf ↔ d = "FACADE") ∧
    (∀ d, MFile ["pyovpn"; "lic"; "uprop.pyc"] d ∈ zf ↔ d = a) ∧
    ∀ (unmarshal : string → option code) (foreign : value → list value → Py value)
      (exec_other : loc → string → Py unit) (depth : nat) (st : store),
      unmarshal a = Some Facade → unmarshal "FACADE" = Some Facade →
      sys_modules st !! "pyovpn.lic.uprop" = None →
      sys_modules st !! "pyovpn.lic.uprop2" = None →
      ∃ l st2,
        import_module (PyEnv (finder_in unmarshal (tree_of zf) []) foreign exec_other)
          (2 + depth) "pyovpn.lic.uprop" st = (Normal (VRef l), st2) ∧
        getattr (VRef l) "UsageProperties" st2
          = (Raised (Exn AttributeError "UsageProperties"), st2) ∧
        ∀ c attrs, objects st !! c = Some (Class attrs) →
                   objects st2 !! c = Some (Class attrs).
Proof.
  intros w.
  destruct second_run_facts as (H1 & H2 & H3 & H4 & H5 & H6 & H7).
  split; [by split_and!|].
  exact (@C4_second_run_replaces_the_original bits_codec false good_env w
           egg_path ws_path "FACADE" "ORIGINAL" H1 H2 H3 H4 H5 H6 H7).
Defined.

(* ================================================================== *)
(** * Further properties of the pipeline and of the facade *)
(* ================================================================== *)

Lemma find_source_egg_log (D : bool) (w : world) :
  ∃ w', find_source_egg D w = (Normal (head (glob (fs w) EGG_DIR EGG_PATTERN)), w') ∧
        fs w' = fs w ∧ trace w' = trace w ∧
        log w' = log w ++
          match glob (fs w) EGG_DIR EGG_PATTERN with
          | [] => [(ERROR, "No egg file matching pyovpn-*.egg found in /usr/local/openvpn_as/lib/python")]
          | [_] => []
          | first :: _ :: _ =>
              [(WARNING, "Multiple egg files found: "
                         +:+ repr_paths (glob (fs w) EGG_DIR EGG_PATTERN)
                         +:+ ". Using the first one: " +:+ str_path first)]
          end.
Proof.
  unfold find_source_egg. rewrite bind_eq. unfold fs_read. cbn beta iota.
  destruct (glob (fs w) EGG_DIR EGG_PATTERN) as [|S [|S' rest]] eqn:Hg.
  - rewrite bind_eq, logger_error_run. eexists. split; [done|].
    by rewrite fs_logged, trace_logged, log_logged_error.
  - eexists. split; [done|]. by rewrite app_nil_r.
  - cbn [length Nat.ltb Nat.leb]. rewrite bind_eq.
    unfold logger_warning, logger_log. eexists. split; [done|].
    rewrite fs_logged, trace_logged. split_and!; [done..|].
    unfold logged. by destruct D.
Qed.


Lemma find_source_egg_two_matches :
  (find_source_egg false (world0 two_eggs_fs)).1
    = Normal (Some (EGG_DIR ++ ["pyovpn-1.2.3.egg"])) ∧
  log (find_source_egg false (world0 two_eggs_fs)).2 =
    [(WARNING, "Multiple egg files found: [PosixPath('/usr/local/openvpn_as/lib/python/pyovpn-1.2.3.egg'), PosixPath('/usr/local/openvpn_as/lib/python/pyovpn-2.0.egg')]. Using the first one: /usr/local/openvpn_as/lib/python/pyovpn-1.2.3.egg")].
Proof. vm_compute. done. Qed.


(** X3. When the archive is found but no workspace can be created, the
    exception of [tempfile.mkdtemp] leaves [patch]: the call is made
    before the [try] block.  Nothing is written. *)
Theorem X3_workspace_failure_escapes `{ZipCodec} (D : bool) (E : env) (w : world)
    (S : path) (m0 : gmap path node) (e : exn) :
  located (fs w) = Some S → is_file (fs w) S = true →
  mkdtemp_in (tmproot E) "pyovpn_patch_" (tmpnames E) (fs w) = (m0, inl e) →
  ∃ w', patch D E w = (Raised e, w') ∧ fs w' = fs w ∧
        trace w' = trace w ++ [EvMkdtemp (tmproot E) "pyovpn_patch_"].
Proof. apply patch_no_workspace. Qed.

Lemma X3_witness :
  let w := world0 live_fs in
  let e := Exn FileExistsError "No usable temporary directory name found" in
  (located (fs w) = Some egg_path ∧ is_file (fs w) egg_path = true ∧
   mkdtemp_in (tmproot no_names_env) "pyovpn_patch_" (tmpnames no_names_env) (fs w)
     = (fs w, inl e)) ∧
  ∃ w', @patch bits_codec false no_names_env w = (Raised e, w') ∧ fs w' = fs w ∧
        trace w' = trace w ++ [EvMkdtemp (tmproot no_names_env) "pyovpn_patch_"].
Proof.
  intros w e.
  assert (located (fs w) = Some egg_path) as H1 by (vm_compute; reflexivity).
  assert (is_file (fs w) egg_path = true) as H2 by (vm_compute; reflexivity).
  assert (mkdtemp_in (tmproot no_names_env) "pyovpn_patch_" (tmpnames no_names_env) (fs w)
          = (fs w, inl e)) as H3 by reflexivity.
  split; [by split_and!|].
  exact (@X3_workspace_failure_escapes bits_codec false no_names_env w
           egg_path (fs w) e H1 H2 H3).
Defined.

(** X4. When the match of the pattern is not a regular file, [patch]
    logs two [ERROR] records after what the search logged, and ends
    without an effect: no workspace is created. *)
Theorem X4_source_not_a_file `{ZipCodec} (D : bool) (E : env) (w : world) (S : path) :
  located (fs w) = Some S → is_file (fs w) S = false →
  ∃ w' r, patch D E w = (Normal tt, w') ∧ fs w' = fs w ∧ trace w' = trace w ∧
          Forall (λ x, x.1 = WARNING) r ∧
          log w' = log w ++ [(INFO, start_message)] ++ r ++
            [(ERROR, "Source egg not found: " +:+ str_path S);
             (ERROR, "Ensure script is run as root and path is correct.")].
Proof.
  intros Hloc Hfile. unfold patch, def. rewrite bind_eq.
  unfold logger_info at 1, logger_log at 1. rewrite bind_eq.
  destruct (find_source_egg_log D (logged D INFO start_message w))
    as (wa & Hrun & Hfs & Htr & Hlog).
  fold start_message. rewrite Hrun. rewrite fs_logged in Hfs, Hlog |- *.
  rewrite trace_logged in Htr. unfold located in Hloc. rewrite Hloc.
  rewrite bind_eq. unfold fs_read at 1. rewrite Hfs, Hfile. cbn [negb].
  rewrite bind_eq, logger_error_run, bind_eq, logger_error_run. unfold return_.
  rewrite log_logged_info in Hlog.
  exists (logged D ERROR "Ensure script is run as root and path is correct."
            (logged D ERROR ("Source egg not found: " +:+ str_path S) wa)),
         (match glob (fs w) EGG_DIR EGG_PATTERN with
          | [] => [(ERROR, "No egg file matching pyovpn-*.egg found in /usr/local/openvpn_as/lib/python")]
          | [_] => []
          | first :: _ :: _ =>
              [(WARNING, "Multiple egg files found: "
                         +:+ repr_paths (glob (fs w) EGG_DIR EGG_PATTERN)
                         +:+ ". Using the first one: " +:+ str_path first)]
          end).
  split; [done|]. rewrite !fs_logged, !trace_logged, !log_logged_error.
  split_and!; [done|done| |].
  - destruct (glob (fs w) EGG_DIR EGG_PATTERN) as [|? [|? ?]]; [done| |];
      by repeat constructor.
  - rewrite Hlog, <- !app_assoc. done.
Qed.

Lemma X4_witness :
  let w := world0 dir_egg_fs in
  (located (fs w) = Some egg_path ∧ is_file (fs w) egg_path = false) ∧
  ∃ w' r, @patch bits_codec false good_env w = (Normal tt, w') ∧
          fs w' = fs w ∧ trace w' = trace w ∧
          Forall (λ x, x.1 = WARNING) r ∧
          log w' = log w ++ [(INFO, start_message)] ++ r ++
            [(ERROR, "Source egg not found: " +:+ str_path egg_path);
             (ERROR, "Ensure script is run as root and path is correct.")].
Proof.
  intros w.
  assert (located (fs w) = Some egg_path) as H1 by (vm_compute; reflexivity).
  assert (is_file (fs w) egg_path = false) as H2 by (vm_compute; reflexivity).
  split; [by split|].
  exact (@X4_source_not_a_file bits_codec false good_env w egg_path H1 H2).
Defined.

(** X5. [setup_temp_dir] creates a directory that did not exist, named
    by the prefix and one of the candidate names under the temporary
    root, returns its path, and logs one [DEBUG] record, which the
    logger keeps in debug mode only. *)
Theorem X5_setup_temp_dir_creates_fresh (D : bool) (E : env) (prefix : string)
    (w : world) (m0 : gmap path node) (p : path) :
  mkdtemp_in (tmproot E) prefix (tmpnames E) (fs w) = (m0, inr p) →
  ∃ w', setup_temp_dir D E prefix w = (Normal p, w') ∧
        fs w !! p = None ∧ fs w' = <[p := Dir]> (fs w) ∧
        (∃ n, n ∈ tmpnames E ∧ p = tmproot E ++ [prefix +:+ n]) ∧
        trace w' = trace w ++ [EvMkdtemp (tmproot E) prefix] ∧
        log w' = log w ++
          (if D then [(DEBUG, "Created temporary directory: " +:+ str_path p)] else []).
Proof.
  intros Hmk. destruct (mkdtemp_in_inr _ _ _ _ _ _ Hmk) as (Hfresh & -> & Hn).
  unfold setup_temp_dir. rewrite bind_eq. unfold tempfile_mkdtemp.
  rewrite Hmk. cbn [fst snd]. rewrite bind_eq.
  unfold logger_debug, logger_log. eexists. split; [done|].
  rewrite fs_logged, trace_logged. split_and!; [done..|].
  unfold logged. destruct D; simpl; [done|by rewrite app_nil_r].
Qed.

Lemma X5_witness :
  let w := world0 live_fs in
  mkdtemp_in (tmproot good_env) "pyovpn_patch_" (tmpnames good_env) (fs w)
    = (<[ws_path := Dir]> (fs w), inr ws_path) ∧
  ∃ w', setup_temp_dir true good_env "pyovpn_patch_" w = (Normal ws_path, w') ∧
        fs w !! ws_path = None ∧ fs w' = <[ws_path := Dir]> (fs w) ∧
        (∃ n, n ∈ tmpnames good_env ∧ ws_path = tmproot good_env ++ ["pyovpn_patch_" +:+ n]) ∧
        trace w' = trace w ++ [EvMkdtemp (tmproot good_env) "pyovpn_patch_"] ∧
        log w' = log w ++
          (if true then [(DEBUG, "Created temporary directory: " +:+ str_path ws_path)]
           else []).
Proof.
  intros w.
  assert (mkdtemp_in (tmproot good_env) "pyovpn_patch_" (tmpnames good_env) (fs w)
          = (<[ws_path := Dir]> (fs w), inr ws_path)) as H1 by reflexivity.
  split; [exact H1|].
  exact (X5_setup_temp_dir_creates_fresh true good_env "pyovpn_patch_" w _ ws_path H1).
Defined.

(** X6. The backup step treats every [FileNotFoundError] of the copy as
    a missing live archive: it logs the [WARNING] record and goes on,
    also when it is the backup directory that is missing; any other
    exception of the copy leaves the step. *)
Theorem X6_backup_skipped_on_FileNotFoundError `{ZipCodec} (D : bool) (E : env) (S : path)
    (w : world) (e : exn) :
  (copy2 S (backup_path E S) (fs w)).2 = Some e →
  ∃ w', step_backup D E S w
          = (if isinstance e FileNotFoundError then Normal tt else Raised e, w') ∧
        fs w' = (copy2 S (backup_path E S) (fs w)).1 ∧
        trace w' = trace w ++ [EvCopy S (backup_path E S)] ∧
        log w' = log w ++
          (if isinstance e FileNotFoundError
           then [(WARNING, "No existing live egg found to back up (first install?)")]
           else []).
Proof.
  intros Hc. unfold step_backup, try_except. rewrite bind_eq. unfold fs_do at 1.
  rewrite Hc. destruct (isinstance e FileNotFoundError).
  - unfold logger_warning, logger_log. eexists. split; [done|].
    rewrite fs_logged, trace_logged. split_and!; [done..|].
    unfold logged. by destruct D.
  - eexists. split; [done|]. split_and!; [done..|]. simpl. by rewrite app_nil_r.
Qed.

Lemma X6_witness :
  let w := world0 no_backup_dir_fs in
  let e := Exn FileNotFoundError (str_path (backup_path good_env egg_path)) in
  (is_file (fs w) egg_path = true ∧
   (copy2 egg_path (backup_path good_env egg_path) (fs w)).2 = Some e) ∧
  ∃ w', @step_backup false good_env egg_path w
          = (if isinstance e FileNotFoundError then Normal tt else Raised e, w') ∧
        fs w' = (copy2 egg_path (backup_path good_env egg_path) (fs w)).1 ∧
        trace w' = trace w ++ [EvCopy egg_path (backup_path good_env egg_path)] ∧
        log w' = log w ++
          (if isinstance e FileNotFoundError
           then [(WARNING, "No existing live egg found to back up (first install?)")]
           else []).
Proof.
  intros w e.
  assert (is_file (fs w) egg_path = true) as H0 by (vm_compute; reflexivity).
  assert ((copy2 egg_path (backup_path good_env egg_path) (fs w)).2 = Some e) as H1
    by (vm_compute; reflexivity).
  split; [by split|].
  exact (@X6_backup_skipped_on_FileNotFoundError bits_codec false good_env egg_path w e H1).
Defined.

(** X7. When the compiler exits with a non-zero status, the compile
    step logs three [ERROR] records, with [(no stdout)] and
    [(no stderr)] standing for empty captured output, and executes
    [return]; it does so whether or not a compiled file was written. *)
Theorem X7_compile_failure_report (D : bool) (E : env) (td : path) (w : world)
    (result : CompletedProcess) (artifact : option string) :
  compileall E (fs w) (new_py td) = Exited result artifact →
  returncode result ≠ 0%Z →
  ∃ w', step_compile D E td w = (Returned, w') ∧
        fs w' = compile_effect E (new_py td) (fs w) ∧
        trace w' = trace w ++ [EvSpawn (compile_argv td) (lic_dir td)] ∧
        log w' = log w ++
          [(ERROR, "Compilation failed:");
           (ERROR, "stdout: " +:+ str_or (stdout result) "(no stdout)");
           (ERROR, "stderr: " +:+ str_or (stderr result) "(no stderr)")].
Proof.
  intros Hc Hrc. unfold step_compile. rewrite bind_eq. unfold subprocess_run.
  rewrite Hc. apply Z.eqb_neq in Hrc. rewrite Hrc. cbn [negb].
  rewrite bind_eq, logger_error_run, bind_eq, logger_error_run, bind_eq, logger_error_run.
  unfold return_, compile_effect. rewrite Hc.
  destruct artifact as [a|];
    [destruct (is_dir (fs w) (compiled_path (new_py td)))|];
    (eexists; split; [done|];
     rewrite !fs_logged, !trace_logged, !log_logged_error, <- !app_assoc; done).
Qed.

Lemma X7_witness :
  let w := world0 live_fs in
  let result := Completed 1 EmptyString "SyntaxError" in
  (compileall failing_env (fs w) (new_py ws_path) = Exited result None ∧
   returncode result ≠ 0%Z) ∧
  ∃ w', step_compile false failing_env ws_path w = (Returned, w') ∧
        fs w' = compile_effect failing_env (new_py ws_path) (fs w) ∧
        trace w' = trace w ++ [EvSpawn (compile_argv ws_path) (lic_dir ws_path)] ∧
        log w' = log w ++
          [(ERROR, "Compilation failed:");
           (ERROR, "stdout: " +:+ str_or (stdout result) "(no stdout)");
           (ERROR, "stderr: " +:+ str_or (stderr result) "(no stderr)")].
Proof.
  intros w result.
  assert (compileall failing_env (fs w) (new_py ws_path) = Exited result None) as H1
    by reflexivity.
  assert (returncode result ≠ 0%Z) as H2 by (simpl; lia).
  split; [by split|].
  exact (X7_compile_failure_report false failing_env ws_path w result None H1 H2).
Defined.

(** X8. A run of [patch] that ends normally and logs no [ERROR] record
    has run its [try] block to the end: its effects are the creation
    of the workspace, every step of the block in order, and the
    cleanup; outside the workspace the file system is as the block
    left it. *)
Theorem X8_quiet_run_performs_every_step `{ZipCodec} (D : bool) (E : env) (w : world)
    (S td : path) :
  located (fs w) = Some S → is_file (fs w) S = true →
  workspace E (fs w) = Some td →
  (patch D E w).1 = Normal tt →
  quiet (new_log w (patch D E w).2) = true →
  ∃ w0 w1,
    fs w0 = <[td := Dir]> (fs w) ∧
    patch_body D E S td w0 = (Normal tt, w1) ∧
    new_events w (patch D E w).2 =
      EvMkdtemp (tmproot E) "pyovpn_patch_" :: body_trace D E S td ++ cleanup_trace D td ∧
    ∀ q, under td q = false → fs (patch D E w).2 !! q = fs w1 !! q.
Proof. apply patch_quiet_run. Qed.

Lemma first_run_facts :
  let w := world0 live_fs in
  located (fs w) = Some egg_path ∧ is_file (fs w) egg_path = true ∧
  workspace good_env (fs w) = Some ws_path ∧
  (@patch bits_codec false good_env w).1 = Normal tt ∧
  quiet (new_log w (@patch bits_codec false good_env w).2) = true ∧
  @extracted_tree bits_codec (fs w) egg_path ws_path ["pyovpn"; "lic"; "uprop.pyc"]
    = Some (File "ORIGINAL").
Proof. vm_compute. by split_and!. Qed.

Lemma X8_witness :
  let w := world0 live_fs in
  (located (fs w) = Some egg_path ∧ is_file (fs w) egg_path = true ∧
   workspace good_env (fs w) = Some ws_path ∧
   (@patch bits_codec false good_env w).1 = Normal tt ∧
   quiet (new_log w (@patch bits_codec false good_env w).2) = true) ∧
  ∃ w0 w1,
    fs w0 = <[ws_path := Dir]> (fs w) ∧
    @patch_body bits_codec false good_env egg_path ws_path w0 = (Normal tt, w1) ∧
    new_events w (@patch bits_codec false good_env w).2 =
      EvMkdtemp (tmproot good_env) "pyovpn_patch_"
        :: body_trace false good_env egg_path ws_path ++ cleanup_trace false ws_path ∧
    ∀ q, under ws_path q = false →
         fs (@patch bits_codec false good_env w).2 !! q = fs w1 !! q.
Proof.
  intros w. destruct first_run_facts as (H1 & H2 & H3 & H4 & H5 & _).
  split; [by split_and!|].
  exact (@X8_quiet_run_performs_every_step bits_codec false good_env w
           egg_path ws_path H1 H2 H3 H4 H5).
Defined.

(** X9. A run of [patch] that ends normally and logs no [ERROR] record
    leaves as the live archive a deflated archive whose members are,
    without duplicates, exactly the entries of the extracted tree with
    the compiled facade as [pyovpn/lic/uprop.pyc] and the former
    [uprop.pyc] as [pyovpn/lic/uprop2.pyc] (and the facade source in
    debug mode only); the compiled facade is what the compiler made of
    [FACADE_SOURCE]. *)
Theorem X9_completed_run_deploys_patched_tree `{ZipCodec} (D : bool) (E : env) (w : world)
    (S td : path) (d : string) :
  located (fs w) = Some S → is_file (fs w) S = true →
  workspace E (fs w) = Some td →
  (patch D E w).1 = Normal tt →
  quiet (new_log w (patch D E w).2) = true →
  extracted_tree (fs w) S td ["pyovpn"; "lic"; "uprop.pyc"] = Some (File d) →
  ∃ zf a result m3,
    fs (patch D E w).2 !! S = Some (File (zip_encode ZIP_DEFLATED zf)) ∧
    m3 !! new_py td = Some (File FACADE_SOURCE) ∧
    compileall E m3 (new_py td) = Exited result (Some a) ∧
    returncode result = 0%Z ∧
    NoDup (arcname_of <$> zf) ∧
    ∀ mb, mb ∈ zf ↔
          arcname_of mb ≠ [] ∧
          patched_tree_of D a d (extracted_tree (fs w) S td) (arcname_of mb)
            = Some (node_of mb).
Proof. apply patch_completed_archive. Qed.

Lemma X9_witness :
  let w := world0 live_fs in
  (located (fs w) = Some egg_path ∧ is_file (fs w) egg_path = true ∧
   workspace good_env (fs w) = Some ws_path ∧
   (@patch bits_codec false good_env w).1 = Normal tt ∧
   quiet (new_log w (@patch bits_codec false good_env w).2) = true ∧
   @extracted_tree bits_codec (fs w) egg_path ws_path ["pyovpn"; "lic"; "uprop.pyc"]
     = Some (File "ORIGINAL")) ∧
  ∃ zf a result m3,
    fs (@patch bits_codec false good_env w).2 !! egg_path
      = Some (File (@zip_encode bits_codec ZIP_DEFLATED zf)) ∧
    m3 !! new_py ws_path = Some (File FACADE_SOURCE) ∧
    compileall good_env m3 (new_py ws_path) = Exited result (Some a) ∧
    returncode result = 0%Z ∧
    NoDup (arcname_of <$> zf) ∧
    ∀ mb, mb ∈ zf ↔
          arcname_of mb ≠ [] ∧
          patched_tree_of false a "ORIGINAL"
            (@extracted_tree bits_codec (fs w) egg_path ws_path) (arcname_of mb)
            = Some (node_of mb).
Proof.
  intros w. destruct first_run_facts as (H1 & H2 & H3 & H4 & H5 & H6).
  split; [by split_and!|].
  exact (@X9_completed_run_deploys_patched_tree bits_codec false good_env w
           egg_path ws_path "ORIGINAL" H1 H2 H3 H4 H5 H6).
Defined.



(** X11. The text written as [uprop.py]: [textwrap.dedent] removes the
    sixteen columns of margin and empties the whitespace-only last
    line, [lstrip] removes the leading newline, so the text starts with
    the import at the first column and ends with a newline. *)
Theorem X11_facade_source_text :
  FACADE_SOURCE = join NL [
    "from pyovpn.lic import uprop2";
    EmptyString;
    "old_figure = None";
    EmptyString;
    "def new_figure(self, licdict):";
    "    ret = old_figure(self, licdict)";
    "    ret['concurrent_connections'] = 200";
    "    return ret";
    "for x in dir(uprop2):";
    "    if x[:2] == '__':";
    "        continue";
    "    if x == 'UsageProperties':";
    "        exec('old_figure = uprop2.UsageProperties.figure')";
    "        exec('uprop2.UsageProperties.figure = new_figure')";
    "    exec('%s = uprop2.%s' % (x, x))";
    EmptyString ].
Proof. vm_compute. reflexivity. Qed.
